(** * AbiPy flowtk: task execution and resource-adaptive scheduling

    A shallow embedding of the parts of [abipy/flowtk/tasks.py] and
    [abipy/flowtk/utils.py] that decide the behaviour of the task state
    machine, of the selection of parallel configurations and of the
    construction of the task manager.

    Conventions of the embedding:
    - Python floats are idealised as rationals ([Q]); Python ints are [Z].
    - A Python call that may raise returns a sum: [inl e] is the raised
      exception, [inr v] the returned value.
    - Methods that mutate [self] take the object and return the new one.
    - What is written with [logger] or with [self.history] is collected in a
      list of records, oldest first. *)

From Stdlib Require Import ZArith QArith Qround Lia.
From Stdlib Require Import DecimalString DecimalPos DecimalZ Sorted.
From stdpp Require Import base option list gmap strings.

Open Scope Z_scope.

(** ** Python exceptions *)

Inductive Exc : Type :=
| TypeError (msg : string)
| ValueError (msg : string)
| KeyError (msg : string)
| AttributeError (msg : string)
| ZeroDivisionError
| IndexError
| RuntimeError (msg : string)
| OSError (msg : string)
| RestartError (msg : string)
| QueueAdapterError (msg : string)
| ManagerIncreaseError (msg : string)
| FixQueueCriticalError
| DecreaseDemandsError (msg : string).

Definition is_ManagerIncreaseError (e : Exc) : bool :=
  match e with ManagerIncreaseError _ => true | _ => false end.

Definition is_DecreaseDemandsError (e : Exc) : bool :=
  match e with DecreaseDemandsError _ => true | _ => false end.

Definition is_QueueAdapterError (e : Exc) : bool :=
  match e with QueueAdapterError _ => true | _ => false end.

(** ** Logging *)

Inductive LogLevel : Type := DEBUG | INFO | WARNING | CRITICAL.

Definition LogRecord : Type := LogLevel * string.

(** ** Numbers as Python compares and prints them *)

Definition Qltb (a b : Q) : bool := negb (Qle_bool b a).

(** [int(x)] on a float: truncation towards zero. *)
Definition py_int_of_float (x : Q) : Z :=
  if Qle_bool 0 x then Qfloor x else Qceiling x.

(** [str(n)] for an int. *)
Definition str_of_Z (n : Z) : string := NilZero.string_of_int (Z.to_int n).

(** [int(s)] for a string holding a plain decimal integer, [None] when the
    text is not one. *)
Definition int_of_str (s : string) : option Z :=
  Z.of_int <$> NilZero.int_of_string s.

Definition nl : string := String (Ascii.ascii_of_nat 10) EmptyString.

(** [needle in hay] on strings. *)
Fixpoint contains (needle hay : string) : bool :=
  String.prefix needle hay
  || match hay with
     | EmptyString => false
     | String _ rest => contains needle rest
     end.

(** Values found in the YAML dictionaries. *)
Inductive PyValue : Type :=
| VInt (z : Z)
| VFloat (q : Q)
| VStr (s : string)
| VBool (b : bool).

(** * Parallel configurations ([tasks.py], classes [ParalConf], [ParalHints]) *)

Module Hints.

(** One configuration reported by the autoparal run. The defaults of
    [ParalConf._DEFAULTS] are those of [default_conf]. *)
Record ParalConf : Type := mkParalConf {
  mpi_ncpus : Z;
  omp_ncpus : Z;
  mem_per_cpu : Q;
  efficiency : Q;
  vars : list (string * PyValue)
}.

Definition default_conf (mpi : Z) (eff : Q) : ParalConf :=
  {| mpi_ncpus := mpi; omp_ncpus := 1; mem_per_cpu := 0; efficiency := eff;
     vars := [] |}.

Definition mpi_procs (c : ParalConf) : Z := mpi_ncpus c.
Definition omp_threads (c : ParalConf) : Z := omp_ncpus c.
Definition num_cores (c : ParalConf) : Z := mpi_procs c * omp_threads c.
Definition mem_per_proc (c : ParalConf) : Q := mem_per_cpu c.
Definition speedup (c : ParalConf) : Q := (efficiency c * inject_Z (num_cores c))%Q.
Definition tot_mem (c : ParalConf) : Q := (mem_per_proc c * inject_Z (mpi_procs c))%Q.

(** The object a condition is applied to: the configuration itself
    ([key=None]) or [AttrDict(conf["vars"])] ([key="vars"]). *)
Inductive CondObj : Type :=
| ObjConf (c : ParalConf)
| ObjVars (v : list (string * PyValue)).

Definition type_str (o : CondObj) : string :=
  match o with
  | ObjConf _ => "<class 'abipy.flowtk.tasks.ParalConf'>"
  | ObjVars _ => "<class 'monty.collections.AttrDict'>"
  end.

(** [utils.Condition]. The Mongodb-like dictionary [cmap] is kept through
    what the class uses of it: its text, its truth value, and the outcome of
    [evaluate_rpn(map2rpn(cmap, obj))] on an object ([inl txt] when the
    evaluation raises an exception whose text is [txt]). *)
Record Condition : Type := mkCondition {
  cmap_str : string;
  cmap_nonempty : bool;
  cmap_eval : CondObj -> string + bool
}.

Definition Condition_bool (c : Condition) : bool := cmap_nonempty c.

Definition Condition_call (self : Condition) (obj : CondObj) : bool * list LogRecord :=
  if negb (Condition_bool self) then (true, [])
  else match cmap_eval self obj with
       | inr b => (b, [])
       | inl txt =>
           (false, [(WARNING, "Condition(" +:+ type_str obj +:+ ") raised Exception:"
                                +:+ nl +:+ " " +:+ txt)])
       end.

Record ParalHints : Type := mkParalHints {
  info : list (string * PyValue);
  _confs : list ParalConf
}.

Definition ParalHints_len (h : ParalHints) : nat := length (_confs h).

(** [key=None] or [key="vars"], the two uses in the source. *)
Inductive CondKey : Type := KeyNone | KeyVars.

Definition cond_obj (key : CondKey) (conf : ParalConf) : CondObj :=
  match key with KeyNone => ObjConf conf | KeyVars => ObjVars (vars conf) end.

(** The loop of [select_with_condition]: the kept configurations, in order,
    and what the condition logged. *)
Fixpoint select_loop (condition : Condition) (key : CondKey) (confs : list ParalConf)
  : list ParalConf * list LogRecord :=
  match confs with
  | [] => ([], [])
  | conf :: rest =>
      let '(add_it, lg) := Condition_call condition (cond_obj key conf) in
      let '(new_confs, lgs) := select_loop condition key rest in
      (if add_it then conf :: new_confs else new_confs, lg ++ lgs)
  end.

Definition select_with_condition (condition : Condition) (key : CondKey) (self : ParalHints)
  : ParalHints * list LogRecord :=
  let '(new_confs, lg) := select_loop condition key (_confs self) in
  ({| info := info self; _confs := new_confs |}, lg).

(** ** Sorting. [list.sort(key=..., reverse=...)] is stable in both
    directions and compares keys with [<] only. *)

Fixpoint sort_insert {A : Type} (key : A -> Q) (reverse : bool) (x : A) (l : list A)
  : list A :=
  match l with
  | [] => [x]
  | y :: ys =>
      if (if reverse then Qltb (key x) (key y) else Qltb (key y) (key x))
      then y :: sort_insert key reverse x ys
      else x :: y :: ys
  end.

Fixpoint list_sort {A : Type} (key : A -> Q) (reverse : bool) (l : list A) : list A :=
  match l with
  | [] => []
  | x :: xs => sort_insert key reverse x (list_sort key reverse xs)
  end.

Definition sort_by_efficiency (reverse : bool) (self : ParalHints) : ParalHints :=
  {| info := info self; _confs := list_sort efficiency reverse (_confs self) |}.

Definition sort_by_speedup (reverse : bool) (self : ParalHints) : ParalHints :=
  {| info := info self; _confs := list_sort speedup reverse (_confs self) |}.

Definition sort_by_mem_per_proc (reverse : bool) (self : ParalHints) : ParalHints :=
  if existsb (fun c => Qltb 0 (mem_per_proc c)) (_confs self)
  then {| info := info self; _confs := list_sort mem_per_proc reverse (_confs self) |}
  else self.

(** ** [utils.SparseHistogram] *)

Record SparseHistogram (A : Type) : Type := mkSparseHistogram {
  binvals : list Q;
  values : list (list A);
  start : Q;
  stop : Q;
  num : Z
}.
Arguments mkSparseHistogram {A}.
Arguments binvals {A}.
Arguments values {A}.

(** Keyword arguments of a call [SparseHistogram(items, key=..., step=...)]:
    the two optional parameters of [__init__], or any other name. *)
Inductive Kwarg : Type :=
| KwNum (n : Z)
| KwStep (s : Q)
| KwOther (name : string) (v : Z).

(** Binding of the keywords to the signature
    [__init__(self, items, key=None, num=None, step=None)]. *)
Fixpoint bind_kwargs (kw : list Kwarg) (num : option Z) (step : option Q)
  : Exc + (option Z * option Q) :=
  match kw with
  | [] => inr (num, step)
  | KwNum n :: rest => bind_kwargs rest (Some n) step
  | KwStep s :: rest => bind_kwargs rest num (Some s)
  | KwOther name _ :: rest =>
      inl (TypeError ("__init__() got an unexpected keyword argument '" +:+ name +:+ "'"))
  end.

Definition Qminimum (l : list Q) : option Q :=
  match l with
  | [] => None
  | x :: xs => Some (fold_left (fun m v => if Qltb v m then v else m) xs x)
  end.

Definition Qmaximum (l : list Q) : option Q :=
  match l with
  | [] => None
  | x :: xs => Some (fold_left (fun m v => if Qltb m v then v else m) xs x)
  end.

(** [np.linspace(start, stop, num, endpoint=False)]. *)
Definition linspace (start stop : Q) (num : nat) : list Q :=
  map (fun i : nat => (inject_Z (Z.of_nat i) * ((stop - start) / inject_Z (Z.of_nat num)) + start)%Q)
      (seq 0 num).

(** [bisect.bisect_right(a, x)] on a sorted list: the number of elements
    that are [<= x]. *)
Definition bisect_right (a : list Q) (x : Q) : nat :=
  length (filter (fun m => Qle_bool m x = true) a).

(** [monty.bisect.find_le]: index of the rightmost value [<= x]. *)
Definition find_le (a : list Q) (x : Q) : Exc + nat :=
  match bisect_right a x with
  | O => inl (ValueError "")
  | S i => inr i
  end.

(** [hist[k].append(x)] on a [defaultdict(list)] keyed by floats. *)
Fixpoint hist_append {A : Type} (k : Q) (x : A) (hist : list (Q * list A))
  : list (Q * list A) :=
  match hist with
  | [] => [(k, [x])]
  | (k', l) :: rest =>
      if Qeq_bool k' k then (k', l ++ [x]) :: rest
      else (k', l) :: hist_append k x rest
  end.

Fixpoint hist_get {A : Type} (k : Q) (hist : list (Q * list A)) : list A :=
  match hist with
  | [] => []
  | (k', l) :: rest => if Qeq_bool k' k then l else hist_get k rest
  end.

(** The loop [for item, value in zip(items, values)]. *)
Fixpoint hist_fill {A : Type} (key : A -> Q) (mesh : list Q) (items : list A)
  (hist : list (Q * list A)) : Exc + list (Q * list A) :=
  match items with
  | [] => inr hist
  | item :: rest =>
      match find_le mesh (key item) with
      | inl e => inl e
      | inr pos => hist_fill key mesh rest (hist_append (nth pos mesh 0%Q) item hist)
      end
  end.

Definition SparseHistogram_init {A : Type} (items : list A) (key : A -> Q)
  (num : option Z) (step : option Q) : Exc + SparseHistogram A :=
  match num, step with
  | None, None => inl (ValueError "Either num or step must be specified")
  | _, _ =>
      let values := map key items in
      match Qminimum values, Qmaximum values with
      | Some start, Some stop =>
          let num' : Exc + Z :=
            match num with
            | Some n => inr n
            | None =>
                match step with
                | Some st =>
                    if Qeq_bool st 0 then inl ZeroDivisionError
                    else let n := py_int_of_float ((stop - start) / st)%Q in
                         inr (if n =? 0 then 1 else n)
                | None => inr 0
                end
            end in
          match num' with
          | inl e => inl e
          | inr n =>
              if n <? 0 then inl (ValueError "Number of samples must be non-negative.")
              else
                let mesh := linspace start stop (Z.to_nat n) in
                match hist_fill key mesh items [] with
                | inl e => inl e
                | inr hist =>
                    let bv := list_sort (fun k : Q => k) false (map fst hist) in
                    inr {| binvals := bv;
                           values := map (fun pos => hist_get pos hist) bv;
                           start := start; stop := stop; num := n |}
                end
          end
      | _, _ => inl (ValueError "min() arg is an empty sequence")
      end
  end.

Definition SparseHistogram_call {A : Type} (items : list A) (key : A -> Q)
  (kw : list Kwarg) : Exc + SparseHistogram A :=
  match bind_kwargs kw None None with
  | inl e => inl e
  | inr (num, step) => SparseHistogram_init items key num step
  end.

(** ** Ranking priorities *)

(** An entry of [policy.autoparal_priorities]: a name, or a mapping such as
    [{meta_priority: highest_speedup_minimum_efficiency_cutoff,
      minimum_efficiency: 0.8}]. *)
Inductive Priority : Type :=
| PrioName (name : string)
| PrioMapping (m : list (string * PyValue)).

(** The dictionary [opts] of [multidimensional_optimization]. *)
Definition opts (priority : string) : option (list Kwarg) :=
  if String.eqb priority "speedup" then Some [KwStep 1]
  else if String.eqb priority "efficiency" then Some [KwStep (1 # 10)]
  else if String.eqb priority "mem_per_proc" then Some [KwOther "memory" 1024]
  else None.

(** [getattr(c, priority)] for the three properties named in [opts]. *)
Definition getattr_priority (priority : string) (c : ParalConf) : Q :=
  if String.eqb priority "speedup" then speedup c
  else if String.eqb priority "efficiency" then efficiency c
  else mem_per_proc c.

(** [histogram.values[pos]] with [pos = 0] for the memory, [-1] otherwise. *)
Definition values_at {A : Type} (first : bool) (vs : list (list A)) : Exc + list A :=
  match (if first then head vs else last vs) with
  | Some l => inr l
  | None => inl IndexError
  end.

(** The loop [for priority in priorities] of [multidimensional_optimization]. *)
Fixpoint optimization_loop (priorities : list Priority) (opt_confs : list ParalConf)
  : Exc + list ParalConf :=
  match priorities with
  | [] => inr opt_confs
  | PrioMapping _ :: _ => inl (TypeError "unhashable type: 'dict'")
  | PrioName priority :: rest =>
      match opts priority with
      | None => inl (KeyError priority)
      | Some kw =>
          match SparseHistogram_call opt_confs (getattr_priority priority) kw with
          | inl e => inl e
          | inr histogram =>
              match values_at (String.eqb priority "mem_per_proc") (values histogram) with
              | inl e => inl e
              | inr confs => optimization_loop rest confs
              end
          end
      end
  end.

Definition multidimensional_optimization (priorities : list Priority) (self : ParalHints)
  : Exc + ParalHints :=
  match optimization_loop priorities (_confs self) with
  | inl e => inl e
  | inr opt_confs => inr {| info := info self; _confs := opt_confs |}
  end.

(** ** [TaskPolicy] *)

Record TaskPolicy : Type := mkTaskPolicy {
  autoparal : Z;
  condition : Condition;
  vars_condition : Condition;
  precedence : string;
  autoparal_priorities : list Priority;
  frozen_timeout : Z
}.

(** [Condition({})]. *)
Definition empty_condition : Condition :=
  {| cmap_str := "{}"; cmap_nonempty := false; cmap_eval := fun _ => inr true |}.

Fixpoint dict_get (k : string) (d : list (string * PyValue)) : option PyValue :=
  match d with
  | [] => None
  | (k', v) :: rest => if String.eqb k' k then Some v else dict_get k rest
  end.

(** [Condition({'efficiency': {'$gte': min_efficiency}})]: its RPN form is
    [[obj.efficiency, min_efficiency, '$gte']], evaluated with
    [operator.ge]. *)
Definition efficiency_gte (min_efficiency : PyValue) : Condition :=
  {| cmap_str := "{'efficiency': {'$gte': minimum_efficiency}}";
     cmap_nonempty := true;
     cmap_eval := fun obj =>
       match obj with
       | ObjConf c =>
           match min_efficiency with
           | VFloat m => inr (Qle_bool m (efficiency c))
           | VInt m => inr (Qle_bool (inject_Z m) (efficiency c))
           | VBool b => inr (Qle_bool (if b then 1 else 0) (efficiency c))
           | VStr _ => inl "'>=' not supported between instances of 'float' and 'str'"
           end
       | ObjVars _ => inl "efficiency"
       end |}.

(** One of the two blocks of [get_ordered_with_policy] that filter with a
    condition of the policy and undo the change when nothing is left.
    [name] is [condition] or [vars_condition]. *)
Definition apply_policy_condition (cond : Condition) (key : CondKey) (name : string)
  (hints : ParalHints) : ParalHints * list LogRecord :=
  let bkp_hints := hints in
  if Condition_bool cond then
    let applying := (INFO, "Applying " +:+ name +:+ " " +:+ cmap_str cond) in
    let '(hints, lg) := select_with_condition cond key hints in
    if (ParalHints_len hints =? 0)%nat
    then (bkp_hints,
          applying :: lg ++ [(WARNING, "Empty list of configurations after policy." +:+ name)])
    else (hints, applying :: lg)
  else (hints, []).

(** The candidate pool of [get_ordered_with_policy] before the ranking: the
    configurations within [max_ncpus], filtered by [policy.condition] and by
    [policy.vars_condition]. *)
Definition candidate_pool (policy : TaskPolicy) (max_ncpus : Z) (self : ParalHints)
  : ParalHints * list LogRecord :=
  let hints := {| info := info self;
                  _confs := filter (fun c => num_cores c <= max_ncpus) (_confs self) |} in
  let '(hints, lg1) := apply_policy_condition (condition policy) KeyNone "condition" hints in
  let '(hints, lg2) :=
    apply_policy_condition (vars_condition policy) KeyVars "vars_condition" hints in
  (hints, lg1 ++ lg2).

Definition is_ranked_name (name : string) : bool :=
  String.eqb name "efficiency" || String.eqb name "speedup" || String.eqb name "mem_per_proc".

(** [getattr(hints, "sort_by_" + name)()] for the three names above. *)
Definition sort_by (name : string) (hints : ParalHints) : ParalHints :=
  if String.eqb name "efficiency" then sort_by_efficiency true hints
  else if String.eqb name "speedup" then sort_by_speedup true hints
  else sort_by_mem_per_proc false hints.

(** The ranking part of [get_ordered_with_policy].
    [has_collections_Mapping] tells whether the interpreter still has the
    alias [collections.Mapping] (it was removed in Python 3.10). *)
Definition rank_with_policy (has_collections_Mapping : bool) (policy : TaskPolicy)
  (hints : ParalHints) : (Exc + ParalHints) * list LogRecord :=
  match autoparal_priorities policy with
  | [p0] =>
      match p0 with
      | PrioName name =>
          if is_ranked_name name then (inr (sort_by name hints), [])
          else if has_collections_Mapping then (inr hints, [])
          else (inl (AttributeError "module 'collections' has no attribute 'Mapping'"), [])
      | PrioMapping m =>
          if has_collections_Mapping then
            match dict_get "meta_priority" m with
            | None => (inl (KeyError "meta_priority"), [])
            | Some (VStr "highest_speedup_minimum_efficiency_cutoff") =>
                let min_efficiency :=
                  default (VFloat 1) (dict_get "minimum_efficiency" m) in
                let '(hints, lg) :=
                  select_with_condition (efficiency_gte min_efficiency) KeyNone hints in
                (inr (sort_by_speedup true hints), lg)
            | Some _ => (inr hints, [])
            end
          else (inl (AttributeError "module 'collections' has no attribute 'Mapping'"), [])
      end
  | priorities =>
      match multidimensional_optimization priorities hints with
      | inl e => (inl e, [])
      | inr hints =>
          if (ParalHints_len hints =? 0)%nat then (inl (ValueError "len(hints) == 0"), [])
          else (inr hints, [])
      end
  end.

Definition get_ordered_with_policy (has_collections_Mapping : bool) (policy : TaskPolicy)
  (max_ncpus : Z) (self : ParalHints) : (Exc + ParalHints) * list LogRecord :=
  let '(hints, lg) := candidate_pool policy max_ncpus self in
  let '(res, lg') := rank_with_policy has_collections_Mapping policy hints in
  (res, lg ++ lg').

(** ** Statements about the selection *)

(** The filter with [cond] left nothing of [before], so the change was
    undone: [after] is [before] again and the warning is in the log. *)
Definition undone (cond : Condition) (key : CondKey) (name : string)
  (before after : ParalHints) (lg : list LogRecord) : Prop :=
  Condition_bool cond = true ->
  _confs (select_with_condition cond key before).1 = [] ->
  after = before /\
  (WARNING, "Empty list of configurations after policy." +:+ name) ∈ lg.

(** The filter left something, which is what was kept. *)
Definition filtered (cond : Condition) (key : CondKey) (before after : ParalHints) : Prop :=
  Condition_bool cond = true ->
  _confs (select_with_condition cond key before).1 <> [] ->
  after = (select_with_condition cond key before).1.

(** The configurations of [self] within the ceiling [max_ncpus]. *)
Definition within_ceiling (max_ncpus : Z) (self : ParalHints) : ParalHints :=
  {| info := info self;
     _confs := filter (fun c => num_cores c <= max_ncpus) (_confs self) |}.


(** ** [ParalHints.from_mpi_omp_lists] *)

(** [itertools.product(mpi_procs, omp_threads)] is [list_prod]; the
    comprehension builds [ParalConf(mpi_ncpus=p, omp_ncpus=p, efficiency=1.0)]
    for each pair [(p, t)]. *)
Definition from_mpi_omp_lists (mpi_procs omp_threads : list Z) : ParalHints :=
  {| info := [];
     _confs := map (fun '(p, t) => {| mpi_ncpus := p; omp_ncpus := p; mem_per_cpu := 0;
                                      efficiency := 1; vars := [] |})
                   (list_prod mpi_procs omp_threads) |}.

(** ** More statements about the selection *)

(** The condition holds on the object: it is empty, or its evaluation
    returns [True]; an evaluation that raises counts as [False]. *)
Definition accepts (cond : Condition) (obj : CondObj) : Prop :=
  Condition_bool cond = false \/ cmap_eval cond obj = inr true.

(** [a] may come before [b] in a list sorted on [key]. *)
Definition ordered {A : Type} (key : A -> Q) (reverse : bool) (a b : A) : Prop :=
  if reverse then (key b <= key a)%Q else (key a <= key b)%Q.

(** The elements of [l] whose key is [k], in the order of [l]. *)
Definition with_key {A : Type} (key : A -> Q) (k : Q) (l : list A) : list A :=
  filter (fun c => Qeq_bool (key c) k = true) l.

(** No two keys of the histogram are equal. *)
Fixpoint distinct_keys (ks : list Q) : Prop :=
  match ks with
  | [] => True
  | k :: rest => Forall (fun k' => Qeq_bool k k' = false) rest /\ distinct_keys rest
  end.

Definition speedup_or_efficiency (p : Priority) : Prop :=
  p = PrioName "speedup" \/ p = PrioName "efficiency".

End Hints.

(** * The task manager ([tasks.py], class [TaskManager]) *)

Module Manager.
Import Hints.

(** What the task manager reads and changes of a [QueueAdapter]. The class
    lives in [qadapters.py]. *)
Record QueueAdapter : Type := mkQueueAdapter {
  priority : Z;
  qtype : string;
  qa_mpi_procs : Z;
  qa_omp_threads : Z;
  qa_mem_per_proc : Z;
  qa_timelimit : Z;
  qa_excluded_nodes : list string
}.

(** An entry of the [qadapters] list of the configuration file: the value
    of its optional key [enabled] and the dictionary itself. *)
Record QadDict : Type := mkQadDict {
  enabled : option bool;
  qad_entries : list (string * PyValue)
}.

(** The functions of [qadapters.py] and [qutils.py] that the manager calls.
    An escalation that raises leaves the adapter as it was. *)
Record Backend : Type := mkBackend {
  make_qadapter : QadDict -> Exc + QueueAdapter;
  slurm_parse_timestr : string -> Exc + Z;
  more_cores : QueueAdapter -> Exc + QueueAdapter;
  more_mem_per_proc : QueueAdapter -> Exc + QueueAdapter;
  more_time : QueueAdapter -> Exc + QueueAdapter;
  exclude_nodes_qad : list string -> QueueAdapter -> Exc + QueueAdapter
}.

(** The keywords given to the constructor of [TaskPolicy]; [pk_invalid] holds the
    names of the keywords that the constructor does not pop. *)
Record PolicyKwargs : Type := mkPolicyKwargs {
  pk_autoparal : option Z;
  pk_condition : option Condition;
  pk_vars_condition : option Condition;
  pk_precedence : option string;
  pk_autoparal_priorities : option (list Priority);
  pk_frozen_timeout : option string;
  pk_invalid : list string
}.

Definition no_policy_kwargs : PolicyKwargs :=
  {| pk_autoparal := None; pk_condition := None; pk_vars_condition := None;
     pk_precedence := None; pk_autoparal_priorities := None;
     pk_frozen_timeout := None; pk_invalid := [] |}.

Definition TaskPolicy_init (B : Backend) (kwargs : PolicyKwargs) : Exc + TaskPolicy :=
  match slurm_parse_timestr B (default "0-1:00:00" (pk_frozen_timeout kwargs)) with
  | inl e => inl e
  | inr timeout =>
      let precedence := default "autoparal_conf" (pk_precedence kwargs) in
      match pk_invalid kwargs with
      | _ :: _ => inl (ValueError "Found invalid keywords in policy section")
      | [] =>
          if negb (String.eqb precedence "qadapter" || String.eqb precedence "autoparal_conf")
          then inl (ValueError
                 "Wrong value for policy.precedence, should be qadapter or autoparal_conf")
          else inr {| autoparal := default 1 (pk_autoparal kwargs);
                      condition := default empty_condition (pk_condition kwargs);
                      vars_condition := default empty_condition (pk_vars_condition kwargs);
                      precedence := precedence;
                      autoparal_priorities :=
                        default [PrioName "speedup"] (pk_autoparal_priorities kwargs);
                      frozen_timeout := timeout |}
      end
  end.

(** The argument of [TaskPolicy.as_policy]. *)
Inductive PolicyArg : Type :=
| PolicyNone
| PolicyObj (p : TaskPolicy)
| PolicyMapping (kw : PolicyKwargs)
| PolicyOther.

Definition as_policy (B : Backend) (obj : PolicyArg) : Exc + TaskPolicy :=
  match obj with
  | PolicyNone => TaskPolicy_init B no_policy_kwargs
  | PolicyObj p => inr p
  | PolicyMapping kw => TaskPolicy_init B kw
  | PolicyOther => inl (TypeError "Don't know how to convert type to TaskPolicy")
  end.

(** The keywords given to the constructor of [TaskManager]. *)
Record ManagerKwargs : Type := mkManagerKwargs {
  kw_policy : option PolicyArg;
  kw_qadapters : option (list QadDict);
  kw_invalid : list string
}.

Record TaskManager : Type := mkTaskManager {
  _kwargs : ManagerKwargs;
  policy : TaskPolicy;
  _qads : list QueueAdapter;
  _qadpos : nat
}.

(** The loop over [kwargs.pop("qadapters")] that builds [qads]. *)
Fixpoint build_qads (B : Backend) (ds : list QadDict) (qads : list QueueAdapter)
  : Exc + list QueueAdapter :=
  match ds with
  | [] => inr qads
  | d :: rest =>
      if default false (enabled d) then build_qads B rest qads
      else
        match make_qadapter B d with
        | inl e => inl e
        | inr qad =>
            if 0 <? priority qad then build_qads B rest (qads ++ [qad])
            else if priority qad <? 0
                 then inl (ValueError "qadapter cannot have negative priority")
                 else build_qads B rest qads
        end
  end.

(** [sorted(qads, key=lambda q: q.priority)]. *)
Definition sort_by_priority (qads : list QueueAdapter) : list QueueAdapter :=
  list_sort (fun q => inject_Z (priority q)) false qads.

Definition TaskManager_init (B : Backend) (kwargs : ManagerKwargs) : Exc + TaskManager :=
  match as_policy B (default PolicyNone (kw_policy kwargs)) with
  | inl e => inl e
  | inr pol =>
      match kw_qadapters kwargs with
      | None => inl (KeyError "qadapters")
      | Some ds =>
          match build_qads B ds [] with
          | inl e => inl e
          | inr qads =>
              match qads with
              | [] => inl (ValueError "Received emtpy list of qadapters")
              | _ :: _ =>
                  let qads := sort_by_priority qads in
                  let priorities := map priority qads in
                  if negb (length priorities =? size (list_to_set priorities : gset Z))%nat
                  then inl (ValueError
                    "Two or more qadapters have same priority. This is not allowed. Check taskmanager.yml")
                  else
                    match kw_invalid kwargs with
                    | _ :: _ =>
                        inl (ValueError "Found invalid keywords in the taskmanager file")
                    | [] => inr {| _kwargs := kwargs; policy := pol;
                                   _qads := qads; _qadpos := 0 |}
                    end
              end
          end
      end
  end.

(** [self.qadapter] is [self._qads[self._qadpos]]. *)
Definition qadapter (m : TaskManager) : Exc + QueueAdapter :=
  match _qads m !! _qadpos m with
  | Some q => inr q
  | None => inl IndexError
  end.

Definition set_qadapter (m : TaskManager) (q : QueueAdapter) : TaskManager :=
  {| _kwargs := _kwargs m; policy := policy m;
     _qads := <[_qadpos m := q]> (_qads m); _qadpos := _qadpos m |}.

(** The pattern shared by the escalation methods:
    [try: self.qadapter.op() except QueueAdapterError: raise ManagerIncreaseError(msg)]. *)
Definition escalate (op : QueueAdapter -> Exc + QueueAdapter) (msg : string)
  (m : TaskManager) : Exc + TaskManager :=
  match qadapter m with
  | inl e => inl e
  | inr q =>
      match op q with
      | inr q' => inr (set_qadapter m q')
      | inl e => if is_QueueAdapterError e then inl (ManagerIncreaseError msg) else inl e
      end
  end.

Definition increase_mem (B : Backend) : TaskManager -> Exc + TaskManager :=
  escalate (more_mem_per_proc B) "manager failed to increase mem".

Definition increase_ncpus (B : Backend) : TaskManager -> Exc + TaskManager :=
  escalate (more_cores B) "manager failed to increase ncpu".

Definition increase_time (B : Backend) : TaskManager -> Exc + TaskManager :=
  escalate (more_time B) "manager failed to increase time".

Definition exclude_nodes (B : Backend) (nodes : list string)
  : TaskManager -> Exc + TaskManager :=
  escalate (exclude_nodes_qad B nodes) "manager failed to exclude nodes".

Definition increase_resources (B : Backend) (m : TaskManager) : Exc + TaskManager :=
  match qadapter m with
  | inl e => inl e
  | inr q =>
      match more_cores B q with
      | inr q' => inr (set_qadapter m q')
      | inl e =>
          if is_QueueAdapterError e
          then escalate (more_mem_per_proc B) "manager failed to increase resources" m
          else inl e
      end
  end.

(** ** Statements about the construction *)

(** The entries of the list that the loop of [__init__] does not skip: the
    test [if d.get("enabled", False): continue] skips the entries whose
    value of [enabled] is true. *)
Definition not_skipped (ds : list QadDict) : list QadDict :=
  filter (fun d => default false (enabled d) = false) ds.

(** The active entries, as the comment above the loop has them
    ([Neglect entry if priority == 0 or `enabled: no`]): the ones that
    are not marked [enabled: no]. *)
Definition active (ds : list QadDict) : list QadDict :=
  filter (fun d => enabled d <> Some false) ds.

(** The adapter that an entry adds to [qads], if any. *)
Definition positive_qad (B : Backend) (d : QadDict) : option QueueAdapter :=
  match make_qadapter B d with
  | inr q => if 0 <? priority q then Some q else None
  | inl _ => None
  end.


(** ** [TaskManager.select_qadapter] *)

(** What [select_qadapter] reads and changes of a [QueueAdapter]
    ([qadapters.py]): [can_run_pconf], [allocation], [hw.cores_per_node],
    [hint_cores], [has_omp], [set_mpi_procs] and [set_omp_threads]. *)
Record QadHooks : Type := mkQadHooks {
  can_run_pconf : QueueAdapter -> ParalConf -> bool;
  allocation : QueueAdapter -> string;
  cores_per_node : QueueAdapter -> Z;
  hint_cores : QueueAdapter -> Z;
  has_omp : QueueAdapter -> bool;
  set_mpi_procs : Z -> QueueAdapter -> Exc + QueueAdapter;
  set_omp_threads : Z -> QueueAdapter -> Exc + QueueAdapter
}.

(** [a % b] on ints. *)
Definition py_mod (a b : Z) : Exc + Z :=
  if b =? 0 then inl ZeroDivisionError else inr (a mod b).

(** [TaskManager.max_cores]: [max(q.hint_cores for q in self.qads)]. *)
Definition max_cores (H : QadHooks) (m : TaskManager) : Exc + Z :=
  match map (hint_cores H) (_qads m) with
  | [] => inl (ValueError "max() arg is an empty sequence")
  | x :: xs => inr (fold_left Z.max xs x)
  end.

Definition set_qadpos (qadpos : nat) (m : TaskManager) : TaskManager :=
  {| _kwargs := _kwargs m; policy := policy m; _qads := _qads m; _qadpos := qadpos |}.

(** [TaskManager._use_qadpos_pconf]: the manager it leaves and what it
    returns. *)
Definition _use_qadpos_pconf (H : QadHooks) (qadpos : nat) (pconf : ParalConf)
  (m : TaskManager) : TaskManager * (Exc + ParalConf) :=
  let m := set_qadpos qadpos m in
  match qadapter m with
  | inl e => (m, inl e)
  | inr q =>
      match set_mpi_procs H (mpi_procs pconf) q with
      | inl e => (m, inl e)
      | inr q =>
          let m := set_qadapter m q in
          if has_omp H q then
            match set_omp_threads H (omp_threads pconf) q with
            | inl e => (m, inl e)
            | inr q => (set_qadapter m q, inr pconf)
            end
          else (m, inr pconf)
      end
  end.

(** The loop [for pconf in possible_pconfs] under
    [qad.allocation == "nodes"]. *)
Fixpoint first_divisible (H : QadHooks) (qad : QueueAdapter) (possible_pconfs : list ParalConf)
  : Exc + option ParalConf :=
  match possible_pconfs with
  | [] => inr None
  | pconf :: rest =>
      match py_mod (num_cores pconf) (cores_per_node H qad) with
      | inl e => inl e
      | inr r => if r =? 0 then inr (Some pconf) else first_divisible H qad rest
      end
  end.

(** The loop over the adapters with [policy.precedence == "qadapter"]: the
    position and the configuration given to [_use_qadpos_pconf], if any. *)
Fixpoint select_by_qadapter (H : QadHooks) (pconfs : list ParalConf)
  (qads : list (nat * QueueAdapter)) : Exc + option (nat * ParalConf) :=
  match qads with
  | [] => inr None
  | (qadpos, qad) :: rest =>
      let possible_pconfs := filter (fun pc => can_run_pconf H qad pc = true) pconfs in
      match (if String.eqb (allocation H qad) "nodes"
             then first_divisible H qad possible_pconfs else inr None) with
      | inl e => inl e
      | inr (Some pconf) => inr (Some (qadpos, pconf))
      | inr None =>
          match possible_pconfs with
          | pconf :: _ => inr (Some (qadpos, pconf))
          | [] => select_by_qadapter H pconfs rest
          end
      end
  end.

(** The inner loop with [policy.precedence == "autoparal_conf"]. *)
Fixpoint first_qadapter (H : QadHooks) (pconf : ParalConf) (qads : list (nat * QueueAdapter))
  : Exc + option nat :=
  match qads with
  | [] => inr None
  | (qadpos, qad) :: rest =>
      let ignore_it : Exc + bool :=
        if String.eqb (allocation H qad) "nodes" then
          match py_mod (num_cores pconf) (cores_per_node H qad) with
          | inl e => inl e
          | inr r => inr (negb (r =? 0))
          end
        else inr false in
      match ignore_it with
      | inl e => inl e
      | inr true => first_qadapter H pconf rest
      | inr false =>
          if can_run_pconf H qad pconf then inr (Some qadpos)
          else first_qadapter H pconf rest
      end
  end.

Fixpoint select_by_pconf (H : QadHooks) (pconfs : list ParalConf)
  (qads : list (nat * QueueAdapter)) : Exc + option (nat * ParalConf) :=
  match pconfs with
  | [] => inr None
  | pconf :: rest =>
      match first_qadapter H pconf qads with
      | inl e => inl e
      | inr (Some qadpos) => inr (Some (qadpos, pconf))
      | inr None => select_by_pconf H rest qads
      end
  end.

(** [enumerate(self.qads)]. *)
Definition enumerate {A : Type} (l : list A) : list (nat * A) := zip (seq 0 (length l)) l.

(** [TaskManager.select_qadapter]: the manager it leaves, what it returns and
    what [get_ordered_with_policy] logged. *)
Definition select_qadapter (has_collections_Mapping : bool) (H : QadHooks)
  (pconfs : ParalHints) (m : TaskManager)
  : TaskManager * (Exc + ParalConf) * list LogRecord :=
  match max_cores H m with
  | inl e => (m, inl e, [])
  | inr max_ncpus =>
      let '(ordered, lg) :=
        get_ordered_with_policy has_collections_Mapping (policy m) max_ncpus pconfs in
      match ordered with
      | inl e => (m, inl e, lg)
      | inr pconfs =>
          let choice :=
            if String.eqb (precedence (policy m)) "qadapter"
            then select_by_qadapter H (_confs pconfs) (enumerate (_qads m))
            else if String.eqb (precedence (policy m)) "autoparal_conf"
            then select_by_pconf H (_confs pconfs) (enumerate (_qads m))
            else inl (ValueError ("Wrong value of policy.precedence = "
                                  +:+ precedence (policy m))) in
          match choice with
          | inl e => (m, inl e, lg)
          | inr (Some (qadpos, pconf)) => (_use_qadpos_pconf H qadpos pconf m, lg)
          | inr None => (m, inl (RuntimeError "Cannot find qadapter for this run!"), lg)
          end
      end
  end.

(** ** More statements about the manager *)

(** The adapter [q] takes the configuration [pc] in the loop with
    [precedence == "autoparal_conf"]. *)
Definition takes (H : QadHooks) (q : QueueAdapter) (pc : ParalConf) : Prop :=
  can_run_pconf H q pc = true /\
  (allocation H q = "nodes" -> num_cores pc mod cores_per_node H q = 0).

(** The priorities go up along the list. *)
Definition rising (qads : list QueueAdapter) : Prop :=
  StronglySorted (fun q q' => priority q < priority q') qads.

End Manager.

(** * The file system seen by a task *)

Module Fs.

(** A path is its list of components; [os.path.join(d, name)] is
    [d ++ [name]]. *)
Abbreviation Path := (list string).

Inductive FsNode : Type :=
| RegularFile (content : string) (mtime : Q)
| DirNode.

Abbreviation FS := (gmap (list string) FsNode).

Definition join (d : Path) (name : string) : Path := d ++ [name].

Definition basename (p : Path) : string := default "" (last p).

Definition dirname (p : Path) : Path := removelast p.

(** [os.path.exists]. *)
Definition exists_ (fs : FS) (p : Path) : bool :=
  match fs !! p with Some _ => true | None => false end.

Definition isfile (fs : FS) (p : Path) : bool :=
  match fs !! p with Some (RegularFile _ _) => true | _ => false end.

Definition isdir (fs : FS) (p : Path) : bool :=
  match fs !! p with Some DirNode => true | _ => false end.

(** [File.getsize]: 0 if the file is empty or does not exist. *)
Definition getsize (fs : FS) (p : Path) : Z :=
  match fs !! p with
  | Some (RegularFile content _) => Z.of_nat (String.length content)
  | _ => 0
  end.

(** [File.read], [open(path).read()]. *)
Definition read (fs : FS) (p : Path) : Exc + string :=
  match fs !! p with
  | Some (RegularFile content _) => inr content
  | Some DirNode => inl (OSError "Is a directory")
  | None => inl (OSError "No such file or directory")
  end.

(** [File.get_stat().st_mtime]. *)
Definition st_mtime (fs : FS) (p : Path) : Exc + Q :=
  match fs !! p with
  | Some (RegularFile _ mtime) => inr mtime
  | Some DirNode => inr 0%Q
  | None => inl (OSError "No such file or directory")
  end.

(** [File.remove]: [os.remove] with every exception swallowed. *)
Definition remove (fs : FS) (p : Path) : FS :=
  if isfile fs p then delete p fs else fs.

(** [os.mkdir]. *)
Definition mkdir (fs : FS) (p : Path) : Exc + FS :=
  if exists_ fs p then inl (OSError "File exists")
  else if isdir fs (dirname p) then inr (<[p := DirNode]> fs)
  else inl (OSError "No such file or directory").

(** [open(path, "wt").write(text)] at time [now]. *)
Definition write_text (now : Q) (fs : FS) (p : Path) (text : string) : Exc + FS :=
  if isdir fs p then inl (OSError "Is a directory")
  else if isdir fs (dirname p) then inr (<[p := RegularFile text now]> fs)
  else inl (OSError "No such file or directory").

(** [shutil.move(src, dst)] for a regular file [src]. When [dst] is a
    directory the file goes inside it. Moving a directory is not part of
    this model. *)
Definition move (fs : FS) (src dst : Path) : Exc + FS :=
  match fs !! src with
  | Some (RegularFile content mtime) =>
      if isdir fs dst then
        let real_dst := join dst (basename src) in
        if exists_ fs real_dst then inl (OSError "Destination path already exists")
        else inr (<[real_dst := RegularFile content mtime]> (delete src fs))
      else if isdir fs (dirname dst)
           then inr (<[dst := RegularFile content mtime]> (delete src fs))
           else inl (OSError "No such file or directory")
  | Some DirNode => inl (OSError "directories are not moved in this model")
  | None => inl (OSError "No such file or directory")
  end.

(** [os.rename(src, dst)] for a regular file. *)
Definition rename (fs : FS) (src dst : Path) : Exc + FS :=
  match fs !! src with
  | Some (RegularFile content mtime) =>
      if isdir fs dst then inl (OSError "Is a directory")
      else if isdir fs (dirname dst)
           then inr (<[dst := RegularFile content mtime]> (delete src fs))
           else inl (OSError "No such file or directory")
  | Some DirNode => inl (OSError "directories are not moved in this model")
  | None => inl (OSError "No such file or directory")
  end.

Fixpoint insert_path (p : Path) (l : list Path) : list Path :=
  match l with
  | [] => [p]
  | q :: qs => if String.ltb (basename q) (basename p) then q :: insert_path p qs
               else p :: q :: qs
  end.

(** [Directory.list_filepaths()]: the regular files of the directory,
    sorted. *)
Definition list_filepaths (fs : FS) (d : Path) : Exc + list Path :=
  if isdir fs d then
    inr (foldr insert_path []
           (filter (fun p => dirname p = d ∧ p ≠ [] ∧ isfile fs p = true)
                   (map fst (map_to_list fs))))
  else inl (OSError "No such file or directory").

End Fs.


(** * File names ([utils.py]) *)

Module Utils.

Definition slash : Ascii.ascii := Ascii.ascii_of_nat 47.

(** [os.path.basename]: what follows the last slash. *)
Fixpoint basename_from (acc p : string) : string :=
  match p with
  | EmptyString => acc
  | String c rest =>
      if Ascii.eqb c slash then basename_from "" rest
      else basename_from (acc +:+ String c "") rest
  end.

Definition os_path_basename (p : string) : string := basename_from "" p.

(** [s.endswith(suffix)]. *)
Definition endswith (suffix s : string) : bool :=
  (String.length suffix <=? String.length s)%nat
  && String.eqb (String.substring (String.length s - String.length suffix)
                                  (String.length suffix) s) suffix.

(** [s[i:]]. *)
Definition slice_from (i : nat) (s : string) : string :=
  String.substring i (String.length s - i) s.

(** [abi_extensions()]: the keys of [_EXT2VARS], in the order of the
    dictionary. *)
Definition abi_extensions : list string :=
  ["DEN"; "WFK"; "WFQ"; "SCR"; "QPS"; "1WF"; "1DEN"; "BSR"; "BSC"; "HAYDR_SAVE"; "DDK";
   "DDB"; "DVDB"; "GKK"; "DKK"; "EFMAS.nc"; "KDEN"; "KERANGE.nc"; "POT"; "SIGEPH"; "DKDK";
   "GSTORE"; "HIST"].

(** The loop [for i in range(len(filename) - 1, -1, -1)] of [abi_splitext],
    from the index [i] down: the index at which it breaks, [None] when it
    runs to its [else]. *)
Fixpoint search_ext (filename : string) (i : nat) : option nat :=
  if bool_decide (slice_from i filename ∈ abi_extensions) then Some i
  else match i with
       | O => None
       | S j => search_ext filename j
       end.

(** [abi_splitext]. *)
Definition abi_splitext (filename : string) : Exc + (string * string) :=
  let filename := os_path_basename filename in
  let is_ncfile := endswith ".nc" filename in
  let filename :=
    if is_ncfile then String.substring 0 (String.length filename - 3) filename
    else filename in
  match (match String.length filename with
         | O => None
         | S last => search_ext filename last
         end) with
  | None => inl (ValueError ("Cannot find a registered extension in " +:+ filename))
  | Some i =>
      let ext := slice_from i filename in
      let root := String.substring 0 i filename in
      inr (root, if is_ncfile then ext +:+ ".nc" else ext)
  end.

(** ** Statements about the extensions *)

(** No part of [e] after its first character is a registered extension. *)
Definition shortest (e : string) : Prop :=
  forall k, (0 < k < String.length e)%nat -> slice_from k e ∉ abi_extensions.

(** Extensions that [abi_splitext] cannot return. *)
Definition never_split : list string :=
  ["1DEN"; "1DEN.nc"; "KDEN"; "KDEN.nc"; "EFMAS.nc"; "KERANGE.nc"].

End Utils.

(** * The task state machine ([tasks.py], classes [Task] and [AbinitTask]) *)

Module Tasks.
Import Hints Manager Fs.

Inductive Status : Type :=
| S_INIT | S_LOCKED | S_READY | S_SUB | S_RUN | S_DONE
| S_ABICRITICAL | S_QCRITICAL | S_UNCONVERGED | S_ERROR | S_OK.

#[global] Instance Status_eq_dec : EqDecision Status.
Proof. solve_decision. Defined.

Definition status_eqb (a b : Status) : bool := bool_decide (a = b).

(** ** [TaskDateTimes] *)

Record TaskDateTimes : Type := mkTaskDateTimes {
  init : Q;
  submission : option Q;
  start : option Q;
  end_ : option Q
}.

Definition TaskDateTimes_init (now : Q) : TaskDateTimes :=
  {| init := now; submission := None; start := None; end_ := None |}.

(** [TaskDateTimes.reset]. The body [self = self.__class__()] binds the
    local name [self] to a new object; the object that received the call is
    the one returned here. *)
Definition TaskDateTimes_reset (now : Q) (self : TaskDateTimes) : TaskDateTimes :=
  let local_self := TaskDateTimes_init now in
  self.

(** ** Events of the ABINIT log ([events.py]) *)

Inductive EventKind : Type := EvComment | EvWarning | EvError | EvBug.

#[global] Instance EventKind_eq_dec : EqDecision EventKind.
Proof. solve_decision. Defined.

Record AbinitEvent : Type := mkAbinitEvent {
  ev_kind : EventKind;
  ev_class : string;
  ev_message : string
}.

Record EventReport : Type := mkEventReport {
  run_completed : bool;
  start_datetime : option Q;
  end_datetime : option Q;
  report_events : list AbinitEvent
}.

(** [report.errors]: the events of kind error or bug. *)
Definition errors (r : EventReport) : list AbinitEvent :=
  filter (fun e => ev_kind e = EvError \/ ev_kind e = EvBug) (report_events r).

(** [report.filter_types(event_types)]. *)
Definition filter_types (event_types : list string) (r : EventReport) : list AbinitEvent :=
  filter (fun e => ev_class e ∈ event_types) (report_events r).

(** ** Errors of the queue ([scheduler_error_parsers.py]) *)

Inductive QueueError : Type :=
| NodeFailureError (nodes : option (list string))
| MemoryCancelError
| TimeCancelError
| OtherQueueError (name : string).

(** ** The task *)

(** The classes of tasks whose methods differ in what is embedded here;
    [UserTask] is a subclass written by a user of the library, whose hooks
    are those of the [World]. *)
Inductive TaskClass : Type :=
| AbinitTask | ScfTask | CollinearThenNonCollinearScfTask | NscfTask | RelaxTask
| DfptTask | DdkTask | ScrTask | SigmaTask | BseTask | UserTask.

#[global] Instance TaskClass_eq_dec : EqDecision TaskClass.
Proof. solve_decision. Defined.

(** The attribute [_returncode]: not set yet, [None] (the process has not
    terminated) or the exit code. *)
Inductive ReturnCode : Type := RcUnset | RcNone | RcInt (code : Z).

(** The state of a task. [fs] is the file system, [gc_policy] is
    [self.gc.policy] ([None] when [self.gc] is [None]). The last two fields
    are ghost state: the number of calls of [on_ok] and the signals sent so
    far. *)
Record Task : Type := mkTask {
  task_class : TaskClass;
  workdir : Path;
  _status : Status;
  finalized : bool;
  collinear_done : bool;
  datetimes : TaskDateTimes;
  num_restarts : Z;
  _returncode : ReturnCode;
  queue_errors : list QueueError;
  abi_errors : list AbinitEvent;
  mem_scales : bool;
  load_scales : bool;
  history : list LogRecord;
  manager : TaskManager;
  gc_policy : option string;
  input : list (string * PyValue);
  fs : FS;
  on_ok_calls : nat;
  sent_signals : list Status
}.

(** Field updates. *)

Definition with_status (v : Status) (t : Task) : Task :=
  {| task_class := task_class t; workdir := workdir t; _status := v;
     finalized := finalized t; collinear_done := collinear_done t;
     datetimes := datetimes t; num_restarts := num_restarts t;
     _returncode := _returncode t; queue_errors := queue_errors t;
     abi_errors := abi_errors t; mem_scales := mem_scales t;
     load_scales := load_scales t; history := history t; manager := manager t;
     gc_policy := gc_policy t; input := input t; fs := fs t;
     on_ok_calls := on_ok_calls t; sent_signals := sent_signals t |}.

Definition with_finalized (v : bool) (t : Task) : Task :=
  {| task_class := task_class t; workdir := workdir t; _status := _status t;
     finalized := v; collinear_done := collinear_done t; datetimes := datetimes t;
     num_restarts := num_restarts t; _returncode := _returncode t;
     queue_errors := queue_errors t; abi_errors := abi_errors t;
     mem_scales := mem_scales t; load_scales := load_scales t; history := history t;
     manager := manager t; gc_policy := gc_policy t; input := input t; fs := fs t;
     on_ok_calls := on_ok_calls t; sent_signals := sent_signals t |}.

Definition with_collinear_done (v : bool) (t : Task) : Task :=
  {| task_class := task_class t; workdir := workdir t; _status := _status t;
     finalized := finalized t; collinear_done := v; datetimes := datetimes t;
     num_restarts := num_restarts t; _returncode := _returncode t;
     queue_errors := queue_errors t; abi_errors := abi_errors t;
     mem_scales := mem_scales t; load_scales := load_scales t; history := history t;
     manager := manager t; gc_policy := gc_policy t; input := input t; fs := fs t;
     on_ok_calls := on_ok_calls t; sent_signals := sent_signals t |}.

Definition with_datetimes (v : TaskDateTimes) (t : Task) : Task :=
  {| task_class := task_class t; workdir := workdir t; _status := _status t;
     finalized := finalized t; collinear_done := collinear_done t; datetimes := v;
     num_restarts := num_restarts t; _returncode := _returncode t;
     queue_errors := queue_errors t; abi_errors := abi_errors t;
     mem_scales := mem_scales t; load_scales := load_scales t; history := history t;
     manager := manager t; gc_policy := gc_policy t; input := input t; fs := fs t;
     on_ok_calls := on_ok_calls t; sent_signals := sent_signals t |}.

Definition with_num_restarts (v : Z) (t : Task) : Task :=
  {| task_class := task_class t; workdir := workdir t; _status := _status t;
     finalized := finalized t; collinear_done := collinear_done t;
     datetimes := datetimes t; num_restarts := v; _returncode := _returncode t;
     queue_errors := queue_errors t; abi_errors := abi_errors t;
     mem_scales := mem_scales t; load_scales := load_scales t; history := history t;
     manager := manager t; gc_policy := gc_policy t; input := input t; fs := fs t;
     on_ok_calls := on_ok_calls t; sent_signals := sent_signals t |}.

Definition with_returncode (v : ReturnCode) (t : Task) : Task :=
  {| task_class := task_class t; workdir := workdir t; _status := _status t;
     finalized := finalized t; collinear_done := collinear_done t;
     datetimes := datetimes t; num_restarts := num_restarts t; _returncode := v;
     queue_errors := queue_errors t; abi_errors := abi_errors t;
     mem_scales := mem_scales t; load_scales := load_scales t; history := history t;
     manager := manager t; gc_policy := gc_policy t; input := input t; fs := fs t;
     on_ok_calls := on_ok_calls t; sent_signals := sent_signals t |}.

Definition with_queue_errors (v : list QueueError) (t : Task) : Task :=
  {| task_class := task_class t; workdir := workdir t; _status := _status t;
     finalized := finalized t; collinear_done := collinear_done t;
     datetimes := datetimes t; num_restarts := num_restarts t;
     _returncode := _returncode t; queue_errors := v; abi_errors := abi_errors t;
     mem_scales := mem_scales t; load_scales := load_scales t; history := history t;
     manager := manager t; gc_policy := gc_policy t; input := input t; fs := fs t;
     on_ok_calls := on_ok_calls t; sent_signals := sent_signals t |}.

Definition with_abi_errors (v : list AbinitEvent) (t : Task) : Task :=
  {| task_class := task_class t; workdir := workdir t; _status := _status t;
     finalized := finalized t; collinear_done := collinear_done t;
     datetimes := datetimes t; num_restarts := num_restarts t;
     _returncode := _returncode t; queue_errors := queue_errors t; abi_errors := v;
     mem_scales := mem_scales t; load_scales := load_scales t; history := history t;
     manager := manager t; gc_policy := gc_policy t; input := input t; fs := fs t;
     on_ok_calls := on_ok_calls t; sent_signals := sent_signals t |}.

Definition with_mem_scales (v : bool) (t : Task) : Task :=
  {| task_class := task_class t; workdir := workdir t; _status := _status t;
     finalized := finalized t; collinear_done := collinear_done t;
     datetimes := datetimes t; num_restarts := num_restarts t;
     _returncode := _returncode t; queue_errors := queue_errors t;
     abi_errors := abi_errors t; mem_scales := v; load_scales := load_scales t;
     history := history t; manager := manager t; gc_policy := gc_policy t;
     input := input t; fs := fs t; on_ok_calls := on_ok_calls t;
     sent_signals := sent_signals t |}.

Definition with_load_scales (v : bool) (t : Task) : Task :=
  {| task_class := task_class t; workdir := workdir t; _status := _status t;
     finalized := finalized t; collinear_done := collinear_done t;
     datetimes := datetimes t; num_restarts := num_restarts t;
     _returncode := _returncode t; queue_errors := queue_errors t;
     abi_errors := abi_errors t; mem_scales := mem_scales t; load_scales := v;
     history := history t; manager := manager t; gc_policy := gc_policy t;
     input := input t; fs := fs t; on_ok_calls := on_ok_calls t;
     sent_signals := sent_signals t |}.

Definition with_history (v : list LogRecord) (t : Task) : Task :=
  {| task_class := task_class t; workdir := workdir t; _status := _status t;
     finalized := finalized t; collinear_done := collinear_done t;
     datetimes := datetimes t; num_restarts := num_restarts t;
     _returncode := _returncode t; queue_errors := queue_errors t;
     abi_errors := abi_errors t; mem_scales := mem_scales t;
     load_scales := load_scales t; history := v; manager := manager t;
     gc_policy := gc_policy t; input := input t; fs := fs t;
     on_ok_calls := on_ok_calls t; sent_signals := sent_signals t |}.

Definition with_manager (v : TaskManager) (t : Task) : Task :=
  {| task_class := task_class t; workdir := workdir t; _status := _status t;
     finalized := finalized t; collinear_done := collinear_done t;
     datetimes := datetimes t; num_restarts := num_restarts t;
     _returncode := _returncode t; queue_errors := queue_errors t;
     abi_errors := abi_errors t; mem_scales := mem_scales t;
     load_scales := load_scales t; history := history t; manager := v;
     gc_policy := gc_policy t; input := input t; fs := fs t;
     on_ok_calls := on_ok_calls t; sent_signals := sent_signals t |}.

Definition with_gc_policy (v : option string) (t : Task) : Task :=
  {| task_class := task_class t; workdir := workdir t; _status := _status t;
     finalized := finalized t; collinear_done := collinear_done t;
     datetimes := datetimes t; num_restarts := num_restarts t;
     _returncode := _returncode t; queue_errors := queue_errors t;
     abi_errors := abi_errors t; mem_scales := mem_scales t;
     load_scales := load_scales t; history := history t; manager := manager t;
     gc_policy := v; input := input t; fs := fs t; on_ok_calls := on_ok_calls t;
     sent_signals := sent_signals t |}.

Definition with_input (v : list (string * PyValue)) (t : Task) : Task :=
  {| task_class := task_class t; workdir := workdir t; _status := _status t;
     finalized := finalized t; collinear_done := collinear_done t;
     datetimes := datetimes t; num_restarts := num_restarts t;
     _returncode := _returncode t; queue_errors := queue_errors t;
     abi_errors := abi_errors t; mem_scales := mem_scales t;
     load_scales := load_scales t; history := history t; manager := manager t;
     gc_policy := gc_policy t; input := v; fs := fs t; on_ok_calls := on_ok_calls t;
     sent_signals := sent_signals t |}.

Definition with_fs (v : FS) (t : Task) : Task :=
  {| task_class := task_class t; workdir := workdir t; _status := _status t;
     finalized := finalized t; collinear_done := collinear_done t;
     datetimes := datetimes t; num_restarts := num_restarts t;
     _returncode := _returncode t; queue_errors := queue_errors t;
     abi_errors := abi_errors t; mem_scales := mem_scales t;
     load_scales := load_scales t; history := history t; manager := manager t;
     gc_policy := gc_policy t; input := input t; fs := v; on_ok_calls := on_ok_calls t;
     sent_signals := sent_signals t |}.

Definition with_on_ok_calls (v : nat) (t : Task) : Task :=
  {| task_class := task_class t; workdir := workdir t; _status := _status t;
     finalized := finalized t; collinear_done := collinear_done t;
     datetimes := datetimes t; num_restarts := num_restarts t;
     _returncode := _returncode t; queue_errors := queue_errors t;
     abi_errors := abi_errors t; mem_scales := mem_scales t;
     load_scales := load_scales t; history := history t; manager := manager t;
     gc_policy := gc_policy t; input := input t; fs := fs t; on_ok_calls := v;
     sent_signals := sent_signals t |}.

Definition with_sent_signals (v : list Status) (t : Task) : Task :=
  {| task_class := task_class t; workdir := workdir t; _status := _status t;
     finalized := finalized t; collinear_done := collinear_done t;
     datetimes := datetimes t; num_restarts := num_restarts t;
     _returncode := _returncode t; queue_errors := queue_errors t;
     abi_errors := abi_errors t; mem_scales := mem_scales t;
     load_scales := load_scales t; history := history t; manager := manager t;
     gc_policy := gc_policy t; input := input t; fs := fs t;
     on_ok_calls := on_ok_calls t; sent_signals := v |}.

(** ** The collaborators of a task

    What the methods below call and this development does not embed: the
    clock, the parser of [events.py], the texts printed for objects, the
    conversion [Status.as_status] of a string of [nodes.py], the
    regular expressions of [FilepathFixer._fix_path], the garbage collector
    and the links of [utils.Directory], the hooks of a [UserTask], the
    restart strategies of the task families, and [Task.start]. *)
Record World : Type := mkWorld {
  backend : Backend;
  now : Q;
  asctime : string;
  str_of_status : Status -> string;
  status_of_string : string -> Exc + Status;
  str_of_task : Task -> string;
  str_of_exc : Exc -> string;
  str_of_path : Path -> string;
  str_of_event : AbinitEvent -> string;
  repr_of_event : AbinitEvent -> string;
  str_of_queue_error : QueueError -> string;
  str_of_vars : list (string * PyValue) -> string;
  submitted_with : TaskManager -> string;
  parse_events : string -> Exc + EventReport;
  report_exception : Exc -> EventReport;
  _fix_path : Path -> option (Path * string);
  symlink_abiext : Path -> string -> string -> FS -> Exc + FS;
  gc_remove : FS -> FS * string;
  set_spin_mode : string -> list (string * PyValue) -> list (string * PyValue);
  user_critical_events : list string;
  user_reduce_memory_demand : list (string * PyValue) -> list (string * PyValue) * (Exc + bool);
  user_speed_up : list (string * PyValue) -> list (string * PyValue) * (Exc + bool);
  family_restart : Task -> Task * (Exc + Z);
  start_task : Task -> Task * (Exc + Z)
}.

(** ** Methods as state transformers

    A method of the task is a function from the task to the task it leaves
    and either the exception it raised or its result: what was changed
    before an exception stays changed. *)

Definition M (A : Type) : Type := Task -> Task * (Exc + A).

#[global] Instance M_ret : MRet M := fun A x t => (t, inr x).

#[global] Instance M_bind : MBind M := fun A B f m t =>
  match m t with
  | (t', inr a) => f a t'
  | (t', inl e) => (t', inl e)
  end.

#[global] Instance M_fmap : FMap M := fun A B f m t =>
  match m t with
  | (t', inr a) => (t', inr (f a))
  | (t', inl e) => (t', inl e)
  end.

Definition raise {A : Type} (e : Exc) : M A := fun t => (t, inl e).

Definition get : M Task := fun t => (t, inr t).

Definition modify (f : Task -> Task) : M unit := fun t => (f t, inr tt).

Definition lift {A : Type} (r : Exc + A) : M A := fun t => (t, r).

(** [try: body except E: handler], where [handles] recognises [E]. *)
Definition try_except {A : Type} (body : M A) (handles : Exc -> bool)
  (handler : Exc -> M A) : M A := fun t =>
  match body t with
  | (t', inl e) => if handles e then handler e t' else (t', inl e)
  | r => r
  end.

Definition when (b : bool) (m : M unit) : M unit := if b then m else mret tt.

Definition history_log (level : LogLevel) (msg : string) : M unit :=
  modify (fun t => with_history (history t ++ [(level, msg)]) t).

(** ** Files of the working directory ([Task.set_workdir]) *)

Definition input_file (t : Task) : Path := join (workdir t) "run.abi".
Definition output_file (t : Task) : Path := join (workdir t) "run.abo".
Definition job_file (t : Task) : Path := join (workdir t) "job.sh".
Definition log_file (t : Task) : Path := join (workdir t) "run.log".
Definition stderr_file (t : Task) : Path := join (workdir t) "run.err".
Definition start_lockfile (t : Task) : Path := join (workdir t) "__startlock__".
Definition mpiabort_file (t : Task) : Path := join (workdir t) "__ABI_MPIABORTFILE__".
Definition indir (t : Task) : Path := join (workdir t) "indata".
Definition outdir (t : Task) : Path := join (workdir t) "outdata".
Definition tmpdir (t : Task) : Path := join (workdir t) "tmpdata".
Definition qerr_file (t : Task) : Path := join (workdir t) "queue.qerr".
Definition qout_file (t : Task) : Path := join (workdir t) "queue.qout".

(** ** Class attributes *)

Definition CRITICAL_EVENTS (W : World) (c : TaskClass) : list string :=
  match c with
  | AbinitTask | ScrTask => []
  | ScfTask | CollinearThenNonCollinearScfTask => ["ScfConvergenceWarning"]
  | NscfTask => ["NscfConvergenceWarning"]
  | RelaxTask => ["RelaxConvergenceWarning"]
  | DfptTask | DdkTask => ["ScfConvergenceWarning"]
  | SigmaTask => ["QPSConvergenceWarning"]
  | BseTask => ["HaydockConvergenceWarning"]
  | UserTask => user_critical_events W
  end.

(** ** Output files and the hooks of [set_status] *)

(** The loop of [FilepathFixer.fix_paths]. *)
Fixpoint fix_paths_loop (W : World) (paths : list Path) (old2new : list (Path * Path))
  (fixed_exts : list string) : Exc + list (Path * Path) :=
  match paths with
  | [] => inr old2new
  | path :: rest =>
      match _fix_path W path with
      | None => fix_paths_loop W rest old2new fixed_exts
      | Some (newpath, ext) =>
          if bool_decide (ext ∉ fixed_exts) then
            if String.eqb ext "1WF" then fix_paths_loop W rest old2new fixed_exts
            else inl (ValueError ("Unknown extension " +:+ ext))
          else fix_paths_loop W rest (old2new ++ [(path, newpath)]) (fixed_exts ++ [ext])
      end
  end.

Definition fix_paths (W : World) (paths : list Path) : Exc + list (Path * Path) :=
  fix_paths_loop W paths [] [].

Fixpoint rename_all (W : World) (old2new : list (Path * Path)) : M unit :=
  match old2new with
  | [] => mret tt
  | (old, new) :: rest =>
      history_log INFO ("will rename old " +:+ str_of_path W old +:+ " to new "
                        +:+ str_of_path W new);;
      t ← get;
      fs' ← lift (rename (fs t) old new);
      modify (with_fs fs');;
      rename_all W rest
  end.

Definition fix_ofiles (W : World) : M unit :=
  t ← get;
  filepaths ← lift (list_filepaths (fs t) (outdir t));
  old2new ← lift (fix_paths W filepaths);
  rename_all W old2new.

Definition _on_done (W : World) : M unit := fix_ofiles W.

(** [Task.on_ok] of the base class; no class of [tasks.py] overrides it.
    The call is counted in the ghost field [on_ok_calls]. *)
Definition on_ok : M unit :=
  modify (fun t => with_on_ok_calls (S (on_ok_calls t)) t).

(** [Task._on_ok]. *)
Definition Task_on_ok (W : World) : M unit :=
  fix_ofiles W;;
  modify (with_finalized true);;
  on_ok.

(** [self.restart()]: [AbinitTask.restart] is [self._restart()], given
    below; the classes that stage files of the previous run first have
    their strategy in the [World]. *)
Definition family_restarts (c : TaskClass) : bool :=
  match c with
  | AbinitTask | ScrTask => false
  | _ => true
  end.

(** [_on_ok] with the overrides of [CollinearThenNonCollinearScfTask] and
    [DdkTask]. *)
Definition _on_ok (W : World) : M unit :=
  t ← get;
  match task_class t with
  | CollinearThenNonCollinearScfTask =>
      Task_on_ok W;;
      t ← get;
      if negb (collinear_done t) then
        modify (fun t => with_input (set_spin_mode W "spinor" (input t)) t);;
        modify (with_collinear_done true);;
        modify (with_finalized false);;
        _ ← family_restart W;
        mret tt
      else mret tt
  | DdkTask =>
      Task_on_ok W;;
      t ← get;
      fs' ← lift (symlink_abiext W (outdir t) "1WF" "DDK" (fs t));
      modify (with_fs fs')
  | _ => Task_on_ok W
  end.

(** [Task.clean_output_files]; which files go depends on the children and
    the parents of the node. *)
Definition clean_output_files (W : World) : M unit :=
  t ← get;
  when (negb (status_eqb (_status t) S_OK))
       (history_log WARNING "Calling task.clean_output_files on a task whose status != S_OK");;
  let '(fs', paths) := gc_remove W (fs t) in
  modify (with_fs fs');;
  history_log INFO ("Removed files: " +:+ paths).

Definition send_signal (signal : Status) : M unit :=
  modify (fun t => with_sent_signals (sent_signals t ++ [signal]) t).

(** ** [Task.set_status] *)

Definition truncate_msg (msg : string) : string :=
  if (2000 <? String.length msg)%nat
  then String.substring 0 2000 msg +:+ nl +:+ "... snip ..." +:+ nl
  else msg.

(** The argument [status] of [set_status]: a [Status] object or the string
    representation of a status. *)
Inductive StatusArg : Type :=
| StatusObj (s : Status)
| StatusStr (name : string).

Coercion StatusObj : Status >-> StatusArg.

(** [status == s] for the argument of [set_status]: [Status] is a class of
    integers, and a string is never equal to one. *)
Definition arg_is (status : StatusArg) (s : Status) : bool :=
  match status with
  | StatusObj s' => status_eqb s' s
  | StatusStr _ => false
  end.

(** The argument printed with [%s]. *)
Definition str_of_arg (W : World) (status : StatusArg) : string :=
  match status with
  | StatusObj s => str_of_status W s
  | StatusStr name => name
  end.

(** [Status.as_status(status)]: a [Status] is returned as it is, a string is
    converted. *)
Definition as_status (W : World) (status : StatusArg) : Exc + Status :=
  match status with
  | StatusObj s => inr s
  | StatusStr name => status_of_string W name
  end.

Definition set_status (W : World) (status : StatusArg) (msg : string) : M Status :=
  let msg := truncate_msg msg in
  t ← get;
  if status_eqb (_status t) S_LOCKED || arg_is status S_LOCKED then
    raise (RuntimeError
             ("Locked files must be explicitly unlocked before calling set_status but" +:+ nl
              +:+ "task.status = " +:+ str_of_status W (_status t)
              +:+ ", input status = " +:+ str_of_arg W status))
  else
    status ← lift (as_status W status);
    let changed := negb (status_eqb status (_status t)) in
    modify (with_status status);;
    when (status_eqb status S_RUN)
      (modify (fun t =>
         match start (datetimes t) with
         | None => with_datetimes
                     {| init := init (datetimes t); submission := submission (datetimes t);
                        start := Some (now W); end_ := end_ (datetimes t) |} t
         | Some _ => t
         end));;
    when changed
      (if status_eqb status S_SUB then
         modify (fun t => with_datetimes
                   {| init := init (datetimes t); submission := Some (now W);
                      start := start (datetimes t); end_ := end_ (datetimes t) |} t);;
         t ← get;
         history_log INFO (submitted_with W (manager t) +:+ msg +:+ " ")
       else if status_eqb status S_OK then
         history_log INFO ("Task completed " +:+ msg)
       else if status_eqb status S_ABICRITICAL then
         history_log INFO ("Status set to S_ABI_CRITICAL due to: " +:+ msg)
       else
         history_log INFO ("Status changed to " +:+ str_of_status W status
                           +:+ ". msg: " +:+ msg));;
    when (status_eqb status S_DONE) (_on_done W);;
    when (status_eqb status S_OK)
      (t ← get;
       when (negb (finalized t)) (_on_ok W);;
       t ← get;
       when (status_eqb (_status t) S_OK)
         (when (bool_decide (gc_policy t = Some "task")) (clean_output_files W);;
          send_signal S_OK));;
    mret status.

(** ** [Task.lock] and [Task.unlock] *)

Definition lock (W : World) (source_node : string) : M unit :=
  t ← get;
  if negb (status_eqb (_status t) S_INIT) then
    raise (ValueError ("Trying to lock a task with status " +:+ str_of_status W (_status t)))
  else
    modify (with_status S_LOCKED);;
    history_log INFO ("Locked by node " +:+ source_node).

(** ** [Task.get_event_report], with [source="log"] *)

Definition append_event (e : AbinitEvent) (r : EventReport) : EventReport :=
  {| run_completed := run_completed r; start_datetime := start_datetime r;
     end_datetime := end_datetime r; report_events := report_events r ++ [e] |}.

Definition parse_file (W : World) (p : Path) : M EventReport :=
  t ← get;
  text ← lift (read (fs t) p);
  lift (parse_events W text).

Definition get_event_report (W : World) : M (option EventReport) :=
  t ← get;
  let ofile := log_file t in
  if negb (exists_ (fs t) ofile) then
    if negb (exists_ (fs t) (mpiabort_file t)) then mret None
    else Some <$> parse_file W (mpiabort_file t)
  else
    try_except
      (report ← parse_file W ofile;
       t ← get;
       if exists_ (fs t) (mpiabort_file t) then
         history_log CRITICAL "Found ABI_MPIABORTFILE!!!!!";;
         abort_report ← parse_file W (mpiabort_file t);
         when (negb (length (report_events abort_report) =? 1)%nat)
           (history_log CRITICAL "Found more than one event in ABI_MPIABORTFILE");;
         match last (report_events abort_report) with
         | None => raise IndexError
         | Some last_abort_event => mret (Some (append_event last_abort_event report))
         end
       else mret (Some report))
      (fun _ => true)
      (fun exc =>
         _ ← set_status W S_ABICRITICAL
               (str_of_path W ofile +:+ ": Exception while parsing ABINIT events:" +:+ nl
                +:+ " " +:+ str_of_exc W exc);
         mret (Some (report_exception W exc))).

(** ** [Task.check_status] *)

(** [self.returncode != 0], where the property [returncode] is 0 when the
    attribute [_returncode] is not set. *)
Definition returncode_nonzero (t : Task) : bool :=
  match _returncode t with
  | RcUnset => false
  | RcNone => true
  | RcInt code => negb (code =? 0)
  end.

Definition returncode_str (t : Task) : string :=
  match _returncode t with
  | RcUnset => "0"
  | RcNone => "None"
  | RcInt code => str_of_Z code
  end.

(** The content of a file when [getsize() != 0], [None] otherwise. *)
Definition read_if_not_empty (p : Path) : M (option string) :=
  t ← get;
  if negb (getsize (fs t) p =? 0) then Some <$> lift (read (fs t) p) else mret None.

Definition is_empty_msg (m : option string) : bool :=
  match m with
  | None => true
  | Some s => (String.length s =? 0)%nat
  end.

Fixpoint record_abi_errors (W : World) (errs : list AbinitEvent) : M unit :=
  match errs with
  | [] => mret tt
  | error :: rest =>
      history_log DEBUG (str_of_event W error);;
      modify (fun t => with_abi_errors (abi_errors t ++ [error]) t);;
      record_abi_errors W rest
  end.

Definition join_lines (l : list string) : string := String.concat nl l.

(** The block of [check_status] under [if self.output_file.exists]:
    [Some s] when the block returns [s], [None] when control falls out of
    it. *)
Definition check_output (W : World) (err_msg qerr_info : option string)
  : M (option Status) :=
  r ← try_except (inr <$> get_event_report W) (fun _ => true) (fun exc => mret (inl exc));
  match r with
  | inl exc =>
      t ← get;
      Some <$> set_status W S_ABICRITICAL
                 (str_of_task W t +:+ " exception while parsing event_report:" +:+ nl
                  +:+ str_of_exc W exc)
  | inr None => Some <$> set_status W S_ERROR "Got None report!"
  | inr (Some report) =>
      if run_completed report then
        modify (fun t => with_datetimes
                  {| init := init (datetimes t); submission := submission (datetimes t);
                     start := start_datetime report; end_ := end_datetime report |} t);;
        t ← get;
        match filter_types (CRITICAL_EVENTS W (task_class t)) report with
        | _ :: _ =>
            Some <$> set_status W S_UNCONVERGED "status set to UNCONVERGED based on abiout"
        | [] => Some <$> set_status W S_OK "status set to OK based on abiout"
        end
      else
        match errors report with
        | _ :: _ =>
            history_log DEBUG "Found errors in report";;
            record_abi_errors W (errors report);;
            t ← get;
            history_log DEBUG (str_of_task W t
                               +:+ ": Found Errors or Bugs in ABINIT main output!");;
            Some <$> set_status W S_ABICRITICAL
                       (join_lines (map (repr_of_event W) (errors report)))
        | [] =>
            t ← get;
            if exists_ (fs t) (stderr_file t) && is_empty_msg err_msg
               && (exists_ (fs t) (qerr_file t) && is_empty_msg qerr_info)
            then Some <$> set_status W S_RUN
                   "there is output and no errors: job still seems to be running"
            else mret None
        end
  end.

Definition frozen_msg (timeout : Z) : string :=
  "Task seems to be frozen, last change more than " +:+ str_of_Z timeout +:+ " [s] ago".

(** The test [time.time() - st_mtime > frozen_timeout]. *)
Definition is_frozen (W : World) (mtime : Q) (timeout : Z) : bool :=
  Qltb (inject_Z timeout) (now W - mtime)%Q.

Definition check_status (W : World) : M Status :=
  t ← get;
  if returncode_nonzero t then
    set_status W S_QCRITICAL
      ("job.sh return code: " +:+ returncode_str t +:+ nl
       +:+ "Perhaps the job was not submitted properly?")
  else if exists_ (fs t) (mpiabort_file t) then
    set_status W S_ABICRITICAL "Found ABINIT abort file"
  else
    err_msg ← read_if_not_empty (stderr_file t);
    qerr_info ← read_if_not_empty (qerr_file t);
    qout_info ← read_if_not_empty (qout_file t);
    returned ←
      ((if exists_ (fs t) (output_file t) then check_output W err_msg qerr_info
       else mret None) : M (option Status));
    match returned with
    | Some s => mret s
    | None =>
        t ← get;
        if negb (exists_ (fs t) (output_file t))
           && (negb (exists_ (fs t) (stderr_file t)) && negb (exists_ (fs t) (qerr_file t)))
        then mret (_status t)
        else
          when (negb (is_empty_msg err_msg))
            (history_log WARNING ("Found error message:" +:+ nl +:+ " "
                                  +:+ default "" err_msg));;
          let timeout := frozen_timeout (policy (manager t)) in
          frozen ←
            ((if exists_ (fs t) (output_file t) then
               mtime ← lift (st_mtime (fs t) (output_file t));
               mret (is_frozen W mtime timeout)
             else mret false) : M bool);
          if (frozen : bool) then set_status W S_ERROR (frozen_msg timeout)
          else set_status W S_RUN
                 "final option: nothing seems to be wrong, the job must still be running"
    end.

Definition unlock (W : World) (source_node : string) (check : bool) : M unit :=
  t ← get;
  if negb (status_eqb (_status t) S_LOCKED) then
    raise (RuntimeError ("Trying to unlock a task with status "
                         +:+ str_of_status W (_status t)))
  else
    modify (with_status S_READY);;
    when check (_ ← check_status W; mret tt);;
    history_log INFO ("Unlocked by " +:+ source_node).

(** ** Restarting *)

(** [Task._restart]; the result is [fired] ([False] is 0). *)
Definition _restart (W : World) (submit : bool) : M Z :=
  _ ← set_status W S_READY ("Restarted on " +:+ asctime W);
  modify (fun t => with_num_restarts (num_restarts t + 1) t);;
  t ← get;
  history_log INFO ("Restarted, num_restarts " +:+ str_of_Z (num_restarts t));;
  modify (fun t => with_datetimes (TaskDateTimes_reset (now W) (datetimes t)) t);;
  modify (fun t => with_fs (remove (fs t) (start_lockfile t)) t);;
  if submit then
    fired ← start_task W;
    when (fired =? 0) (history_log WARNING "Restart failed");;
    mret fired
  else mret 0.

Definition restart (W : World) : M Z :=
  t ← get;
  if family_restarts (task_class t) then family_restart W else _restart W true.

(** The local function [move_file] of [reset_from_scratch]. *)
Definition move_file (W : World) (reset_dir : Path) (num_reset : Z) (f : Path) : M unit :=
  t ← get;
  if negb (exists_ (fs t) f) then mret tt
  else
    match move (fs t) f (join reset_dir (basename f +:+ "_" +:+ str_of_Z num_reset)) with
    | inr fs' => modify (with_fs fs')
    | inl exc =>
        history_log WARNING ("Couldn't move file " +:+ str_of_path W f +:+ ". exc: "
                             +:+ str_of_exc W exc)
    end.

Fixpoint move_files (W : World) (reset_dir : Path) (num_reset : Z) (files : list Path)
  : M unit :=
  match files with
  | [] => mret tt
  | f :: rest => move_file W reset_dir num_reset f;; move_files W reset_dir num_reset rest
  end.

(** [AbinitTask.reset_from_scratch]. *)
Definition reset_from_scratch (W : World) : M Z :=
  t ← get;
  let reset_dir := join (workdir t) "_reset" in
  let reset_file := join reset_dir "_counter" in
  num_reset ←
    ((if negb (exists_ (fs t) reset_dir) then
        fs' ← lift (mkdir (fs t) reset_dir);
        modify (with_fs fs');;
        mret 1
      else
        text ← lift (read (fs t) reset_file);
        match int_of_str text with
        | Some n => mret (1 + n)
        | None => raise (ValueError "invalid literal for int() with base 10")
        end) : M Z);
  move_files W reset_dir num_reset
    [output_file t; log_file t; stderr_file t; qout_file t; qerr_file t];;
  t ← get;
  fs' ← lift (write_text (now W) (fs t) reset_file (str_of_Z num_reset));
  modify (with_fs fs');;
  modify (fun t => with_fs (remove (fs t) (start_lockfile t)) t);;
  modify (fun t => with_datetimes (TaskDateTimes_reset (now W) (datetimes t)) t);;
  _restart W false.

(** ** Hooks that lower the demands of a task *)

(** [int(v)] for a value of the input. *)
Definition int_of_value (v : PyValue) : Exc + Z :=
  match v with
  | VInt z => inr z
  | VFloat q => inr (py_int_of_float q)
  | VBool b => inr (if b then 1 else 0)
  | VStr s => match int_of_str s with
              | Some z => inr z
              | None => inl (ValueError "invalid literal for int() with base 10")
              end
  end.

Fixpoint dict_set (k : string) (v : PyValue) (d : list (string * PyValue))
  : list (string * PyValue) :=
  match d with
  | [] => [(k, v)]
  | (k', v') :: rest => if String.eqb k' k then (k, v) :: rest else (k', v') :: dict_set k v rest
  end.

(** [Task.set_vars(name=value)]. *)
Definition set_vars (W : World) (name : string) (value : PyValue) : M unit :=
  t ← get;
  let old_values := match dict_get name (input t) with
                    | Some v => [(name, v)]
                    | None => []
                    end in
  modify (with_input (dict_set name value (input t)));;
  history_log INFO ("Setting input variables: " +:+ str_of_vars W [(name, value)]);;
  history_log INFO ("Old values: " +:+ str_of_vars W old_values).

(** The format [%.2d]: at least two digits. *)
Definition two_digits (n : Z) : string :=
  if (0 <=? n) && (n <? 10) then "0" +:+ str_of_Z n else str_of_Z n.

(** [ManyBodyTask.reduce_memory_demand]. *)
Definition ManyBodyTask_reduce_memory_demand (W : World) : M bool :=
  t ← get;
  prev_gwmem ← lift (int_of_value (default (VInt 11) (dict_get "gwmem" (input t))));
  let first_dig := prev_gwmem / 10 in
  let second_dig := prev_gwmem mod 10 in
  if second_dig =? 1 then
    set_vars W "gwmem" (VStr (two_digits (10 * first_dig)));; mret true
  else if first_dig =? 1 then
    set_vars W "gwmem" (VStr (two_digits 0));; mret true
  else mret false.

(** A hook of a [UserTask] works on the input of the task. *)
Definition user_hook (h : list (string * PyValue) -> list (string * PyValue) * (Exc + bool))
  : M bool := fun t =>
  let '(inp, r) := h (input t) in (with_input inp t, r).

Definition reduce_memory_demand (W : World) : M bool :=
  t ← get;
  match task_class t with
  | ScrTask | SigmaTask | BseTask => ManyBodyTask_reduce_memory_demand W
  | UserTask => user_hook (user_reduce_memory_demand W)
  | _ => mret false
  end.

Definition speed_up (W : World) : M bool :=
  t ← get;
  match task_class t with
  | UserTask => user_hook (user_speed_up W)
  | _ => mret false
  end.

(** ** [AbinitTask.fix_queue_critical] *)

(** A call of a method of [self.manager] that changes the manager. *)
Definition manager_call (op : TaskManager -> Exc + TaskManager) : M unit := fun t =>
  match op (manager t) with
  | inr m => (with_manager m t, inr tt)
  | inl e => (t, inl e)
  end.

(** What [fix_queue_critical] returns: the text [ret], [None] or 0. *)
Inductive FixResult : Type := FixText (ret : string) | FixNone | FixZero.

(** [try: action; reset_from_scratch(); set_status(READY, msg); return
     except E: history.warning(warning)]: [Some FixNone] when the body of
    the [try] ran to its [return], [None] when the exception was caught. *)
Definition attempt (W : World) (action : M unit) (msg : string) (handles : Exc -> bool)
  (warning : string) : M (option FixResult) :=
  try_except
    (action;;
     _ ← reset_from_scratch W;
     _ ← set_status W S_READY msg;
     mret (Some FixNone))
    handles
    (fun _ => history_log WARNING warning;; mret None).

(** The branch of the loop for a [MemoryCancelError]. *)
Definition fix_memory_cancel (W : World) : M (option FixResult) :=
  t ← get;
  r1 ← ((if mem_scales t then
           attempt W (manager_call (increase_ncpus (backend W)))
                   "increased ncps to solve memory problem"
                   is_ManagerIncreaseError "increasing ncpus failed"
         else mret None) : M (option FixResult));
  match r1 with
  | Some r => mret (Some r)
  | None =>
      r2 ← attempt W (manager_call (increase_mem (backend W))) "increased mem"
                   is_ManagerIncreaseError "increasing mem failed";
      match r2 with
      | Some r => mret (Some r)
      | None =>
          r3 ← attempt W (_ ← reduce_memory_demand W; mret tt) "decreased mem demand"
                       is_DecreaseDemandsError "decreasing demands failed";
          match r3 with
          | Some r => mret (Some r)
          | None =>
              _ ← set_status W S_ERROR
                    ("Memory error detected but the memory could not be increased neither could the"
                     +:+ nl +:+ "memory demand be decreased. Unrecoverable error.");
              raise FixQueueCriticalError
          end
      end
  end.

(** The branch of the loop for a [TimeCancelError]. *)
Definition fix_time_cancel (W : World) : M (option FixResult) :=
  r1 ← attempt W (manager_call (increase_time (backend W))) "increased wall time"
               is_ManagerIncreaseError "increasing the waltime failed";
  match r1 with
  | Some r => mret (Some r)
  | None =>
      t ← get;
      r2 ← ((if load_scales t then
               attempt W (manager_call (increase_ncpus (backend W)))
                       "increased number of cpus" is_ManagerIncreaseError
                       "increase ncpus to speed up the calculation to stay in the walltime failed"
             else mret None) : M (option FixResult));
      match r2 with
      | Some r => mret (Some r)
      | None =>
          r3 ← attempt W (_ ← speed_up W; mret tt) "task speedup"
                       is_DecreaseDemandsError "decreasing demands failed";
          match r3 with
          | Some r => mret (Some r)
          | None =>
              _ ← set_status W S_ERROR
                    ("Time cancel error detected but the time could not be increased neither could"
                     +:+ nl
                     +:+ "the time demand be decreased by speedup of increasing the number of cpus."
                     +:+ nl +:+ "Unrecoverable error.");
              mret None
          end
      end
  end.

(** The branch of the loop for a [NodeFailureError]. *)
Definition fix_node_failure (W : World) (nodes : option (list string))
  : M (option FixResult) :=
  match nodes with
  | Some nodes =>
      try_except
        (manager_call (exclude_nodes (backend W) nodes);;
         _ ← reset_from_scratch W;
         _ ← set_status W S_READY "excluding nodes";
         mret None)
        (fun _ => true)
        (fun _ => raise FixQueueCriticalError)
  | None =>
      _ ← set_status W S_ERROR "Node error but no node identified.";
      raise FixQueueCriticalError
  end.

(** The loop [for error in self.queue_errors]: [Some r] when an iteration
    returns [r], [None] when the loop runs to its end. *)
Fixpoint fix_queue_errors (W : World) (errs : list QueueError) : M (option FixResult) :=
  match errs with
  | [] => mret None
  | error :: rest =>
      history_log INFO ("fixing: " +:+ str_of_queue_error W error);;
      r ← match error with
          | NodeFailureError nodes => fix_node_failure W nodes
          | MemoryCancelError => fix_memory_cancel W
          | TimeCancelError => fix_time_cancel W
          | OtherQueueError name =>
              _ ← set_status W S_ERROR
                    ("No solution provided for error " +:+ name +:+ ". Unrecoverable error.");
              mret None
          end;
      match r with
      | Some res => mret (Some res)
      | None => fix_queue_errors W rest
      end
  end.

Definition fix_queue_critical (W : World) : M FixResult :=
  history_log INFO "fixing queue critical";;
  t ← get;
  match queue_errors t with
  | [] =>
      if mem_scales t || load_scales t then
        try_except
          (manager_call (increase_resources (backend W));;
           _ ← reset_from_scratch W;
           mret (FixText "task.fix_queue_critical: increased resources"))
          is_ManagerIncreaseError
          (fun _ =>
             _ ← set_status W S_ERROR
                   "unknown queue error, could not increase resources any further";
             raise FixQueueCriticalError)
      else
        _ ← set_status W S_ERROR "unknown queue error, no options left";
        raise FixQueueCriticalError
  | errs =>
      r ← fix_queue_errors W errs;
      match r with
      | Some res => mret res
      | None => mret FixZero
      end
  end.

(** ** Statements about the methods *)

(** From a task that satisfies [P], the method [m] leaves a task that
    satisfies [Q], whether it returns or raises. *)
Definition hoare {A : Type} (P : Task -> Prop) (m : M A) (Q : Task -> Prop) : Prop :=
  forall t, P t -> Q (m t).1.

Definition preserves {A : Type} (P : Task -> Prop) (m : M A) : Prop := hoare P m P.

(** From a task that satisfies [P], when [m] returns [a] it leaves a task
    that satisfies [Q a]. *)
Definition returns {A : Type} (P : Task -> Prop) (m : M A) (Q : A -> Task -> Prop) : Prop :=
  forall t, P t ->
    match m t with
    | (t', inr a) => Q a t'
    | (_, inl _) => True
    end.

(** The task after [history_log level msg]. *)
Definition log1 (level : LogLevel) (msg : string) (t : Task) : Task :=
  with_history (history t ++ [(level, msg)]) t.

(** A sequence of calls of [set_status]; each call starts from the task
    left by the one before, whether that one returned or raised. *)
Fixpoint set_status_calls (W : World) (calls : list (Status * string)) (t : Task) : Task :=
  match calls with
  | [] => t
  | (status, msg) :: rest => set_status_calls W rest (set_status W status msg t).1
  end.

(** The finalization hook ran at most once, and not at all while the flag
    [finalized] is down. *)
Definition finalized_once (t : Task) : Prop :=
  (on_ok_calls t <= 1)%nat /\ (finalized t = false -> on_ok_calls t = 0%nat).

(** The lock. *)
Definition unlocked (t : Task) : Prop := _status t <> S_LOCKED.
Definition locked (t : Task) : Prop := _status t = S_LOCKED.

(** The statuses whose recording runs no hook and touches no date. *)
Definition plain (s : Status) : bool :=
  match s with
  | S_INIT | S_READY | S_ABICRITICAL | S_QCRITICAL | S_UNCONVERGED | S_ERROR => true
  | _ => false
  end.

(** The record that [set_status] adds to the history for a change to a
    plain status. *)
Definition status_text (W : World) (s : Status) (msg : string) : string :=
  if status_eqb s S_ABICRITICAL
  then "Status set to S_ABI_CRITICAL due to: " +:+ truncate_msg msg
  else "Status changed to " +:+ str_of_status W s +:+ ". msg: " +:+ truncate_msg msg.

(** What [read_if_not_empty] returns. *)
Definition text_if_not_empty (fs : FS) (p : Path) : option string :=
  match fs !! p with
  | Some (RegularFile content _) =>
      if (String.length content =? 0)%nat then None else Some content
  | _ => None
  end.

(** The task in which [check_status] looks at the age of the output: the
    content of a stderr file that is not empty has been logged. *)
Definition warned (t : Task) : Task :=
  match text_if_not_empty (fs t) (stderr_file t) with
  | Some err_msg => log1 WARNING ("Found error message:" +:+ nl +:+ " " +:+ err_msg) t
  | None => t
  end.

(** The task in which the loop of [fix_queue_critical] meets its first
    error. *)
Definition fixing (W : World) (error : QueueError) (t : Task) : Task :=
  log1 INFO ("fixing: " +:+ str_of_queue_error W error)
       (log1 INFO "fixing queue critical" t).

(** Predicates on the task used as invariants. *)
Definition dates_are (d : TaskDateTimes) (t : Task) : Prop := datetimes t = d.

Definition not_collinear (t : Task) : Prop :=
  task_class t <> CollinearThenNonCollinearScfTask.

Definition once (t : Task) : Prop := not_collinear t /\ finalized_once t.

Definition armed (t : Task) : Prop :=
  not_collinear t /\ on_ok_calls t = 0%nat /\ finalized t = false.

Definition ready_for_reset (n : Z) (m : TaskManager) (t : Task) : Prop :=
  _status t <> S_LOCKED /\ num_restarts t = n /\ manager t = m.

Definition was_reset (n : Z) (m : TaskManager) (t : Task) : Prop :=
  _status t = S_READY /\ num_restarts t = n + 1 /\ manager t = m.

Definition same_status_restarts (s : Status) (n : Z) (t : Task) : Prop :=
  _status t = s /\ num_restarts t = n.


(** ** [Task.reset] *)

(** What [Task.reset] changes outside the task: the job of the task in the
    queue ([set_qjob(None)]) and the flags [finalized] of its work and of
    its flow. *)
Record Links : Type := mkLinks {
  qjob : option string;
  work_finalized : bool;
  flow_finalized : bool
}.

(** The files that [Task.reset] removes, in the order of the source. *)
Definition reset_files (t : Task) : list Path :=
  [output_file t; log_file t; stderr_file t; start_lockfile t; qerr_file t; qout_file t;
   mpiabort_file t].

(** The part of [Task.reset] that works on the task. The test
    [self.mpiabort_file.exists] guards a removal that does nothing without
    the file. *)
Definition reset_task (W : World) : M unit :=
  modify (fun t => with_fs (foldl remove (fs t) (reset_files t)) t);;
  _ ← set_status W S_INIT ("Reset on " +:+ asctime W);
  modify (with_num_restarts 0).

(** [Task.reset]: the task and the links it leaves, and what it returns. *)
Definition reset (W : World) (links : Links) (t : Task) : Task * Links * (Exc + Z) :=
  match reset_task W t with
  | (t', inr _) =>
      (t', {| qjob := None; work_finalized := false; flow_finalized := false |}, inr 0)
  | (t', inl e) => (t', links, inl e)
  end.

(** ** [AbinitTask.fix_abicritical] *)

(** An event handler of [events.py]: [handle_task_event] may change the
    task; its result is the truth value of what the method returns. *)
Record EventHandler : Type := mkEventHandler {
  can_handle : AbinitEvent -> bool;
  handle_task_event : AbinitEvent -> M bool;
  str_of_handler : string
}.

(** The counters [count] and [done] of [fix_abicritical]. *)
Definition Counters : Type := Z * list Z.

(** [done[i]]; the list has one entry for each handler. *)
Definition done_at (done : list Z) (i : nat) : Z := default 0 (done !! i).

(** The loop [for i, handler in enumerate(self.event_handlers)]. *)
Fixpoint handlers_loop (W : World) (event : AbinitEvent)
  (handlers : list (nat * EventHandler)) (cd : Counters) : M Counters :=
  match handlers with
  | [] => mret cd
  | (i, handler) :: rest =>
      if can_handle handler event && (done_at cd.2 i =? 0) then
        history_log INFO ("handler " +:+ str_of_handler handler +:+ " will try to fix event "
                          +:+ str_of_event W event);;
        cd' ← try_except
                (d ← handle_task_event handler event;
                 if (d : bool) then mret (cd.1 + 1, <[i := done_at cd.2 i + 1]> cd.2)
                 else mret cd)
                (fun _ => true)
                (fun exc => history_log CRITICAL (str_of_exc W exc);; mret cd);
        handlers_loop W event rest cd'
      else handlers_loop W event rest cd
  end.

(** The loop [for event in report]. *)
Fixpoint events_loop (W : World) (events : list AbinitEvent)
  (handlers : list EventHandler) (cd : Counters) : M Counters :=
  match events with
  | [] => mret cd
  | event :: rest =>
      cd' ← handlers_loop W event (enumerate handlers) cd;
      events_loop W rest handlers cd'
  end.

(** [fix_abicritical], with the handlers that [self.event_handlers] gives. *)
Definition fix_abicritical (W : World) (event_handlers : list EventHandler) : M Z :=
  match event_handlers with
  | [] =>
      _ ← set_status W S_ERROR "Empty list of event handlers. Cannot fix abi_critical errors";
      mret 0
  | _ :: _ =>
      let done := replicate (length event_handlers) 0 in
      report ← get_event_report W;
      match report with
      | None =>
          _ ← set_status W S_ERROR "get_event_report returned None";
          mret 0
      | Some report =>
          cd ← events_loop W (report_events report) event_handlers (0, done);
          if negb (cd.1 =? 0) then
            _ ← reset_from_scratch W;
            mret 1
          else
            _ ← set_status W S_ERROR
                  "We encountered AbiCritical events that could not be fixed";
            mret 0
      end
  end.

(** ** More statements about the methods *)









(** [int(self.get_inpvar("gwmem", default=11))]. *)
Definition gwmem (t : Task) : Exc + Z :=
  int_of_value (default (VInt 11) (dict_get "gwmem" (input t))).

(** A queue error of a class that [fix_queue_critical] does not know. *)
Definition unclassified (e : QueueError) : Prop := exists name, e = OtherQueueError name.

(** The counter that [reset_from_scratch] is going to write. *)
Definition next_reset (t : Task) : option Z :=
  let reset_dir := join (workdir t) "_reset" in
  if exists_ (fs t) reset_dir then
    match read (fs t) (join reset_dir "_counter") with
    | inr text => (fun n => 1 + n) <$> int_of_str text
    | inl _ => None
    end
  else Some 1.

(** The task once [Task.reset] has removed its files. *)
Definition without_files (t : Task) : Task :=
  with_fs (foldl remove (fs t) (reset_files t)) t.

(** The counters of [fix_abicritical] for [n] handlers: each handler fired
    at most once and [count] is the number of those that fired. *)
Definition fired_once (n : nat) (cd : Counters) : Prop :=
  length cd.2 = n /\ Forall (fun d => d = 0 \/ d = 1) cd.2 /\
  cd.1 = foldr Z.add 0 cd.2.

End Tasks.

(** * A task on a workstation, for the examples *)

Module Example.
Import Hints Manager Fs Tasks.

Definition shell_adapter (p : Z) : QueueAdapter :=
  {| priority := p; qtype := "shell"; qa_mpi_procs := 1; qa_omp_threads := 1;
     qa_mem_per_proc := 1024; qa_timelimit := 3600; qa_excluded_nodes := [] |}.

(** An adapter that is already at its maximum of cores and of time, and
    that can still double the memory per process. *)
Definition backend : Backend :=
  {| make_qadapter := fun d =>
       match dict_get "priority" (qad_entries d) with
       | Some (VInt p) => inr (shell_adapter p)
       | _ => inl (ValueError "priority")
       end;
     slurm_parse_timestr := fun _ => inr 3600;
     more_cores := fun q => inl (QueueAdapterError "max_cores reached");
     more_mem_per_proc := fun q =>
       inr {| priority := priority q; qtype := qtype q; qa_mpi_procs := qa_mpi_procs q;
              qa_omp_threads := qa_omp_threads q; qa_mem_per_proc := 2 * qa_mem_per_proc q;
              qa_timelimit := qa_timelimit q; qa_excluded_nodes := qa_excluded_nodes q |};
     more_time := fun q => inl (QueueAdapterError "timelimit reached");
     exclude_nodes_qad := fun nodes q => inl (QueueAdapterError "not supported") |}.

Definition status_name (s : Status) : string :=
  match s with
  | S_INIT => "Initialized" | S_LOCKED => "Locked" | S_READY => "Ready"
  | S_SUB => "Submitted" | S_RUN => "Running" | S_DONE => "Done"
  | S_ABICRITICAL => "AbiCritical" | S_QCRITICAL => "QCritical"
  | S_UNCONVERGED => "Unconverged" | S_ERROR => "Error" | S_OK => "Completed"
  end.

(** The log says [completed] when the run is over; it never holds errors. *)
Definition world_with (restart_strategy start : Task -> Task * (Exc + Z)) : World :=
  {| Tasks.backend := backend;
     now := 10000;
     asctime := "Tue Nov  3 12:00:00 2026";
     str_of_status := status_name;
     status_of_string := fun name =>
       match find (fun s => String.eqb (status_name s) name)
                  [S_INIT; S_LOCKED; S_READY; S_SUB; S_RUN; S_DONE; S_ABICRITICAL;
                   S_QCRITICAL; S_UNCONVERGED; S_ERROR; S_OK] with
       | Some s => inr s
       | None => inl (ValueError ("Wrong string " +:+ name))
       end;
     str_of_task := fun _ => "<task>";
     str_of_exc := fun _ => "exception";
     str_of_path := fun p => String.concat "/" p;
     str_of_event := ev_message;
     repr_of_event := ev_message;
     str_of_queue_error := fun _ => "MemoryCancelError";
     str_of_vars := fun _ => "{}";
     submitted_with := fun _ => "Submitted with MPI=1, Omp=1, Memproc=1.0 [GB] ";
     parse_events := fun text =>
       inr {| run_completed := String.eqb text "completed"; start_datetime := Some 1%Q;
              end_datetime := Some 2%Q; report_events := [] |};
     report_exception := fun _ =>
       {| run_completed := false; start_datetime := None; end_datetime := None;
          report_events :=
            [ {| ev_kind := EvError; ev_class := "Error"; ev_message := "exception" |} ] |};
     _fix_path := fun _ => None;
     symlink_abiext := fun _ _ _ fs => inr fs;
     gc_remove := fun fs => (fs, "[]");
     set_spin_mode := fun _ inp => inp;
     user_critical_events := [];
     user_reduce_memory_demand := fun inp => (inp, inl (DecreaseDemandsError "no way"));
     user_speed_up := fun inp => (inp, inl (DecreaseDemandsError "no way"));
     family_restart := restart_strategy;
     start_task := start |}.

(** No file to restart from, as [ScfTask.restart] finds it in an output
    directory without WFK and DEN files. *)
Definition world : World :=
  world_with
    (fun t => (t, inl (RestartError "Cannot find WFK or DEN file to restart from.")))
    (fun t => (t, inr 1)).

(** [start] submits the job; the restart strategy of the family finds its
    file and calls [_restart]. *)
Definition submitting_world : World :=
  world_with
    (fun t => (t, inl (RestartError "Cannot find WFK or DEN file to restart from.")))
    (_ ← set_status world S_SUB "Submitted to queue"; mret 1).

Definition restarting_world : World :=
  world_with (_restart submitting_world true) (start_task submitting_world).

(** An adapter at its maximum of cores, of memory and of time. *)
Definition exhausted_backend : Backend :=
  {| make_qadapter := make_qadapter backend;
     slurm_parse_timestr := slurm_parse_timestr backend;
     more_cores := fun q => inl (QueueAdapterError "max_cores reached");
     more_mem_per_proc := fun q => inl (QueueAdapterError "max_mem reached");
     more_time := fun q => inl (QueueAdapterError "timelimit reached");
     exclude_nodes_qad := fun nodes q => inl (QueueAdapterError "not supported") |}.

Definition exhausted_world : World :=
  {| Tasks.backend := exhausted_backend;
     now := now world;
     asctime := asctime world;
     str_of_status := str_of_status world;
     status_of_string := status_of_string world;
     str_of_task := str_of_task world;
     str_of_exc := str_of_exc world;
     str_of_path := str_of_path world;
     str_of_event := str_of_event world;
     repr_of_event := repr_of_event world;
     str_of_queue_error := str_of_queue_error world;
     str_of_vars := str_of_vars world;
     submitted_with := submitted_with world;
     parse_events := parse_events world;
     report_exception := report_exception world;
     _fix_path := _fix_path world;
     symlink_abiext := symlink_abiext world;
     gc_remove := gc_remove world;
     set_spin_mode := set_spin_mode world;
     user_critical_events := user_critical_events world;
     user_reduce_memory_demand := user_reduce_memory_demand world;
     user_speed_up := user_speed_up world;
     family_restart := family_restart world;
     start_task := start_task world |}.

Definition policy : TaskPolicy :=
  {| autoparal := 1; condition := empty_condition; vars_condition := empty_condition;
     precedence := "autoparal_conf"; autoparal_priorities := [PrioName "speedup"];
     frozen_timeout := 3600 |}.

Definition manager : TaskManager :=
  {| _kwargs := {| kw_policy := None; kw_qadapters := None; kw_invalid := [] |};
     Manager.policy := policy;
     _qads := [shell_adapter 1];
     _qadpos := 0 |}.

Definition wd : Path := ["flow"; "w0"; "t0"].

(** The working directory of a run whose output was last written at time
    [mtime]. *)
Definition files (log : string) (mtime : Q) : FS :=
  <[ wd ++ ["run.abo"] := RegularFile "output" mtime ]>
  (<[ wd ++ ["run.log"] := RegularFile log mtime ]>
  (<[ wd ++ ["run.err"] := RegularFile "" mtime ]>
  (<[ wd ++ ["__startlock__"] := RegularFile "Started" 50%Q ]>
  (<[ wd ++ ["outdata"] := DirNode ]>
  (<[ wd := DirNode ]> ∅))))).

(** The same directory when the log was last written at [log_mtime] and
    the output file at [out_mtime]. *)
Definition files_written (log : string) (log_mtime out_mtime : Q) : FS :=
  <[ wd ++ ["run.abo"] := RegularFile "output" out_mtime ]>
  (<[ wd ++ ["run.log"] := RegularFile log log_mtime ]>
  (<[ wd ++ ["run.err"] := RegularFile "" log_mtime ]>
  (<[ wd ++ ["__startlock__"] := RegularFile "Started" 50%Q ]>
  (<[ wd ++ ["outdata"] := DirNode ]>
  (<[ wd := DirNode ]> ∅))))).

Definition task (cls : TaskClass) (st : Status) (rc : ReturnCode) (fs : FS) : Task :=
  {| task_class := cls; workdir := wd; _status := st; finalized := false;
     collinear_done := false;
     datetimes := {| init := 0; submission := Some 10%Q; start := Some 20%Q;
                     end_ := Some 30%Q |};
     num_restarts := 0; _returncode := rc; queue_errors := [MemoryCancelError];
     abi_errors := []; mem_scales := true; load_scales := true; history := [];
     Tasks.manager := manager; gc_policy := None; input := []; Tasks.fs := fs;
     on_ok_calls := 0; sent_signals := [] |}.

Definition conf (mpi : Z) (eff mem : Q) : ParalConf :=
  {| mpi_ncpus := mpi; omp_ncpus := 1; mem_per_cpu := mem; efficiency := eff; vars := [] |}.

Definition qad_dict (p : Z) : QadDict :=
  {| enabled := None; qad_entries := [("priority", VInt p)] |}.

(** A policy whose condition rejects every configuration. *)
Definition rejecting_policy : TaskPolicy :=
  {| autoparal := 1;
     condition := {| cmap_str := "{'mpi_ncpus': {'$gt': 1000}}"; cmap_nonempty := true;
                     cmap_eval := fun _ => inr false |};
     vars_condition := empty_condition;
     precedence := "autoparal_conf";
     autoparal_priorities := [PrioName "speedup"];
     frozen_timeout := 3600 |}.

Definition some_hints : ParalHints :=
  {| info := [];
     _confs := [conf 1 1 0; conf 4 (3 # 4) 0; conf 2 (9 # 10) 0;
                conf 8 (1 # 2) 0] |}.

(** A ranking on the speedup, then on the memory. *)
Definition speedup_then_memory : TaskPolicy :=
  {| autoparal := 1; condition := empty_condition; vars_condition := empty_condition;
     precedence := "autoparal_conf";
     autoparal_priorities := [PrioName "speedup"; PrioName "mem_per_proc"];
     frozen_timeout := 3600 |}.

(** An entry with [enabled: yes]. *)
Definition enabled_dict (p : Z) : QadDict :=
  {| enabled := Some true; qad_entries := [("priority", VInt p)] |}.

(** Three enabled entries, two of them with priority 1 and one with
    priority -5, and an entry of priority 2 without the key [enabled]. *)
Definition enabled_kwargs : ManagerKwargs :=
  {| kw_policy := None;
     kw_qadapters := Some [enabled_dict 1; enabled_dict 1; enabled_dict (-5); qad_dict 2];
     kw_invalid := [] |}.

(** Three entries of a configuration file, two of them with priority 1. *)
Definition same_priority_kwargs : ManagerKwargs :=
  {| kw_policy := None;
     kw_qadapters := Some [qad_dict 1; qad_dict 2; qad_dict 1];
     kw_invalid := [] |}.

(** The strategy that keeps the configurations with an efficiency of 0.8 at
    least. *)
Definition cutoff_policy : TaskPolicy :=
  {| autoparal := 1; condition := empty_condition; vars_condition := empty_condition;
     precedence := "autoparal_conf";
     autoparal_priorities :=
       [PrioMapping [("meta_priority", VStr "highest_speedup_minimum_efficiency_cutoff");
                     ("minimum_efficiency", VFloat (8 # 10))]];
     frozen_timeout := 3600 |}.

(** A ranking on the speedup, then on the efficiency. *)
Definition speedup_then_efficiency : TaskPolicy :=
  {| autoparal := 1; condition := empty_condition; vars_condition := empty_condition;
     precedence := "autoparal_conf";
     autoparal_priorities := [PrioName "speedup"; PrioName "efficiency"];
     frozen_timeout := 3600 |}.

(** Two entries of a configuration file, the second with the lower
    priority. *)
Definition accepted_kwargs : ManagerKwargs :=
  {| kw_policy := None;
     kw_qadapters := Some [qad_dict 2; qad_dict 1];
     kw_invalid := [] |}.

(** Adapters with four cores on shared nodes that run the configurations of
    [limit] cores at most. *)
Definition hooks (limit : Z) : QadHooks :=
  {| can_run_pconf := fun _ pc => num_cores pc <=? limit;
     allocation := fun _ => "shared";
     cores_per_node := fun _ => 4;
     hint_cores := fun _ => 4;
     has_omp := fun _ => false;
     set_mpi_procs := fun n q =>
       inr {| priority := priority q; qtype := qtype q; qa_mpi_procs := n;
              qa_omp_threads := qa_omp_threads q; qa_mem_per_proc := qa_mem_per_proc q;
              qa_timelimit := qa_timelimit q; qa_excluded_nodes := qa_excluded_nodes q |};
     set_omp_threads := fun n q =>
       inr {| priority := priority q; qtype := qtype q; qa_mpi_procs := qa_mpi_procs q;
              qa_omp_threads := n; qa_mem_per_proc := qa_mem_per_proc q;
              qa_timelimit := qa_timelimit q; qa_excluded_nodes := qa_excluded_nodes q |} |}.

Definition error_event : AbinitEvent :=
  {| ev_kind := EvError; ev_class := "Error"; ev_message := "out of memory" |}.

Definition error_report : EventReport :=
  {| run_completed := false; start_datetime := Some 1%Q; end_datetime := None;
     report_events := [error_event] |}.

(** Every log holds an error and no run is completed. *)
Definition failing_world : World :=
  {| Tasks.backend := backend;
     now := now world;
     asctime := asctime world;
     str_of_status := str_of_status world;
     status_of_string := status_of_string world;
     str_of_task := str_of_task world;
     str_of_exc := str_of_exc world;
     str_of_path := str_of_path world;
     str_of_event := str_of_event world;
     repr_of_event := repr_of_event world;
     str_of_queue_error := str_of_queue_error world;
     str_of_vars := str_of_vars world;
     submitted_with := submitted_with world;
     parse_events := fun _ => inr error_report;
     report_exception := report_exception world;
     _fix_path := _fix_path world;
     symlink_abiext := symlink_abiext world;
     gc_remove := gc_remove world;
     set_spin_mode := set_spin_mode world;
     user_critical_events := user_critical_events world;
     user_reduce_memory_demand := user_reduce_memory_demand world;
     user_speed_up := user_speed_up world;
     family_restart := family_restart world;
     start_task := start_task world |}.

(** A handler that fixes every event, and one that handles none. *)
Definition eager_handler : EventHandler :=
  {| can_handle := fun _ => true;
     handle_task_event := fun _ => mret true;
     str_of_handler := "<eager>" |}.

Definition idle_handler : EventHandler :=
  {| can_handle := fun _ => false;
     handle_task_event := fun _ => mret false;
     str_of_handler := "<idle>" |}.

End Example.

(** * Properties of the selection of configurations *)

Module HintsFacts.
Import Hints.

Lemma sort_insert_perm {A : Type} (key : A -> Q) (reverse : bool) (x : A) (l : list A) :
  sort_insert key reverse x l ≡ₚ x :: l.
Proof.
  induction l as [|y ys IH]; simpl; [reflexivity|].
  destruct (if reverse then Qltb (key x) (key y) else Qltb (key y) (key x)); [|reflexivity].
  rewrite IH. apply Permutation_swap.
Qed.

Lemma list_sort_perm {A : Type} (key : A -> Q) (reverse : bool) (l : list A) :
  list_sort key reverse l ≡ₚ l.
Proof.
  induction l as [|x xs IH]; simpl; [reflexivity|].
  rewrite sort_insert_perm. by rewrite IH.
Qed.

(** One filtering block of [get_ordered_with_policy] never leaves an empty
    pool, undoes the filter when it leaves nothing and keeps its result
    otherwise. *)
Lemma apply_policy_condition_keeps (cond : Condition) (key : CondKey) (name : string)
  (hints : ParalHints) :
  _confs hints <> [] ->
  _confs (apply_policy_condition cond key name hints).1 <> [] /\
  undone cond key name hints (apply_policy_condition cond key name hints).1
         (apply_policy_condition cond key name hints).2 /\
  filtered cond key hints (apply_policy_condition cond key name hints).1.
Proof.
  intros Hne. unfold apply_policy_condition, undone, filtered.
  destruct (Condition_bool cond) eqn:Hb; simpl.
  - destruct (select_with_condition cond key hints) as [h' lg] eqn:Hs. simpl.
    unfold ParalHints_len.
    destruct (_confs h') as [|c cs] eqn:Hc; simpl.
    + split; [exact Hne|]. split.
      * intros _ _. split; [reflexivity|].
        apply elem_of_cons. right. apply elem_of_app. right.
        apply list_elem_of_singleton. reflexivity.
      * intros _ H. congruence.
    + split; [congruence|]. split.
      * intros _ H. discriminate.
      * reflexivity.
  - split; [exact Hne|]. split; intros H; discriminate.
Qed.

(** C5. When some configuration is within the ceiling, neither the filter
    with [policy.condition] nor the one with [policy.vars_condition]
    empties the pool of candidates of [get_ordered_with_policy]: a filter
    that would leave nothing is undone, the pool of before is back and the
    warning is logged. *)
Theorem candidate_pool_never_empty (policy : TaskPolicy) (max_ncpus : Z) (self : ParalHints) :
  _confs (within_ceiling max_ncpus self) <> [] ->
  exists h1 lg1 h2 lg2,
    apply_policy_condition (condition policy) KeyNone "condition"
      (within_ceiling max_ncpus self) = (h1, lg1) /\
    apply_policy_condition (vars_condition policy) KeyVars "vars_condition" h1 = (h2, lg2) /\
    candidate_pool policy max_ncpus self = (h2, lg1 ++ lg2) /\
    _confs h1 <> [] /\ _confs h2 <> [] /\
    undone (condition policy) KeyNone "condition" (within_ceiling max_ncpus self) h1 lg1 /\
    undone (vars_condition policy) KeyVars "vars_condition" h1 h2 lg2.
Proof.
  intros Hne.
  destruct (apply_policy_condition_keeps (condition policy) KeyNone "condition" _ Hne)
    as (Hne1 & Hu1 & _).
  destruct (apply_policy_condition (condition policy) KeyNone "condition"
              (within_ceiling max_ncpus self)) as [h1 lg1] eqn:E1.
  simpl in Hne1, Hu1.
  destruct (apply_policy_condition_keeps (vars_condition policy) KeyVars "vars_condition"
              h1 Hne1) as (Hne2 & Hu2 & _).
  destruct (apply_policy_condition (vars_condition policy) KeyVars "vars_condition" h1)
    as [h2 lg2] eqn:E2.
  simpl in Hne2, Hu2.
  exists h1, lg1, h2, lg2. split_and!; try assumption; try reflexivity.
  unfold candidate_pool. fold (within_ceiling max_ncpus self). rewrite E1, E2. reflexivity.
Qed.

Lemma candidate_pool_never_empty_witness :
  _confs (within_ceiling 4 Example.some_hints) <> [] /\
  _confs (candidate_pool Example.rejecting_policy 4 Example.some_hints).1 <> [].
Proof.
  split; [vm_compute; discriminate|].
  destruct (candidate_pool_never_empty Example.rejecting_policy 4 Example.some_hints)
    as (h1 & lg1 & h2 & lg2 & _ & _ & E & _ & H2 & _); [vm_compute; discriminate|].
  rewrite E. exact H2.
Defined.

(** A condition that no configuration satisfies: the three configurations
    within the ceiling are all kept and the warning is logged. *)
Example candidate_pool_undoes_the_filter :
  _confs (candidate_pool Example.rejecting_policy 4 Example.some_hints).1
  = [Example.conf 1 1 0; Example.conf 4 (3 # 4) 0; Example.conf 2 (9 # 10) 0] /\
  (candidate_pool Example.rejecting_policy 4 Example.some_hints).2
  = [(INFO, "Applying condition {'mpi_ncpus': {'$gt': 1000}}");
     (WARNING, "Empty list of configurations after policy.condition")].
Proof. split; reflexivity. Qed.

(** C10. When every configuration reports [mem_per_proc] equal to 0.0,
    [sort_by_mem_per_proc] returns the hints as they are, in the same
    order, whatever [reverse] is. *)
Theorem sort_by_mem_per_proc_without_estimates (reverse : bool) (h : ParalHints) :
  (forall c, c ∈ _confs h -> (mem_per_proc c == 0)%Q) ->
  sort_by_mem_per_proc reverse h = h.
Proof.
  intros H. unfold sort_by_mem_per_proc.
  replace (existsb (fun c => Qltb 0 (mem_per_proc c)) (_confs h)) with false; [reflexivity|].
  symmetry. apply not_true_is_false. intros He. apply existsb_exists in He.
  destruct He as [c [Hin Hlt]]. apply list_elem_of_In in Hin.
  specialize (H c Hin). unfold Qltb in Hlt. apply negb_true_iff in Hlt.
  assert (Qle_bool (mem_per_proc c) 0 = true)
    by (apply Qle_bool_iff; rewrite H; apply Qle_refl).
  congruence.
Qed.

Lemma sort_by_mem_per_proc_without_estimates_witness :
  (forall c, c ∈ _confs Example.some_hints -> (mem_per_proc c == 0)%Q) /\
  sort_by_mem_per_proc false Example.some_hints = Example.some_hints.
Proof.
  assert (H : forall c, c ∈ _confs Example.some_hints -> (mem_per_proc c == 0)%Q).
  { intros c Hc. simpl in Hc.
    repeat (apply elem_of_cons in Hc; destruct Hc as [->|Hc]; [reflexivity|]).
    inversion Hc. }
  split; [exact H|].
  apply (sort_by_mem_per_proc_without_estimates false Example.some_hints H).
Defined.

(** With an estimate above zero somewhere, the sort takes place. *)
Lemma sort_by_mem_per_proc_with_estimates (reverse : bool) (h : ParalHints) (c : ParalConf) :
  c ∈ _confs h -> (0 < mem_per_proc c)%Q ->
  _confs (sort_by_mem_per_proc reverse h) = list_sort mem_per_proc reverse (_confs h).
Proof.
  intros Hin Hlt. unfold sort_by_mem_per_proc.
  replace (existsb (fun c => Qltb 0 (mem_per_proc c)) (_confs h)) with true; [reflexivity|].
  symmetry. apply existsb_exists. exists c. split; [by apply list_elem_of_In|].
  unfold Qltb. apply negb_true_iff. apply not_true_is_false. intros Hle.
  apply Qle_bool_iff in Hle. apply Qlt_not_le in Hlt. contradiction.
Qed.

Example sort_by_mem_per_proc_sorts :
  map mem_per_proc
      (_confs (sort_by_mem_per_proc false
                 {| info := [];
                    _confs := [Example.conf 1 1 500; Example.conf 2 1 100;
                               Example.conf 4 1 300] |}))
  = [100%Q; 300%Q; 500%Q].
Proof. reflexivity. Qed.

(** The ranking of the specification: speedups 1.0, 3.0, 2.0 come out as
    3.0, 2.0, 1.0. *)
Example sort_by_speedup_descending :
  map speedup
      (_confs (sort_by_speedup true
                 {| info := [];
                    _confs := [Example.conf 1 1 0; Example.conf 6 (1 # 2) 0;
                               Example.conf 2 1 0] |}))
  = [(1 # 2) * 6; 1 * 2; 1 * 1]%Q.
Proof. reflexivity. Qed.

(** The keyword [memory] is not a parameter of [SparseHistogram.__init__]. *)
Lemma SparseHistogram_call_memory {A : Type} (items : list A) (key : A -> Q) :
  SparseHistogram_call items key [KwOther "memory" 1024]
  = inl (TypeError "__init__() got an unexpected keyword argument 'memory'").
Proof. reflexivity. Qed.

Lemma optimization_loop_memory (priorities : list Priority) (confs : list ParalConf) :
  PrioName "mem_per_proc" ∈ priorities ->
  exists e, optimization_loop priorities confs = inl e.
Proof.
  revert confs. induction priorities as [|p ps IH]; intros confs Hin.
  - inversion Hin.
  - destruct p as [name|m]; [|eexists; reflexivity].
    simpl. destruct (String.eqb name "mem_per_proc") eqn:Hname.
    + apply String.eqb_eq in Hname. subst name. eexists. reflexivity.
    + assert (Hps : PrioName "mem_per_proc" ∈ ps).
      { apply elem_of_cons in Hin. destruct Hin as [Heq|Hin]; [|exact Hin].
        inversion Heq; subst. rewrite String.eqb_refl in Hname. discriminate. }
      destruct (opts name) as [kw|]; [|eexists; reflexivity].
      destruct (SparseHistogram_call confs (getattr_priority name) kw) as [e|hist];
        [eexists; reflexivity|].
      destruct (values_at false (values hist)) as [e|confs']; [eexists; reflexivity|].
      apply IH. exact Hps.
Qed.

(** C7. A ranking on several priorities that names [mem_per_proc] never
    returns: the options of the memory histogram are passed under the
    keyword [memory], which [SparseHistogram] does not accept, so that
    [multidimensional_optimization] and [get_ordered_with_policy] raise. *)
Theorem multidimensional_optimization_memory_raises (b : bool) (policy : TaskPolicy)
  (max_ncpus : Z) (self : ParalHints) :
  PrioName "mem_per_proc" ∈ autoparal_priorities policy ->
  length (autoparal_priorities policy) <> 1%nat ->
  (exists e, multidimensional_optimization (autoparal_priorities policy) self = inl e) /\
  (exists e, (get_ordered_with_policy b policy max_ncpus self).1 = inl e).
Proof.
  intros Hin Hlen. split.
  - unfold multidimensional_optimization.
    destruct (optimization_loop_memory _ (_confs self) Hin) as [e He].
    rewrite He. by eexists.
  - unfold get_ordered_with_policy.
    destruct (candidate_pool policy max_ncpus self) as [hints lg].
    unfold rank_with_policy, multidimensional_optimization.
    destruct (optimization_loop_memory _ (_confs hints) Hin) as [e He].
    destruct (autoparal_priorities policy) as [|p0 [|p1 ps]] eqn:Hp.
    + inversion Hin.
    + simpl in Hlen. congruence.
    + rewrite He. simpl. by eexists.
Qed.

Lemma multidimensional_optimization_memory_raises_witness :
  PrioName "mem_per_proc" ∈ autoparal_priorities Example.speedup_then_memory /\
  length (autoparal_priorities Example.speedup_then_memory) <> 1%nat /\
  multidimensional_optimization (autoparal_priorities Example.speedup_then_memory) Example.some_hints
  = inl (TypeError "__init__() got an unexpected keyword argument 'memory'") /\
  exists e, (get_ordered_with_policy true Example.speedup_then_memory 8 Example.some_hints).1 = inl e.
Proof.
  assert (H1 : PrioName "mem_per_proc" ∈ autoparal_priorities Example.speedup_then_memory).
  { simpl. apply elem_of_cons. right. apply elem_of_cons. left. reflexivity. }
  assert (H2 : length (autoparal_priorities Example.speedup_then_memory) <> 1%nat)
    by (simpl; lia).
  split; [exact H1|]. split; [exact H2|]. split; [reflexivity|].
  apply (multidimensional_optimization_memory_raises true Example.speedup_then_memory 8 Example.some_hints
           H1 H2).
Defined.

(** On speedup and efficiency the ranking keeps the bucket of the highest
    values at each step. *)
Example multidimensional_optimization_speedup_efficiency :
  multidimensional_optimization [PrioName "speedup"; PrioName "efficiency"]
    {| info := [];
       _confs := [Example.conf 1 1 500; Example.conf 4 (3 # 4) 100;
                  Example.conf 2 (9 # 10) 300; Example.conf 4 (7 # 8) 300] |}
  = inr {| info := [];
           _confs := [Example.conf 4 (3 # 4) 100; Example.conf 4 (7 # 8) 300] |}.
Proof. reflexivity. Qed.

End HintsFacts.

(** * Properties of the construction of the task manager *)

Module ManagerFacts.
Import Hints Manager.

Lemma size_list_to_set_le (l : list Z) : (size (list_to_set l : gset Z) <= length l)%nat.
Proof.
  induction l as [|x l IH].
  - rewrite list_to_set_nil, size_empty. simpl. lia.
  - rewrite list_to_set_cons. cbn [length].
    rewrite (size_union_alt ({[x]} : gset Z) (list_to_set l)), size_singleton.
    assert (size ((list_to_set l : gset Z) ∖ {[x]}) <= size (list_to_set l : gset Z))%nat
      by (apply subseteq_size, subseteq_difference_l; reflexivity).
    lia.
Qed.

(** The test [len(priorities) != len(set(priorities))] passes only on a
    list without repetition. *)
Lemma length_size_NoDup (l : list Z) :
  length l = size (list_to_set l : gset Z) -> NoDup l.
Proof.
  induction l as [|x l IH]; intros H; [constructor|].
  rewrite list_to_set_cons in H. cbn [length] in H.
  destruct (decide (x ∈ l)) as [Hin|Hnin].
  - exfalso.
    assert (Heq : ({[x]} ∪ list_to_set l : gset Z) = list_to_set l).
    { apply subseteq_union_1_L. apply singleton_subseteq_l.
      apply elem_of_list_to_set. exact Hin. }
    rewrite Heq in H. pose proof (size_list_to_set_le l). lia.
  - constructor; [exact Hnin|]. apply IH.
    rewrite size_union in H.
    + rewrite size_singleton in H. lia.
    + apply disjoint_singleton_l. rewrite elem_of_list_to_set. exact Hnin.
Qed.

(** What the loop over the entries has done when it returns. *)
Lemma build_qads_inr (B : Backend) (ds : list QadDict) (acc qads : list QueueAdapter) :
  build_qads B ds acc = inr qads ->
  qads = acc ++ omap (positive_qad B) (not_skipped ds) /\
  forall d, d ∈ not_skipped ds -> exists q, make_qadapter B d = inr q /\ 0 <= priority q.
Proof.
  revert acc. induction ds as [|d ds IH]; intros acc H; simpl in H.
  - inversion H; subst. split; [by rewrite app_nil_r|]. intros d Hd. inversion Hd.
  - unfold not_skipped. rewrite filter_cons.
    destruct (default false (enabled d)) eqn:He.
    + rewrite decide_False by discriminate. apply IH. exact H.
    + rewrite decide_True by reflexivity.
      destruct (make_qadapter B d) as [e|q] eqn:Hq; [discriminate|].
      destruct (0 <? priority q) eqn:Hpos.
      * apply IH in H. destruct H as [Heq Hall]. split.
        -- rewrite Heq. cbn [omap list_omap]. unfold positive_qad at 2. rewrite Hq, Hpos.
           by rewrite <- app_assoc.
        -- intros d' Hd'. apply elem_of_cons in Hd'. destruct Hd' as [->|Hd'].
           ++ exists q. split; [exact Hq|]. apply Z.ltb_lt in Hpos. lia.
           ++ apply Hall. exact Hd'.
      * destruct (priority q <? 0) eqn:Hneg; [discriminate|].
        apply IH in H. destruct H as [Heq Hall]. split.
        -- rewrite Heq. cbn [omap list_omap]. unfold positive_qad at 2. by rewrite Hq, Hpos.
        -- intros d' Hd'. apply elem_of_cons in Hd'. destruct Hd' as [->|Hd'].
           ++ exists q. split; [exact Hq|]. apply Z.ltb_ge in Hneg. exact Hneg.
           ++ apply Hall. exact Hd'.
Qed.

Lemma omap_same_priority (B : Backend) (l : list QadDict) (i j : nat)
  (d1 d2 : QadDict) (q1 q2 : QueueAdapter) :
  (i < j)%nat -> l !! i = Some d1 -> l !! j = Some d2 ->
  positive_qad B d1 = Some q1 -> positive_qad B d2 = Some q2 ->
  priority q1 = priority q2 ->
  ~ NoDup (map priority (omap (positive_qad B) l)).
Proof.
  intros Hij Hi Hj H1 H2 Hp Hnd.
  rewrite <- (take_drop_middle l i d1 Hi) in Hnd.
  rewrite omap_app in Hnd. cbn [omap list_omap] in Hnd. rewrite H1 in Hnd.
  rewrite map_app in Hnd. apply NoDup_app in Hnd. destruct Hnd as (_ & _ & Hnd).
  cbn [map] in Hnd. apply NoDup_cons in Hnd. destruct Hnd as [Hnin _].
  apply Hnin. rewrite Hp. apply list_elem_of_In, in_map, list_elem_of_In.
  apply list_elem_of_omap. exists d2. split; [|exact H2].
  apply list_elem_of_lookup. exists (j - S i)%nat.
  rewrite lookup_drop. replace (S i + (j - S i))%nat with j by lia. exact Hj.
Qed.

(** The construction of a [TaskManager] raises when two of the adapters
    that the loop does not skip have the same positive priority, when one
    of them has a negative priority, and when there is none. *)
Theorem TaskManager_init_rejects (B : Backend) (kwargs : ManagerKwargs) (ds : list QadDict) :
  kw_qadapters kwargs = Some ds ->
  (exists i j d1 d2 q1 q2,
      i <> j /\ not_skipped ds !! i = Some d1 /\ not_skipped ds !! j = Some d2 /\
      make_qadapter B d1 = inr q1 /\ make_qadapter B d2 = inr q2 /\
      priority q1 = priority q2 /\ 0 < priority q1)
  \/ (exists d q, d ∈ not_skipped ds /\ make_qadapter B d = inr q /\ priority q < 0)
  \/ not_skipped ds = [] ->
  exists e, TaskManager_init B kwargs = inl e.
Proof.
  intros Hds Hcase. unfold TaskManager_init. rewrite Hds.
  destruct (as_policy B (default PolicyNone (kw_policy kwargs))) as [e|pol]; [by eexists|].
  destruct (build_qads B ds []) as [e|qads] eqn:Hb; [by eexists|].
  apply build_qads_inr in Hb. destruct Hb as [Hq Hall]. simpl in Hq.
  destruct Hcase as [Hdup|[Hneg|Hempty]].
  - destruct Hdup as (i & j & d1 & d2 & q1 & q2 & Hij & Hi & Hj & H1 & H2 & Hp & Hpos).
    destruct qads as [|q0 qs]; [by eexists|]. cbv zeta.
    assert (Hnd : ~ NoDup (map priority (q0 :: qs))).
    { rewrite Hq.
      assert (P1 : positive_qad B d1 = Some q1).
      { unfold positive_qad. rewrite H1. apply Z.ltb_lt in Hpos. by rewrite Hpos. }
      assert (P2 : positive_qad B d2 = Some q2).
      { unfold positive_qad. rewrite H2, <- Hp. apply Z.ltb_lt in Hpos. by rewrite Hpos. }
      destruct (Nat.lt_total i j) as [Hlt|[Heq|Hgt]]; [|contradiction|].
      - eapply omap_same_priority; eauto.
      - eapply omap_same_priority; eauto. }
    destruct (length (map priority (sort_by_priority (q0 :: qs))) =?
              size (list_to_set (map priority (sort_by_priority (q0 :: qs))) : gset Z))%nat
      eqn:Hlen.
    + exfalso. apply Hnd. apply Nat.eqb_eq in Hlen. apply length_size_NoDup in Hlen.
      assert (Hperm : map priority (sort_by_priority (q0 :: qs)) ≡ₚ map priority (q0 :: qs))
        by apply Permutation_map, HintsFacts.list_sort_perm.
      rewrite Hperm in Hlen. exact Hlen.
    + by eexists.
  - destruct Hneg as (d & q & Hd & Hmk & Hlt). apply Hall in Hd.
    destruct Hd as (q' & Hmk' & Hge). rewrite Hmk in Hmk'. inversion Hmk'; subst. lia.
  - rewrite Hempty in Hq. simpl in Hq. subst qads. by eexists.
Qed.

Lemma TaskManager_init_rejects_witness :
  kw_qadapters Example.same_priority_kwargs
  = Some [Example.qad_dict 1; Example.qad_dict 2; Example.qad_dict 1] /\
  (exists e, TaskManager_init Example.backend Example.same_priority_kwargs = inl e).
Proof.
  split; [reflexivity|].
  apply (TaskManager_init_rejects Example.backend Example.same_priority_kwargs
           [Example.qad_dict 1; Example.qad_dict 2; Example.qad_dict 1]).
  - reflexivity.
  - left. exists 0%nat, 2%nat, (Example.qad_dict 1), (Example.qad_dict 1),
      (Example.shell_adapter 1), (Example.shell_adapter 1).
    repeat split; try reflexivity; lia.
Defined.

(** The three rejections and an accepted list, evaluated. *)
Example TaskManager_init_same_priority :
  TaskManager_init Example.backend
    {| kw_policy := None;
       kw_qadapters := Some [Example.qad_dict 1; Example.qad_dict 2; Example.qad_dict 1];
       kw_invalid := [] |}
  = inl (ValueError
      "Two or more qadapters have same priority. This is not allowed. Check taskmanager.yml").
Proof. vm_compute. reflexivity. Qed.

Example TaskManager_init_negative_priority :
  TaskManager_init Example.backend
    {| kw_policy := None;
       kw_qadapters := Some [Example.qad_dict 1; Example.qad_dict (-2)];
       kw_invalid := [] |}
  = inl (ValueError "qadapter cannot have negative priority").
Proof. vm_compute. reflexivity. Qed.

Example TaskManager_init_no_adapter :
  TaskManager_init Example.backend
    {| kw_policy := None; kw_qadapters := Some []; kw_invalid := [] |}
  = inl (ValueError "Received emtpy list of qadapters").
Proof. vm_compute. reflexivity. Qed.

Example TaskManager_init_accepts :
  match TaskManager_init Example.backend
          {| kw_policy := None;
             kw_qadapters := Some [Example.qad_dict 2; Example.qad_dict 0; Example.qad_dict 1];
             kw_invalid := [] |} with
  | inr m => _qads m = [Example.shell_adapter 1; Example.shell_adapter 2]
  | inl _ => False
  end.
Proof. vm_compute. reflexivity. Qed.

(** The loop does not look at an entry marked [enabled: yes]. *)
Lemma build_qads_enabled (B : Backend) (extra ds : list QadDict) (acc : list QueueAdapter) :
  Forall (fun d => enabled d = Some true) extra ->
  build_qads B (extra ++ ds) acc = build_qads B ds acc.
Proof.
  induction 1 as [|d extra Hd _ IH]; [reflexivity|].
  cbn [app build_qads]. rewrite Hd. exact IH.
Qed.

(** C9. The entries marked [enabled: yes] are skipped, against the comment
    above the loop, so that nothing is checked on them: when a list of
    entries is accepted, it is still accepted, with the same adapters,
    once any entries marked [enabled: yes] are put before it, whatever
    their priorities, although these entries are active. *)
Theorem TaskManager_init_accepts_enabled (B : Backend) (kwargs kwargs' : ManagerKwargs)
  (ds extra : list QadDict) (m : TaskManager) :
  kw_qadapters kwargs = Some ds ->
  TaskManager_init B kwargs = inr m ->
  Forall (fun d => enabled d = Some true) extra ->
  kw_policy kwargs' = kw_policy kwargs ->
  kw_invalid kwargs' = kw_invalid kwargs ->
  kw_qadapters kwargs' = Some (extra ++ ds) ->
  (forall d, d ∈ extra -> d ∈ active (extra ++ ds)) /\
  TaskManager_init B kwargs'
  = inr {| _kwargs := kwargs'; policy := policy m; _qads := _qads m; _qadpos := _qadpos m |}.
Proof.
  intros Hds Hm Hextra Hpol Hinv Hds'. split.
  - intros d Hd. unfold active. apply list_elem_of_filter. split.
    + rewrite Forall_forall in Hextra. rewrite (Hextra d Hd). discriminate.
    + apply elem_of_app. left. exact Hd.
  - unfold TaskManager_init in *. rewrite Hds', Hpol, Hinv, (build_qads_enabled B extra ds [] Hextra).
    rewrite Hds in Hm.
    destruct (as_policy B (default PolicyNone (kw_policy kwargs))) as [e|pol]; [discriminate|].
    destruct (build_qads B ds []) as [e|qads]; [discriminate|].
    destruct qads as [|q0 qs]; [discriminate|]. cbv zeta in *.
    destruct (negb _); [discriminate|].
    destruct (kw_invalid kwargs); [|discriminate].
    injection Hm as <-. reflexivity.
Qed.

(** Two entries marked [enabled: yes] with the priority 1 and one with the
    priority -5, before an entry of priority 2: the three are active, two
    of them have the same positive priority and one a negative priority,
    and the manager is built, with the adapter of priority 2 alone. *)
Lemma TaskManager_init_accepts_enabled_witness :
  kw_qadapters Example.enabled_kwargs
  = Some ([Example.enabled_dict 1; Example.enabled_dict 1; Example.enabled_dict (-5)]
          ++ [Example.qad_dict 2]) /\
  active [Example.enabled_dict 1; Example.enabled_dict 1; Example.enabled_dict (-5);
          Example.qad_dict 2]
  = [Example.enabled_dict 1; Example.enabled_dict 1; Example.enabled_dict (-5);
     Example.qad_dict 2] /\
  make_qadapter Example.backend (Example.enabled_dict 1) = inr (Example.shell_adapter 1) /\
  make_qadapter Example.backend (Example.enabled_dict (-5))
  = inr (Example.shell_adapter (-5)) /\
  exists m, TaskManager_init Example.backend Example.enabled_kwargs = inr m /\
            _qads m = [Example.shell_adapter 2].
Proof.
  split; [reflexivity|]. split; [reflexivity|]. split; [reflexivity|]. split; [reflexivity|].
  destruct (TaskManager_init_accepts_enabled Example.backend
              {| kw_policy := None; kw_qadapters := Some [Example.qad_dict 2];
                 kw_invalid := [] |}
              Example.enabled_kwargs [Example.qad_dict 2]
              [Example.enabled_dict 1; Example.enabled_dict 1; Example.enabled_dict (-5)]
              {| _kwargs := {| kw_policy := None; kw_qadapters := Some [Example.qad_dict 2];
                               kw_invalid := [] |};
                 policy := Example.policy; _qads := [Example.shell_adapter 2];
                 _qadpos := 0 |}) as [_ E]; try reflexivity.
  - repeat constructor.
  - eexists. split; [exact E|reflexivity].
Defined.

End ManagerFacts.

(** * Properties of the task state machine *)

Module TasksFacts.
Import Hints Manager Fs Tasks.

(** ** Rules for [hoare], [preserves] and [returns] *)

Section Hoare.
Context {A : Type}.

Lemma hoare_weaken (P P' Q Q' : Task -> Prop) (m : M A) :
  hoare P' m Q' -> (forall t, P t -> P' t) -> (forall t, Q' t -> Q t) -> hoare P m Q.
Proof. intros H HP HQ t Ht. apply HQ, H, HP, Ht. Qed.

Lemma hoare_ret (P : Task -> Prop) (x : A) : hoare P (mret x) P.
Proof. intros t H. exact H. Qed.

Lemma hoare_raise (P : Task -> Prop) (e : Exc) : hoare P (raise e : M A) P.
Proof. intros t H. exact H. Qed.

Lemma hoare_lift (P : Task -> Prop) (r : Exc + A) : hoare P (lift r) P.
Proof. intros t H. exact H. Qed.

Lemma hoare_bind {B : Type} (P R Q : Task -> Prop) (m : M B) (f : B -> M A) :
  hoare P m R -> (forall t, R t -> Q t) -> (forall b, hoare R (f b) Q) ->
  hoare P (m ≫= f) Q.
Proof.
  intros Hm HRQ Hf t H. unfold mbind, M_bind. specialize (Hm t H).
  destruct (m t) as [t' [e|b]]; simpl in *; [apply HRQ, Hm|]. apply Hf, Hm.
Qed.

(** [t <- get; f t], with the task that [get] returns at hand. *)
Lemma hoare_get_bind (P Q : Task -> Prop) (f : Task -> M A) :
  (forall t, P t -> Q (f t t).1) -> hoare P (get ≫= f) Q.
Proof. intros Hf t H. apply Hf, H. Qed.

Lemma hoare_fmap {B : Type} (P Q : Task -> Prop) (g : B -> A) (m : M B) :
  hoare P m Q -> hoare P (g <$> m) Q.
Proof.
  intros Hm t H. unfold fmap, M_fmap. specialize (Hm t H).
  destruct (m t) as [t' [e|b]]; exact Hm.
Qed.

Lemma hoare_try_except (P R Q : Task -> Prop) (body : M A) (handles : Exc -> bool)
  (handler : Exc -> M A) :
  hoare P body R -> (forall t, R t -> Q t) -> (forall e, hoare R (handler e) Q) ->
  hoare P (try_except body handles handler) Q.
Proof.
  intros Hb HRQ Hh t H. unfold try_except. specialize (Hb t H).
  destruct (body t) as [t' [e|a]]; simpl in *; [|apply HRQ, Hb].
  destruct (handles e); [apply Hh, Hb|apply HRQ, Hb].
Qed.

End Hoare.

Lemma hoare_get (P : Task -> Prop) : hoare P get P.
Proof. intros t H. exact H. Qed.

Lemma hoare_modify (P Q : Task -> Prop) (f : Task -> Task) :
  (forall t, P t -> Q (f t)) -> hoare P (modify f) Q.
Proof. intros Hf t H. apply Hf, H. Qed.

Lemma preserves_bind {A B : Type} (P : Task -> Prop) (m : M B) (f : B -> M A) :
  preserves P m -> (forall b, preserves P (f b)) -> preserves P (m ≫= f).
Proof. intros Hm Hf. apply (hoare_bind P P P); auto. Qed.

Lemma preserves_try_except {A : Type} (P : Task -> Prop) (body : M A) (handles : Exc -> bool)
  (handler : Exc -> M A) :
  preserves P body -> (forall e, preserves P (handler e)) ->
  preserves P (try_except body handles handler).
Proof. intros Hb Hh. apply (hoare_try_except P P P); auto. Qed.

Lemma preserves_when (P : Task -> Prop) (b : bool) (m : M unit) :
  preserves P m -> preserves P (when b m).
Proof. intros Hm. destruct b; [exact Hm|apply hoare_ret]. Qed.

(** One step through a method, for a goal [preserves P m]. *)
Ltac pres_step :=
  lazymatch goal with
  | |- preserves _ _ => unfold preserves
  | |- hoare _ (mret _) _ => apply hoare_ret
  | |- hoare _ (raise _) _ => apply hoare_raise
  | |- hoare _ get _ => apply hoare_get
  | |- hoare _ (lift _) _ => apply hoare_lift
  | |- hoare _ (modify _) _ => apply hoare_modify; intros ? ?
  | |- hoare _ (history_log _ _) _ => apply hoare_modify; intros ? ?
  | |- hoare _ (send_signal _) _ => apply hoare_modify; intros ? ?
  | |- hoare ?P (_ ≫= _) ?P => apply preserves_bind; [|intros ?]
  | |- hoare _ (_ <$> _) _ => apply hoare_fmap
  | |- hoare ?P (try_except _ _ _) ?P => apply preserves_try_except; [|intros ?]
  | |- hoare ?P (when _ _) ?P => apply preserves_when
  | |- hoare _ (if ?b then _ else _) _ => destruct b eqn:?
  | |- hoare _ (match ?x with _ => _ end) _ => destruct x eqn:?
  end.

Ltac pres := unfold preserves in *; repeat pres_step; auto.

(** Evaluation of the comparisons between two given statuses. *)
Ltac is_status_constr s :=
  lazymatch s with
  | S_INIT => idtac | S_LOCKED => idtac | S_READY => idtac | S_SUB => idtac
  | S_RUN => idtac | S_DONE => idtac | S_ABICRITICAL => idtac | S_QCRITICAL => idtac
  | S_UNCONVERGED => idtac | S_ERROR => idtac | S_OK => idtac
  end.

Ltac eval_status_tests :=
  repeat match goal with
         | |- context [status_eqb ?a ?b] =>
             is_status_constr a; is_status_constr b;
             let v := eval vm_compute in (status_eqb a b) in
             change (status_eqb a b) with v
         end;
  unfold when; cbv iota.

(** Predicates that do not look at the files nor at the history. *)
Section Hooks.
Context (W : World) (P : Task -> Prop).
Hypothesis P_fs : forall t v, P t -> P (with_fs v t).
Hypothesis P_history : forall t v, P t -> P (with_history v t).

Lemma rename_all_preserves old2new : preserves P (rename_all W old2new).
Proof.
  induction old2new as [|[old new] rest IH]; simpl; [apply hoare_ret|].
  pres; auto.
Qed.

Lemma fix_ofiles_preserves : preserves P (fix_ofiles W).
Proof. unfold fix_ofiles. pres; auto. apply rename_all_preserves. Qed.

Lemma clean_output_files_preserves : preserves P (clean_output_files W).
Proof. unfold clean_output_files. pres; auto. Qed.

Lemma move_files_preserves dir n files : preserves P (move_files W dir n files).
Proof.
  induction files as [|f fs IH]; simpl; [apply hoare_ret|].
  apply preserves_bind; [|intros _; exact IH].
  unfold move_file. pres; auto.
Qed.

End Hooks.


(** ** The lock *)

Lemma status_eqb_true a b : status_eqb a b = true <-> a = b.
Proof. unfold status_eqb. apply bool_decide_eq_true. Qed.

Lemma status_eqb_false a b : status_eqb a b = false <-> a <> b.
Proof. unfold status_eqb. apply bool_decide_eq_false. Qed.

Lemma set_status_raises W (status : StatusArg) msg t :
  _status t = S_LOCKED \/ status = StatusObj S_LOCKED ->
  exists text, set_status W status msg t = (t, inl (RuntimeError text)).
Proof.
  intros H. unfold set_status, mbind, M_bind, get. cbn beta iota.
  replace (status_eqb (_status t) S_LOCKED || arg_is status S_LOCKED) with true.
  - eexists. reflexivity.
  - symmetry. apply orb_true_iff.
    destruct H as [H|H]; [left; by apply status_eqb_true|right; by rewrite H].
Qed.

Lemma set_status_keeps_locked W (status : StatusArg) msg :
  preserves locked (set_status W status msg).
Proof.
  intros t H. destruct (set_status_raises W status msg t (or_introl H)) as [text E].
  rewrite E. exact H.
Qed.

(** The conversion does nothing on a [Status] object. *)
Lemma lift_inr_bind {A B : Type} (a : A) (f : A -> M B) : (lift (inr a) ≫= f) = f a.
Proof. reflexivity. Qed.

Section Unlocked.
Context (W : World).
Hypothesis restart_unlocked : preserves unlocked (family_restart W).

Lemma _on_ok_unlocked : preserves unlocked (_on_ok W).
Proof.
  assert (Hf : preserves unlocked (fix_ofiles W)) by (apply fix_ofiles_preserves; auto).
  assert (Ht : preserves unlocked (Task_on_ok W)).
  { unfold Task_on_ok, on_ok. pres; auto. }
  unfold _on_ok. pres; auto.
Qed.

Lemma set_status_unlocked (s : Status) msg : preserves unlocked (set_status W s msg).
Proof.
  unfold set_status. apply hoare_get_bind. intros t Ht. cbn [arg_is as_status].
  destruct (status_eqb (_status t) S_LOCKED || status_eqb s S_LOCKED) eqn:E; [exact Ht|].
  apply orb_false_iff in E. destruct E as [_ E]. apply status_eqb_false in E.
  rewrite lift_inr_bind.
  match goal with
  | |- unlocked (?m t).1 => cut (preserves unlocked m); [intros Hm; apply Hm, Ht|]
  end.
  pose proof _on_ok_unlocked.
  assert (preserves unlocked (clean_output_files W))
    by (apply clean_output_files_preserves; auto).
  assert (preserves unlocked (fix_ofiles W)) by (apply fix_ofiles_preserves; auto).
  unfold _on_done.
  pres; auto.
  destruct (start (datetimes t0)); assumption.
Qed.

Lemma get_event_report_unlocked : preserves unlocked (get_event_report W).
Proof.
  pose proof set_status_unlocked.
  unfold get_event_report, parse_file. pres; auto.
Qed.

Lemma record_abi_errors_preserves (P : Task -> Prop) errs :
  (forall t v, P t -> P (with_history v t)) ->
  (forall t v, P t -> P (with_abi_errors v t)) ->
  preserves P (record_abi_errors W errs).
Proof.
  intros H1 H2. induction errs as [|e es IH]; simpl; [apply hoare_ret|].
  pres; auto.
Qed.

Lemma check_status_unlocked : preserves unlocked (check_status W).
Proof.
  pose proof set_status_unlocked. pose proof get_event_report_unlocked.
  pose proof (record_abi_errors_preserves unlocked).
  unfold check_status, check_output, read_if_not_empty. pres; auto.
Qed.

End Unlocked.

Lemma get_event_report_locked W : preserves locked (get_event_report W).
Proof.
  pose proof (set_status_keeps_locked W).
  unfold get_event_report, parse_file. pres; auto.
Qed.

Lemma check_status_locked W : preserves locked (check_status W).
Proof.
  pose proof (set_status_keeps_locked W). pose proof (get_event_report_locked W).
  pose proof (record_abi_errors_preserves W locked).
  unfold check_status, check_output, read_if_not_empty. pres; auto.
Qed.



Lemma set_status_plain W s msg t :
  plain s = true -> _status t <> S_LOCKED ->
  set_status W s msg t
  = (if status_eqb s (_status t) then with_status s t
     else log1 INFO (status_text W s msg) (with_status s t), inr s).
Proof.
  intros Hs Ht. unfold set_status, mbind, M_bind, get, lift. cbn [arg_is as_status]. cbn beta iota.
  replace (status_eqb (_status t) S_LOCKED) with false
    by (symmetry; by apply status_eqb_false).
  destruct s; try discriminate Hs; eval_status_tests; cbn [orb];
    unfold status_text; eval_status_tests;
    destruct (status_eqb _ (_status t)); reflexivity.
Qed.

Lemma with_status_same t : with_status (_status t) t = t.
Proof. destruct t; reflexivity. Qed.

Lemma set_status_same W s msg t :
  plain s = true -> _status t = s -> set_status W s msg t = (t, inr s).
Proof.
  intros Hs Ht. rewrite set_status_plain; [|exact Hs|].
  - subst s. replace (status_eqb (_status t) (_status t)) with true
      by (symmetry; by apply status_eqb_true).
    by rewrite with_status_same.
  - intros E. rewrite E in Ht. subst s. discriminate.
Qed.

(** C1. [check_status] has no guard on the current status: on a task in
    error whose job script returned a code other than 0 it derives the
    status again, moves the task to [S_QCRITICAL] and returns that status. *)
Theorem check_status_rederives_ERROR (W : World) (t : Task) :
  _status t = S_ERROR -> returncode_nonzero t = true ->
  (check_status W t).2 = inr S_QCRITICAL /\ _status (check_status W t).1 = S_QCRITICAL.
Proof.
  intros Hs Hrc. unfold check_status, mbind, M_bind, get. cbn beta iota. rewrite Hrc.
  rewrite set_status_plain; [|reflexivity|rewrite Hs; discriminate].
  rewrite Hs. split; reflexivity.
Qed.

Lemma check_status_LOCKED_raises (W : World) (t : Task) :
  _status t = S_LOCKED -> returncode_nonzero t = true ->
  exists text, check_status W t = (t, inl (RuntimeError text)).
Proof.
  intros Hs Hrc. unfold check_status, mbind, M_bind, get. cbn beta iota. rewrite Hrc.
  apply set_status_raises. by left.
Qed.

(** A string that converts to a status other than [S_LOCKED] is handled as
    that status; a string that does not convert raises and changes
    nothing. *)
Lemma set_status_str W (name : string) msg t :
  _status t <> S_LOCKED ->
  set_status W (StatusStr name) msg t
  = match status_of_string W name with
    | inl e => (t, inl e)
    | inr s => if status_eqb s S_LOCKED then set_status W (StatusStr name) msg t
               else set_status W s msg t
    end.
Proof.
  intros Ht. destruct (status_of_string W name) as [e|s] eqn:E.
  - unfold set_status, mbind, M_bind, get, lift. cbn [arg_is as_status]. cbn beta iota.
    replace (status_eqb (_status t) S_LOCKED) with false
      by (symmetry; by apply status_eqb_false).
    rewrite E. reflexivity.
  - destruct (status_eqb s S_LOCKED) eqn:El; [reflexivity|].
    unfold set_status, mbind, M_bind, get, lift. cbn [arg_is as_status]. cbn beta iota.
    replace (status_eqb (_status t) S_LOCKED) with false
      by (symmetry; by apply status_eqb_false).
    rewrite E, El. reflexivity.
Qed.

(** The string of [S_LOCKED] passes the test on the lock, which compares it
    with a [Status] before the conversion: the task becomes locked. *)
Lemma set_status_string_locks W (name : string) msg t :
  _status t <> S_LOCKED -> status_of_string W name = inr S_LOCKED ->
  (set_status W (StatusStr name) msg t).2 = inr S_LOCKED /\
  _status (set_status W (StatusStr name) msg t).1 = S_LOCKED.
Proof.
  intros Ht E.
  unfold set_status, mbind, M_bind, get, lift. cbn [arg_is as_status]. cbn beta iota.
  replace (status_eqb (_status t) S_LOCKED) with false
    by (symmetry; by apply status_eqb_false).
  rewrite E. cbn [orb]. eval_status_tests.
  replace (status_eqb S_LOCKED (_status t)) with false.
  2:{ symmetry. apply status_eqb_false. congruence. }
  split; reflexivity.
Qed.

(** C2. Provided that the restart strategy of the family does not lock the
    task: [set_status] raises a [RuntimeError] and changes nothing when
    the task is locked, whatever its argument, and when the status asked
    for is the [Status] object [S_LOCKED]; [lock] moves a task from
    [S_INIT] to [S_LOCKED]; [unlock] on a locked task sets the status to
    [S_READY], and with [check_status=True] the status after it is the
    one that [check_status] derives from there; [set_status] never moves
    a task out of [S_LOCKED]; [set_status] called with a [Status] object,
    or with a string that is not converted to [S_LOCKED], and
    [check_status] never move a task into [S_LOCKED]. *)
Theorem lock_discipline (W : World) :
  preserves unlocked (family_restart W) ->
  (forall t (status : StatusArg) msg, _status t = S_LOCKED ->
     exists text, set_status W status msg t = (t, inl (RuntimeError text))) /\
  (forall t msg, exists text, set_status W S_LOCKED msg t = (t, inl (RuntimeError text))) /\
  (forall t source, _status t = S_INIT -> _status (lock W source t).1 = S_LOCKED) /\
  (forall t source, _status t = S_LOCKED ->
     unlock W source false t
     = (log1 INFO ("Unlocked by " +:+ source) (with_status S_READY t), inr tt)) /\
  (forall t source, _status t = S_LOCKED ->
     _status (unlock W source true t).1 = _status (check_status W (with_status S_READY t)).1) /\
  (forall t (s : Status) msg,
     _status (set_status W s msg t).1 = S_LOCKED <-> _status t = S_LOCKED) /\
  (forall t (name : string) msg, status_of_string W name <> inr S_LOCKED ->
     (_status (set_status W (StatusStr name) msg t).1 = S_LOCKED <-> _status t = S_LOCKED)) /\
  (forall t, _status (check_status W t).1 = S_LOCKED <-> _status t = S_LOCKED).
Proof.
  intros Hr. split_and!.
  - intros t status msg H. apply set_status_raises. by left.
  - intros t msg. apply set_status_raises. by right.
  - intros t source H. unfold lock, mbind, M_bind, get. cbn beta iota.
    rewrite H. reflexivity.
  - intros t source H. unfold unlock, mbind, M_bind, get. cbn beta iota.
    rewrite H. reflexivity.
  - intros t source H. unfold unlock, mbind, M_bind, get. cbn beta iota.
    rewrite H. change (status_eqb S_LOCKED S_LOCKED) with true.
    unfold modify, when, history_log, modify. cbn.
    destruct (check_status W (with_status S_READY t)) as [t' [e|s]]; reflexivity.
  - intros t s msg. split; intros H.
    + destruct (decide (_status t = S_LOCKED)) as [E|E]; [exact E|].
      exfalso. by apply (set_status_unlocked W Hr s msg t E).
    + by apply set_status_keeps_locked.
  - intros t name msg Hname. split; intros H.
    + destruct (decide (_status t = S_LOCKED)) as [E|E]; [exact E|].
      exfalso. rewrite (set_status_str W name msg t E) in H.
      destruct (status_of_string W name) as [e|s] eqn:En; [exact (E H)|].
      destruct (status_eqb s S_LOCKED) eqn:El.
      * apply status_eqb_true in El. subst s. by apply Hname.
      * by apply (set_status_unlocked W Hr s msg t E).
    + by apply set_status_keeps_locked.
  - intros t. split; intros H.
    + destruct (decide (_status t = S_LOCKED)) as [E|E]; [exact E|].
      exfalso. by apply (check_status_unlocked W Hr t E).
    + by apply check_status_locked.
Qed.

(** ** Texts *)

Lemma prefix_app (n b : string) : String.prefix n (n +:+ b) = true.
Proof.
  induction n as [|c n IH]; simpl; [by destruct b|].
  destruct (Ascii.ascii_dec c c); [exact IH|contradiction].
Qed.

Lemma contains_unfold (n hay : string) :
  contains n hay
  = String.prefix n hay
    || match hay with EmptyString => false | String _ rest => contains n rest end.
Proof. destruct hay; reflexivity. Qed.

Lemma contains_here (n b : string) : contains n (n +:+ b) = true.
Proof. rewrite contains_unfold, prefix_app. reflexivity. Qed.

Lemma contains_app_r (n a s : string) : contains n s = true -> contains n (a +:+ s) = true.
Proof.
  intros H. induction a as [|c a IH]; [exact H|].
  change (String c a +:+ s) with (String c (a +:+ s)).
  rewrite contains_unfold, IH. apply orb_true_r.
Qed.

Lemma substring_app_prefix (a b : string) (k : nat) :
  (String.length a <= k)%nat ->
  String.substring 0 k (a +:+ b) = a +:+ String.substring 0 (k - String.length a) b.
Proof.
  revert k. induction a as [|c a IH]; intros k Hk; simpl in *.
  - by rewrite Nat.sub_0_r.
  - destruct k as [|k]; [lia|]. simpl. rewrite IH by lia. reflexivity.
Qed.

Lemma append_assoc (a b c : string) : (a +:+ b) +:+ c = a +:+ (b +:+ c).
Proof.
  induction a as [|x a IH]; [reflexivity|].
  change (String x ((a +:+ b) +:+ c) = String x (a +:+ (b +:+ c))). by rewrite IH.
Qed.

Lemma truncate_msg_prefix (a b : string) :
  (String.length a <= 2000)%nat -> exists rest, truncate_msg (a +:+ b) = a +:+ rest.
Proof.
  intros Ha. unfold truncate_msg.
  destruct (2000 <? String.length (a +:+ b))%nat.
  - rewrite substring_app_prefix by exact Ha.
    eexists. apply append_assoc.
  - by eexists.
Qed.

Lemma frozen_msg_contains (timeout : Z) :
  contains "frozen" (truncate_msg (frozen_msg timeout)) = true.
Proof.
  unfold frozen_msg.
  destruct (truncate_msg_prefix "Task seems to be frozen, last change more than "
              (str_of_Z timeout +:+ " [s] ago")) as [rest ->].
  { vm_compute. lia. }
  change ("Task seems to be frozen, last change more than " +:+ rest)
    with ("Task seems to be " +:+ ("frozen" +:+ (", last change more than " +:+ rest))).
  apply contains_app_r, contains_here.
Qed.

Lemma status_text_contains W s msg needle :
  contains needle (truncate_msg msg) = true -> contains needle (status_text W s msg) = true.
Proof.
  intros H. unfold status_text. destruct (status_eqb s S_ABICRITICAL).
  - by apply contains_app_r.
  - by repeat apply contains_app_r.
Qed.


(** ** [check_status] when no earlier rule applies *)

Lemma read_if_not_empty_eq (p : Path) (t : Task) :
  read_if_not_empty p t = (t, inr (text_if_not_empty (fs t) p)).
Proof.
  unfold read_if_not_empty, text_if_not_empty, mbind, M_bind, get, getsize, read.
  cbn beta iota.
  destruct (fs t !! p) as [[content mtime|]|] eqn:E; try reflexivity.
  destruct (String.length content) eqn:L; reflexivity.
Qed.

Lemma is_empty_text (fs : FS) (p : Path) :
  is_empty_msg (text_if_not_empty fs p) = (getsize fs p =? 0).
Proof.
  unfold text_if_not_empty, getsize.
  destruct (fs !! p) as [[content mtime|]|]; try reflexivity.
  destruct (String.length content) eqn:L; simpl; rewrite ?L; reflexivity.
Qed.

Lemma get_event_report_of_log (W : World) (t : Task) (text : string) (mtime : Q)
  (report : EventReport) :
  exists_ (fs t) (mpiabort_file t) = false ->
  fs t !! log_file t = Some (RegularFile text mtime) ->
  parse_events W text = inr report ->
  get_event_report W t = (t, inr (Some report)).
Proof.
  intros Hab Hlog Hparse.
  unfold get_event_report, try_except, parse_file, mbind, M_bind, get, lift, read, exists_ in *.
  cbn beta iota. rewrite Hlog. cbn [negb]. cbv beta iota. rewrite Hlog. cbv beta iota.
  rewrite Hparse. cbv beta iota.
  destruct (fs t !! mpiabort_file t); [discriminate|]. reflexivity.
Qed.

Lemma set_status_RUN (W : World) (msg : string) (t : Task) :
  _status t <> S_LOCKED ->
  (set_status W S_RUN msg t).2 = inr S_RUN /\ _status (set_status W S_RUN msg t).1 = S_RUN.
Proof.
  intros Ht. unfold set_status, mbind, M_bind, get, lift. cbn [arg_is as_status]. cbn beta iota.
  replace (status_eqb (_status t) S_LOCKED) with false
    by (symmetry; by apply status_eqb_false).
  eval_status_tests. cbn [orb].
  unfold modify, history_log, modify. cbn.
  destruct (start (datetimes t)); destruct (status_eqb S_RUN (_status t)); split; reflexivity.
Qed.


Lemma check_status_falls_through (W : World) (t : Task) (out text : string)
  (mtime log_mtime : Q) (report : EventReport) :
  returncode_nonzero t = false ->
  exists_ (fs t) (mpiabort_file t) = false ->
  fs t !! output_file t = Some (RegularFile out mtime) ->
  fs t !! log_file t = Some (RegularFile text log_mtime) ->
  parse_events W text = inr report ->
  run_completed report = false ->
  errors report = [] ->
  exists_ (fs t) (stderr_file t) && (getsize (fs t) (stderr_file t) =? 0)
  && (exists_ (fs t) (qerr_file t) && (getsize (fs t) (qerr_file t) =? 0)) = false ->
  check_status W t
  = if is_frozen W mtime (frozen_timeout (policy (manager t)))
    then set_status W S_ERROR (frozen_msg (frozen_timeout (policy (manager t)))) (warned t)
    else set_status W S_RUN
           "final option: nothing seems to be wrong, the job must still be running"
           (warned t).
Proof.
  intros Hrc Hab Hout Hlog Hparse Hrun Herr Hrule5.
  unfold check_status. unfold mbind at 1, M_bind at 1, get at 1. cbn beta iota.
  rewrite Hrc, Hab.
  unfold mbind at 1, M_bind at 1. rewrite read_if_not_empty_eq.
  unfold mbind at 1, M_bind at 1. rewrite read_if_not_empty_eq.
  unfold mbind at 1, M_bind at 1. rewrite read_if_not_empty_eq.
  assert (Hex : exists_ (fs t) (output_file t) = true) by (unfold exists_; by rewrite Hout).
  rewrite Hex.
  assert (Hco : check_output W (text_if_not_empty (fs t) (stderr_file t))
                  (text_if_not_empty (fs t) (qerr_file t)) t = (t, inr None)).
  { unfold check_output, try_except, mbind, M_bind, fmap, M_fmap.
    rewrite (get_event_report_of_log W t text log_mtime report Hab Hlog Hparse).
    cbn beta iota. rewrite Hrun, Herr. unfold get. cbn beta iota.
    rewrite !is_empty_text, Hrule5. reflexivity. }
  unfold mbind at 1, M_bind at 1. rewrite Hco.
  unfold mbind at 1, M_bind at 1, get at 1. cbn beta iota. rewrite Hex. cbn [negb andb].
  unfold warned, st_mtime, when, history_log, modify, log1, lift, mbind, M_bind, mret, M_ret.
  rewrite Hout.
  destruct (text_if_not_empty (fs t) (stderr_file t)) as [err|] eqn:E.
  - assert (Hne : is_empty_msg (Some err) = false).
    { unfold text_if_not_empty in E. destruct (fs t !! stderr_file t) as [[c m|]|]; try discriminate.
      simpl. destruct (String.length c =? 0)%nat eqn:L; [discriminate|]. by inversion E; subst. }
    rewrite Hne. cbn.
    destruct (is_frozen W mtime (frozen_timeout (policy (manager t)))); reflexivity.
  - cbn. destruct (is_frozen W mtime (frozen_timeout (policy (manager t)))); reflexivity.
Qed.

Lemma warned_status t : _status (warned t) = _status t.
Proof. unfold warned. destruct (text_if_not_empty _ _); reflexivity. Qed.

(** C8. When the job script returned 0, there is no abort file, the report
    of the log shows neither completion nor errors, the rule on empty error
    files does not apply and the task is not locked: [check_status]
    returns [S_ERROR] and leaves the task in that status if the output file
    ([run.abo]) was last written more than [frozen_timeout] seconds ago,
    with a record holding [frozen] in the history if the status changed;
    otherwise it returns [S_RUN]. The time [log_mtime] at which the log
    was last written plays no part. *)
Theorem frozen_detection (W : World) (t : Task) (out text : string)
  (mtime log_mtime : Q) (report : EventReport) :
  returncode_nonzero t = false ->
  exists_ (fs t) (mpiabort_file t) = false ->
  fs t !! output_file t = Some (RegularFile out mtime) ->
  fs t !! log_file t = Some (RegularFile text log_mtime) ->
  parse_events W text = inr report ->
  run_completed report = false ->
  errors report = [] ->
  exists_ (fs t) (stderr_file t) && (getsize (fs t) (stderr_file t) =? 0)
  && (exists_ (fs t) (qerr_file t) && (getsize (fs t) (qerr_file t) =? 0)) = false ->
  _status t <> S_LOCKED ->
  ((inject_Z (frozen_timeout (policy (manager t))) < now W - mtime)%Q ->
   (check_status W t).2 = inr S_ERROR /\
   _status (check_status W t).1 = S_ERROR /\
   (_status t <> S_ERROR ->
    exists msg, last (history (check_status W t).1) = Some (INFO, msg) /\
                contains "frozen" msg = true)) /\
  ((now W - mtime <= inject_Z (frozen_timeout (policy (manager t))))%Q ->
   (check_status W t).2 = inr S_RUN /\ _status (check_status W t).1 = S_RUN).
Proof.
  intros Hrc Hab Hout Hlog Hparse Hrun Herr Hrule5 Hl.
  rewrite (check_status_falls_through W t out text mtime log_mtime report) by assumption.
  unfold is_frozen, Qltb. split; intros Hage.
  - replace (Qle_bool (now W - mtime) (inject_Z (frozen_timeout (policy (manager t)))))
      with false.
    2:{ symmetry. apply not_true_is_false. intros H. apply Qle_bool_iff in H.
        apply Qlt_not_le in Hage. contradiction. }
    cbn [negb]. rewrite set_status_plain; [|reflexivity|by rewrite warned_status].
    rewrite warned_status.
    destruct (status_eqb S_ERROR (_status t)) eqn:E.
    + split_and!; try reflexivity. intros Hne. apply status_eqb_true in E. congruence.
    + split_and!; try reflexivity. intros _. eexists. split.
      * cbn. apply last_snoc.
      * apply status_text_contains, frozen_msg_contains.
  - replace (Qle_bool (now W - mtime) (inject_Z (frozen_timeout (policy (manager t)))))
      with true by (symmetry; by apply Qle_bool_iff).
    cbn [negb]. apply set_status_RUN. by rewrite warned_status.
Qed.

(** ** Datetimes and reset *)


Lemma set_status_plain_preserves (W : World) (P : Task -> Prop) s msg :
  plain s = true ->
  (forall t v, P t -> P (with_status v t)) ->
  (forall t v, P t -> P (with_history v t)) ->
  preserves P (set_status W s msg).
Proof.
  intros Hs H1 H2 t Ht.
  destruct (decide (_status t = S_LOCKED)) as [E|E].
  - destruct (set_status_raises W s msg t (or_introl E)) as [text ->]. exact Ht.
  - rewrite set_status_plain by assumption.
    destruct (status_eqb s (_status t)); cbn; unfold log1; auto.
Qed.

Lemma _restart_false_preserves (W : World) (P : Task -> Prop) :
  (forall t v, P t -> P (with_status v t)) ->
  (forall t v, P t -> P (with_history v t)) ->
  (forall t v, P t -> P (with_fs v t)) ->
  (forall t, P t -> P (with_num_restarts (num_restarts t + 1) t)) ->
  (forall t, P t -> P (with_datetimes (datetimes t) t)) ->
  preserves P (_restart W false).
Proof.
  intros H1 H2 H3 H4 H5.
  assert (preserves P (set_status W S_READY ("Restarted on " +:+ asctime W)))
    by (apply set_status_plain_preserves; auto).
  unfold _restart. pres. by apply H5.
Qed.

Lemma reset_from_scratch_preserves (W : World) (P : Task -> Prop) :
  (forall t v, P t -> P (with_status v t)) ->
  (forall t v, P t -> P (with_history v t)) ->
  (forall t v, P t -> P (with_fs v t)) ->
  (forall t, P t -> P (with_num_restarts (num_restarts t + 1) t)) ->
  (forall t, P t -> P (with_datetimes (datetimes t) t)) ->
  preserves P (reset_from_scratch W).
Proof.
  intros H1 H2 H3 H4 H5.
  pose proof (_restart_false_preserves W P H1 H2 H3 H4 H5).
  pose proof (move_files_preserves W P H3 H2).
  unfold reset_from_scratch. pres. by apply H5.
Qed.

(** [reset_from_scratch] leaves the datetimes of the task as they were. *)
Lemma reset_from_scratch_keeps_datetimes (W : World) (t : Task) :
  datetimes (reset_from_scratch W t).1 = datetimes t.
Proof.
  apply (reset_from_scratch_preserves W (dates_are (datetimes t))); unfold dates_are; auto.
Qed.

(** ** Finalization *)



Lemma armed_once t : armed t -> once t.
Proof. intros (H1 & H2 & H3). split; [exact H1|]. split; [lia|auto]. Qed.

Section Once.
Context (W : World).

Lemma Task_on_ok_once : hoare armed (Task_on_ok W) once.
Proof.
  unfold Task_on_ok.
  apply (hoare_bind armed armed once).
  - apply fix_ofiles_preserves; unfold armed, not_collinear; auto.
  - apply armed_once.
  - intros _ t (H1 & H2 & H3). unfold once, finalized_once, not_collinear in *.
    unfold on_ok, mbind, M_bind, modify. cbn.
    rewrite H2. split; [exact H1|]. split; [lia|discriminate].
Qed.

Lemma _on_ok_once : hoare armed (_on_ok W) once.
Proof.
  pose proof Task_on_ok_once as HT.
  unfold _on_ok. apply hoare_get_bind. intros t Ht.
  destruct (task_class t) eqn:E;
    try (apply HT; exact Ht).
  - destruct Ht as [Hc _]. contradiction.
  - revert t Ht E. 
    cut (hoare armed (Task_on_ok W;;
                      t ← get;
                      fs' ← lift (symlink_abiext W (outdir t) "1WF" "DDK" (fs t));
                      modify (with_fs fs')) once).
    { intros H t Ht _. apply H, Ht. }
    apply (hoare_bind armed once once); [exact HT|auto|intros _].
    unfold once, finalized_once, not_collinear. pres.
Qed.

Lemma set_status_once (s : StatusArg) msg : preserves once (set_status W s msg).
Proof.
  pose proof _on_ok_once as Hok.
  assert (Hc : preserves once (clean_output_files W))
    by (apply clean_output_files_preserves; unfold once, finalized_once, not_collinear; auto).
  assert (Hf : preserves once (fix_ofiles W))
    by (apply fix_ofiles_preserves; unfold once, finalized_once, not_collinear; auto).
  unfold set_status. apply hoare_get_bind. intros t Ht.
  destruct (status_eqb (_status t) S_LOCKED || arg_is s S_LOCKED) eqn:E; [exact Ht|].
  match goal with
  | |- once (?m t).1 => cut (preserves once m); [intros Hm; apply Hm, Ht|]
  end.
  clear Ht E.
  apply preserves_bind; [apply hoare_lift|intros status].
  apply preserves_bind; [apply hoare_modify; intros t0 H0; exact H0|intros _].
  apply preserves_bind.
  { apply preserves_when. apply hoare_modify. intros t0 H0.
    destruct (start (datetimes t0)); exact H0. }
  intros _. apply preserves_bind.
  { apply preserves_when. unfold once, finalized_once, not_collinear. pres. }
  intros _. apply preserves_bind.
  { apply preserves_when. exact Hf. }
  intros _. apply preserves_bind; [|intros _; apply hoare_ret].
  apply preserves_when. apply hoare_get_bind. intros t1 Ht.
  assert (Hrest : preserves once
            (t ← get;
             when (status_eqb (_status t) S_OK)
               (when (bool_decide (gc_policy t = Some "task")) (clean_output_files W);;
                send_signal S_OK))).
  { unfold once, finalized_once, not_collinear in *. pres. }
  destruct (finalized t1) eqn:Ef; cbn [negb when].
  - apply (preserves_bind once (mret tt) _ (hoare_ret once tt) (fun _ => Hrest)). exact Ht.
  - apply (hoare_bind armed once once (_on_ok W) _ Hok (fun _ H => H) (fun _ => Hrest)).
    destruct Ht as (H1 & H2 & H3). split; [exact H1|]. split; [auto|exact Ef].
Qed.

End Once.

(** C3. On a task of any class but [CollinearThenNonCollinearScfTask] that
    is not finalized yet, whatever calls of [set_status] follow one
    another, [on_ok] runs at most once. *)
Theorem finalization_at_most_once (W : World) (calls : list (Status * string)) (t : Task) :
  task_class t <> CollinearThenNonCollinearScfTask ->
  finalized t = false -> on_ok_calls t = 0%nat ->
  (on_ok_calls (set_status_calls W calls t) <= 1)%nat.
Proof.
  intros Hc Hf Hn.
  assert (H : once t) by (split; [exact Hc|]; split; [lia|auto]).
  clear Hc Hf Hn. revert t H.
  induction calls as [|[s msg] calls IH]; intros t H; simpl.
  - apply H.
  - apply IH. apply set_status_once. exact H.
Qed.

(** ** Recovery from a memory error of the queue *)

Section Returns.
Context {A : Type}.

Lemma returns_of_preserves (P : Task -> Prop) (m : M A) :
  preserves P m -> returns P m (fun _ => P).
Proof.
  intros H t Ht. specialize (H t Ht). destruct (m t) as [t' [e|a]]; [exact I|exact H].
Qed.

Lemma returns_bind {B : Type} (P : Task -> Prop) (R : B -> Task -> Prop)
  (Q : A -> Task -> Prop) (m : M B) (f : B -> M A) :
  returns P m R -> (forall b, returns (R b) (f b) Q) -> returns P (m ≫= f) Q.
Proof.
  intros Hm Hf t Ht. unfold mbind, M_bind. specialize (Hm t Ht).
  destruct (m t) as [t' [e|b]]; [exact I|]. apply Hf, Hm.
Qed.

End Returns.



Lemma _restart_returns (W : World) (n : Z) (m : TaskManager) :
  returns (ready_for_reset n m) (_restart W false) (fun _ => was_reset n m).
Proof.
  intros t (H1 & H2 & H3). unfold _restart, mbind, M_bind.
  rewrite set_status_plain by (reflexivity || assumption).
  unfold was_reset, modify, history_log, modify, get, mret, M_ret. cbn.
  destruct (status_eqb S_READY (_status t)); cbn; rewrite H2; auto.
Qed.

Lemma reset_from_scratch_returns (W : World) (n : Z) (m : TaskManager) :
  returns (ready_for_reset n m) (reset_from_scratch W) (fun _ => was_reset n m).
Proof.
  pose proof (move_files_preserves W (ready_for_reset n m)) as Hmv.
  unfold reset_from_scratch.
  repeat (first
    [ apply _restart_returns
    | eapply returns_bind;
      [apply returns_of_preserves; unfold ready_for_reset in *; pres; fail|intros ?] ]).
Qed.

Lemma reset_from_scratch_result (W : World) (t t' : Task) (z : Z) :
  _status t <> S_LOCKED -> reset_from_scratch W t = (t', inr z) ->
  _status t' = S_READY /\ num_restarts t' = num_restarts t + 1 /\ manager t' = manager t.
Proof.
  intros Hl E.
  pose proof (reset_from_scratch_returns W (num_restarts t) (manager t) t) as H.
  rewrite E in H. apply H. repeat split; auto.
Qed.

Lemma attempt_succeeds (W : World) (action : M unit) (msg warning : string)
  (handles : Exc -> bool) (t ta t' : Task) (z : Z) :
  action t = (ta, inr tt) -> _status ta <> S_LOCKED ->
  reset_from_scratch W ta = (t', inr z) ->
  attempt W action msg handles warning t = (t', inr (Some FixNone)).
Proof.
  intros Ha Hl Hr. destruct (reset_from_scratch_result W ta t' z Hl Hr) as (Hs & _).
  unfold attempt, try_except, mbind, M_bind. rewrite Ha, Hr.
  rewrite (set_status_same W S_READY msg t') by (reflexivity || assumption).
  reflexivity.
Qed.

Lemma attempt_caught (W : World) (action : M unit) (msg warning : string)
  (handles : Exc -> bool) (t ta : Task) (e : Exc) :
  action t = (ta, inl e) -> handles e = true ->
  attempt W action msg handles warning t = (log1 WARNING warning ta, inr None).
Proof.
  intros Ha He. unfold attempt, try_except, mbind, M_bind. rewrite Ha, He. reflexivity.
Qed.

Lemma manager_call_ok op (t : Task) (m : TaskManager) :
  op (manager t) = inr m -> manager_call op t = (with_manager m t, inr tt).
Proof. intros H. unfold manager_call. by rewrite H. Qed.

Lemma manager_call_raises op (t : Task) (e : Exc) :
  op (manager t) = inl e -> manager_call op t = (t, inl e).
Proof. intros H. unfold manager_call. by rewrite H. Qed.


Lemma reduce_memory_demand_frame (W : World) (s : Status) (n : Z) :
  preserves (same_status_restarts s n) (reduce_memory_demand W).
Proof.
  unfold reduce_memory_demand, ManyBodyTask_reduce_memory_demand, set_vars, user_hook.
  unfold same_status_restarts. pres.
  all: try (intros t0 H0; destruct (user_reduce_memory_demand W (input t0)); exact H0).
Qed.


Lemma fix_queue_critical_first (W : World) (t : Task) (error : QueueError)
  (rest : list QueueError) :
  queue_errors t = error :: rest ->
  fix_queue_critical W t
  = (r ← (r ← match error with
              | NodeFailureError nodes => fix_node_failure W nodes
              | MemoryCancelError => fix_memory_cancel W
              | TimeCancelError => fix_time_cancel W
              | OtherQueueError name =>
                  _ ← set_status W S_ERROR
                        ("No solution provided for error " +:+ name
                         +:+ ". Unrecoverable error.");
                  mret None
              end;
          match r with
          | Some res => mret (Some res)
          | None => fix_queue_errors W rest
          end);
     match r with
     | Some res => mret res
     | None => mret FixZero
     end) (fixing W error t).
Proof.
  intros Hq. unfold fix_queue_critical, fixing, mbind, M_bind, history_log, modify, get.
  cbn beta iota. cbn [queue_errors with_history]. rewrite Hq. reflexivity.
Qed.

Lemma bind_returns {A B : Type} (m : M A) (f : A -> M B) (t t' : Task) (a : A) :
  m t = (t', inr a) -> (m ≫= f) t = f a t'.
Proof. intros H. unfold mbind, M_bind. by rewrite H. Qed.

Lemma bind_raises {A B : Type} (m : M A) (f : A -> M B) (t t' : Task) (e : Exc) :
  m t = (t', inl e) -> (m ≫= f) t = (t', inl e).
Proof. intros H. unfold mbind, M_bind. by rewrite H. Qed.

Lemma fix_memory_cancel_wrap (W : World) (t0 t' : Task) (rest : list QueueError)
  (res : FixResult) :
  fix_memory_cancel W t0 = (t', inr (Some res)) ->
  (r ← (r ← fix_memory_cancel W;
        match r with
        | Some res => mret (Some res)
        | None => fix_queue_errors W rest
        end);
   match r with
   | Some res => mret res
   | None => mret FixZero
   end) t0 = (t', inr res).
Proof.
  intros H. etrans; [apply (bind_returns _ _ t0 t' (Some res))|reflexivity].
  etrans; [apply (bind_returns _ _ t0 t' (Some res)); exact H|reflexivity].
Qed.

Lemma fix_memory_cancel_wrap_raises (W : World) (t0 t' : Task) (rest : list QueueError)
  (e : Exc) :
  fix_memory_cancel W t0 = (t', inl e) ->
  (r ← (r ← fix_memory_cancel W;
        match r with
        | Some res => mret (Some res)
        | None => fix_queue_errors W rest
        end);
   match r with
   | Some res => mret res
   | None => mret FixZero
   end) t0 = (t', inl e).
Proof.
  intros H. apply bind_raises. apply bind_raises. exact H.
Qed.

(** C6. [fix_queue_critical] on a task whose first queue error is a memory
    cancellation, with [mem_scales] set: (a) when [increase_ncpus]
    succeeds and the reset completes, the task is the one left by
    [reset_from_scratch], in status [S_READY] with one more restart and the
    manager of (a); (b) when [increase_ncpus] raises
    [ManagerIncreaseError], [increase_mem] succeeds and the reset
    completes, likewise with the manager of (b): the final call of
    [set_status] with the message [increased mem] changes nothing;
    (c) when both raise [ManagerIncreaseError] and [reduce_memory_demand]
    returns [True], likewise; (d) when [reduce_memory_demand] raises
    [DecreaseDemandsError], the task ends in [S_ERROR] and
    [FixQueueCriticalError] is raised. *)
Theorem fix_queue_critical_memory (W : World) (t : Task) (rest : list QueueError) :
  queue_errors t = MemoryCancelError :: rest ->
  mem_scales t = true ->
  _status t <> S_LOCKED ->
  let t1 := fixing W MemoryCancelError t in
  let t2 := log1 WARNING "increasing ncpus failed" t1 in
  let t3 := log1 WARNING "increasing mem failed" t2 in
  (forall m t' z,
     increase_ncpus (backend W) (manager t) = inr m ->
     reset_from_scratch W (with_manager m t1) = (t', inr z) ->
     fix_queue_critical W t = (t', inr FixNone) /\
     _status t' = S_READY /\ num_restarts t' = num_restarts t + 1 /\ manager t' = m) /\
  (forall x m t' z,
     increase_ncpus (backend W) (manager t) = inl (ManagerIncreaseError x) ->
     increase_mem (backend W) (manager t) = inr m ->
     reset_from_scratch W (with_manager m t2) = (t', inr z) ->
     fix_queue_critical W t = (t', inr FixNone) /\
     _status t' = S_READY /\ num_restarts t' = num_restarts t + 1 /\ manager t' = m) /\
  (forall x y tc t' z,
     increase_ncpus (backend W) (manager t) = inl (ManagerIncreaseError x) ->
     increase_mem (backend W) (manager t) = inl (ManagerIncreaseError y) ->
     reduce_memory_demand W t3 = (tc, inr true) ->
     reset_from_scratch W tc = (t', inr z) ->
     fix_queue_critical W t = (t', inr FixNone) /\
     _status t' = S_READY /\ num_restarts t' = num_restarts t + 1) /\
  (forall x y tc msg,
     increase_ncpus (backend W) (manager t) = inl (ManagerIncreaseError x) ->
     increase_mem (backend W) (manager t) = inl (ManagerIncreaseError y) ->
     reduce_memory_demand W t3 = (tc, inl (DecreaseDemandsError msg)) ->
     (fix_queue_critical W t).2 = inl FixQueueCriticalError /\
     _status (fix_queue_critical W t).1 = S_ERROR).
Proof.
  intros Hq Hmem Hl t1 t2 t3.
  rewrite (fix_queue_critical_first W t MemoryCancelError rest Hq). fold t1.
  assert (Hl1 : _status t1 <> S_LOCKED) by exact Hl.
  split_and!.
  - intros m t' z Hn Hr.
    destruct (reset_from_scratch_result W (with_manager m t1) t' z Hl Hr) as (Hs & Hnr & Hm).
    split; [|split_and!; assumption].
    apply fix_memory_cancel_wrap. unfold fix_memory_cancel.
    etrans; [apply (bind_returns get _ t1 t1 t1 eq_refl)|]. cbn beta iota.
    change (mem_scales t1) with (mem_scales t). rewrite Hmem.
    etrans; [eapply bind_returns, attempt_succeeds;
             [apply manager_call_ok; exact Hn|exact Hl|exact Hr]|reflexivity].
  - intros x m t' z Hn Hi Hr.
    destruct (reset_from_scratch_result W (with_manager m t2) t' z Hl Hr) as (Hs & Hnr & Hm).
    split; [|split_and!; assumption].
    apply fix_memory_cancel_wrap. unfold fix_memory_cancel.
    etrans; [apply (bind_returns get _ t1 t1 t1 eq_refl)|]. cbn beta iota.
    change (mem_scales t1) with (mem_scales t). rewrite Hmem.
    etrans; [eapply bind_returns, attempt_caught;
             [apply manager_call_raises; exact Hn|reflexivity]|].
    fold t2. cbn beta iota.
    etrans; [eapply bind_returns, attempt_succeeds;
             [apply manager_call_ok; exact Hi|exact Hl|exact Hr]|reflexivity].
  - intros x y tc t' z Hn Hi Hd Hr.
    pose proof (reduce_memory_demand_frame W (_status t) (num_restarts t) t3
                  (conj eq_refl eq_refl)) as Hfr.
    rewrite Hd in Hfr. destruct Hfr as [Hsc Hnc]. cbn in Hsc, Hnc.
    assert (Hlc : _status tc <> S_LOCKED) by (rewrite Hsc; exact Hl).
    destruct (reset_from_scratch_result W tc t' z Hlc Hr) as (Hs & Hnr & Hm).
    split; [|split; [assumption|congruence]].
    apply fix_memory_cancel_wrap. unfold fix_memory_cancel.
    etrans; [apply (bind_returns get _ t1 t1 t1 eq_refl)|]. cbn beta iota.
    change (mem_scales t1) with (mem_scales t). rewrite Hmem.
    etrans; [eapply bind_returns, attempt_caught;
             [apply manager_call_raises; exact Hn|reflexivity]|].
    fold t2. cbn beta iota.
    etrans; [eapply bind_returns, attempt_caught;
             [apply manager_call_raises; exact Hi|reflexivity]|].
    fold t3. cbn beta iota.
    etrans; [eapply bind_returns, attempt_succeeds;
             [eapply eq_trans; [eapply bind_returns; exact Hd|reflexivity]
             |exact Hlc|exact Hr]|reflexivity].
  - intros x y tc msg Hn Hi Hd.
    pose proof (reduce_memory_demand_frame W (_status t) (num_restarts t) t3
                  (conj eq_refl eq_refl)) as Hfr.
    rewrite Hd in Hfr. destruct Hfr as [Hsc Hnc]. cbn in Hsc, Hnc.
    set (t4 := log1 WARNING "decreasing demands failed" tc).
    assert (Hl4 : _status t4 <> S_LOCKED) by (unfold t4; cbn; rewrite Hsc; exact Hl).
    set (msg_err := "Memory error detected but the memory could not be increased neither could the"
                     +:+ nl +:+ "memory demand be decreased. Unrecoverable error.").
    assert (E : fix_memory_cancel W t1
                = ((set_status W S_ERROR msg_err t4).1, inl FixQueueCriticalError)).
    { unfold fix_memory_cancel.
      etrans; [apply (bind_returns get _ t1 t1 t1 eq_refl)|]. cbn beta iota.
      change (mem_scales t1) with (mem_scales t). rewrite Hmem.
      etrans; [eapply bind_returns, attempt_caught;
               [apply manager_call_raises; exact Hn|reflexivity]|].
      fold t2. cbn beta iota.
      etrans; [eapply bind_returns, attempt_caught;
               [apply manager_call_raises; exact Hi|reflexivity]|].
      fold t3. cbn beta iota.
      etrans; [eapply bind_returns, attempt_caught;
               [eapply bind_raises; exact Hd|reflexivity]|].
      fold t4. cbn beta iota. fold msg_err.
      unfold mbind, M_bind. rewrite set_status_plain by (reflexivity || assumption).
      reflexivity. }
    rewrite (fix_memory_cancel_wrap_raises W t1 _ rest _ E). cbn [fst snd].
    split; [reflexivity|].
    rewrite set_status_plain by (reflexivity || assumption).
    destruct (status_eqb S_ERROR (_status t4)); reflexivity.
Qed.

(** ** The properties on the example task *)

Lemma check_status_rederives_ERROR_witness :
  let t := Example.task AbinitTask S_ERROR (RcInt 1) (Example.files "log" 9000) in
  _status t = S_ERROR /\ returncode_nonzero t = true /\
  (check_status Example.world t).2 = inr S_QCRITICAL /\
  _status (check_status Example.world t).1 = S_QCRITICAL.
Proof.
  cbv zeta. split; [reflexivity|]. split; [reflexivity|].
  apply (check_status_rederives_ERROR Example.world
           (Example.task AbinitTask S_ERROR (RcInt 1) (Example.files "log" 9000)));
    reflexivity.
Defined.

Lemma lock_discipline_witness :
  preserves unlocked (family_restart Example.world) /\
  (forall t (s : Status) msg,
     _status (set_status Example.world s msg t).1 = S_LOCKED <-> _status t = S_LOCKED) /\
  (forall t, _status (check_status Example.world t).1 = S_LOCKED <-> _status t = S_LOCKED).
Proof.
  assert (H : preserves unlocked (family_restart Example.world))
    by (intros t Ht; exact Ht).
  split; [exact H|].
  destruct (lock_discipline Example.world H) as (_ & _ & _ & _ & _ & H1 & _ & H2).
  split; [exact H1|exact H2].
Defined.

(** The string form of the argument: [set_status("Locked", msg)] passes the
    test on the lock and locks a running task; [set_status("Running", msg)]
    on a locked task raises. *)
Example set_status_with_strings :
  let t := Example.task AbinitTask S_RUN RcUnset (Example.files "log" 100) in
  (set_status Example.world (StatusStr "Locked") "by hand" t).2 = inr S_LOCKED /\
  _status (set_status Example.world (StatusStr "Locked") "by hand" t).1 = S_LOCKED /\
  (exists text,
     (set_status Example.world (StatusStr "Running") "again"
        (with_status S_LOCKED t)).2 = inl (RuntimeError text)).
Proof. vm_compute. split_and!; try reflexivity. eexists. reflexivity. Qed.

(** A task that ran, whose job script returned 1, and that was reset and
    locked afterwards: once unlocked with [check_status=True], it is in
    [S_QCRITICAL], not in [S_READY]. *)
Lemma unlock_runs_check_status :
  let t := Example.task AbinitTask S_LOCKED (RcInt 1) ∅ in
  _status t = S_LOCKED /\
  (unlock Example.world "work" true t).2 = inr tt /\
  _status (unlock Example.world "work" true t).1 = S_QCRITICAL /\
  _status (unlock Example.world "work" true t).1 <> S_READY.
Proof. vm_compute. split_and!; try reflexivity. discriminate. Qed.

Lemma frozen_detection_witness :
  let t := Example.task AbinitTask S_RUN RcUnset (Example.files_written "log" 9999 100) in
  returncode_nonzero t = false /\
  exists_ (fs t) (mpiabort_file t) = false /\
  fs t !! output_file t = Some (RegularFile "output" 100) /\
  fs t !! log_file t = Some (RegularFile "log" 9999) /\
  _status t <> S_LOCKED /\
  (inject_Z (frozen_timeout (policy (manager t))) < now Example.world - 100)%Q /\
  (check_status Example.world t).2 = inr S_ERROR /\
  _status (check_status Example.world t).1 = S_ERROR.
Proof.
  cbv zeta.
  assert (Hl : _status (Example.task AbinitTask S_RUN RcUnset
                          (Example.files_written "log" 9999 100)) <> S_LOCKED)
    by discriminate.
  assert (Hage : (inject_Z (frozen_timeout (policy (manager
                    (Example.task AbinitTask S_RUN RcUnset
                       (Example.files_written "log" 9999 100)))))
                  < now Example.world - 100)%Q) by reflexivity.
  split; [reflexivity|]. split; [reflexivity|]. split; [reflexivity|].
  split; [reflexivity|]. split; [exact Hl|]. split; [exact Hage|].
  destruct (frozen_detection Example.world
              (Example.task AbinitTask S_RUN RcUnset (Example.files_written "log" 9999 100))
              "output" "log" 100 9999
              {| run_completed := false; start_datetime := Some 1%Q;
                 end_datetime := Some 2%Q; report_events := [] |})
    as [Hfrozen _]; try reflexivity; try exact Hl.
  destruct (Hfrozen Hage) as (H1 & H2 & _). split; [exact H1|exact H2].
Defined.

(** A log last written 9900 seconds ago, with a timeout of 3600 seconds,
    beside an output file written a second ago, and nothing else to see:
    [check_status] returns [S_RUN], not [S_ERROR]. *)
Lemma frozen_detection_ignores_log :
  let t := Example.task AbinitTask S_RUN RcUnset (Example.files_written "log" 100 9999) in
  returncode_nonzero t = false /\
  exists_ (fs t) (mpiabort_file t) = false /\
  fs t !! log_file t = Some (RegularFile "log" 100) /\
  fs t !! output_file t = Some (RegularFile "output" 9999) /\
  (inject_Z (frozen_timeout (policy (manager t))) < now Example.world - 100)%Q /\
  (check_status Example.world t).2 = inr S_RUN /\
  _status (check_status Example.world t).1 = S_RUN /\
  (check_status Example.world t).2 <> inr S_ERROR.
Proof. vm_compute. split_and!; try reflexivity. discriminate. Qed.

(** The two runs of the specification: an output written an hour and a
    second ago, and one written a second ago. *)
Example check_status_frozen :
  let r := check_status Example.world
             (Example.task AbinitTask S_RUN RcUnset (Example.files "log" (10000 - 3601))) in
  r.2 = inr S_ERROR /\
  history r.1
  = [(INFO, "Status changed to Error. msg: Task seems to be frozen, last change more than 3600 [s] ago")].
Proof. vm_compute. split; reflexivity. Qed.

Example check_status_running :
  let r := check_status Example.world
             (Example.task AbinitTask S_RUN RcUnset (Example.files "log" (10000 - 1))) in
  r.2 = inr S_RUN /\ _status r.1 = S_RUN.
Proof. vm_compute. split; reflexivity. Qed.

(** C4. [reset_from_scratch] on a task that ran: the files of the run are
    under [_reset] with the index 1, the lock file is gone, and the
    datetimes of the submission, of the start and of the end are those of
    before the reset. *)
Theorem reset_from_scratch_leaves_datetimes :
  let t := Example.task AbinitTask S_QCRITICAL RcUnset (Example.files "log" 100) in
  let r := reset_from_scratch Example.world t in
  r.2 = inr 0 /\
  fs r.1 !! (Example.wd ++ ["_reset"; "run.abo_1"]) = Some (RegularFile "output" 100) /\
  fs r.1 !! (Example.wd ++ ["_reset"; "run.log_1"]) = Some (RegularFile "log" 100) /\
  fs r.1 !! (Example.wd ++ ["_reset"; "run.err_1"]) = Some (RegularFile "" 100) /\
  fs r.1 !! output_file t = None /\
  fs r.1 !! log_file t = None /\
  fs r.1 !! stderr_file t = None /\
  fs r.1 !! start_lockfile t = None /\
  _status r.1 = S_READY /\
  num_restarts r.1 = 1 /\
  datetimes r.1
  = {| init := 0; submission := Some 10%Q; start := Some 20%Q; end_ := Some 30%Q |} /\
  datetimes r.1 <> TaskDateTimes_init (now Example.world).
Proof. vm_compute. split_and!; try reflexivity. discriminate. Qed.

Lemma finalization_at_most_once_witness :
  let t := Example.task ScfTask S_RUN RcUnset (Example.files "completed" 100) in
  task_class t <> CollinearThenNonCollinearScfTask /\
  finalized t = false /\ on_ok_calls t = 0%nat /\
  (on_ok_calls (set_status_calls Example.restarting_world
                  [(S_OK, "first"); (S_RUN, "again"); (S_OK, "second")] t) <= 1)%nat.
Proof.
  cbv zeta. split; [discriminate|]. split; [reflexivity|]. split; [reflexivity|].
  apply (finalization_at_most_once Example.restarting_world
           [(S_OK, "first"); (S_RUN, "again"); (S_OK, "second")]
           (Example.task ScfTask S_RUN RcUnset (Example.files "completed" 100)));
    [discriminate|reflexivity|reflexivity].
Defined.

(** A [CollinearThenNonCollinearScfTask]: the first transition to [S_OK]
    runs [on_ok], lowers the flag [finalized] again and restarts the task;
    the transition to [S_OK] of the second run runs [on_ok] once more. *)
Lemma collinear_task_finalizes_twice :
  let t := Example.task CollinearThenNonCollinearScfTask S_RUN RcUnset
             (Example.files "completed" 100) in
  finalized t = false /\ on_ok_calls t = 0%nat /\
  _status (set_status_calls Example.restarting_world [(S_OK, "collinear run")] t) = S_SUB /\
  on_ok_calls (set_status_calls Example.restarting_world [(S_OK, "collinear run")] t)
  = 1%nat /\
  on_ok_calls (set_status_calls Example.restarting_world
                 [(S_OK, "collinear run"); (S_OK, "non collinear run")] t) = 2%nat.
Proof. vm_compute. split_and!; reflexivity. Qed.

Lemma fix_queue_critical_memory_witness :
  let t := Example.task AbinitTask S_QCRITICAL RcUnset (Example.files "log" 100) in
  queue_errors t = [MemoryCancelError] /\ mem_scales t = true /\ _status t <> S_LOCKED /\
  (fix_queue_critical Example.world t).2 = inr FixNone /\
  _status (fix_queue_critical Example.world t).1 = S_READY /\
  num_restarts (fix_queue_critical Example.world t).1 = num_restarts t + 1.
Proof.
  cbv zeta.
  assert (Hl : _status (Example.task AbinitTask S_QCRITICAL RcUnset (Example.files "log" 100))
               <> S_LOCKED) by discriminate.
  split; [reflexivity|]. split; [reflexivity|]. split; [exact Hl|].
  destruct (fix_queue_critical_memory Example.world
              (Example.task AbinitTask S_QCRITICAL RcUnset (Example.files "log" 100)) []
              eq_refl eq_refl Hl) as (_ & Hb & _).
  edestruct (Hb "manager failed to increase ncpu") as (E & Hs & Hn & _).
  - reflexivity.
  - reflexivity.
  - vm_compute. reflexivity.
  - rewrite E. split; [reflexivity|]. split; [exact Hs|exact Hn].
Defined.

(** The adapter cannot give more cores and gives more memory: the task is
    ready with one restart, and no record of its history holds the text
    [increased mem]. *)
Lemma increased_mem_is_not_recorded :
  let t := Example.task AbinitTask S_QCRITICAL RcUnset (Example.files "log" 100) in
  let r := fix_queue_critical Example.world t in
  queue_errors t = [MemoryCancelError] /\ mem_scales t = true /\
  r.2 = inr FixNone /\ _status r.1 = S_READY /\ num_restarts r.1 = 1 /\
  qa_mem_per_proc <$> (_qads (manager r.1) !! 0%nat) = Some 2048 /\
  history r.1
  = [(INFO, "fixing queue critical"); (INFO, "fixing: MemoryCancelError");
     (WARNING, "increasing ncpus failed");
     (INFO, "Status changed to Ready. msg: Restarted on Tue Nov  3 12:00:00 2026");
     (INFO, "Restarted, num_restarts 1")] /\
  forallb (fun record => negb (contains "increased mem" record.2)) (history r.1) = true.
Proof. vm_compute. split_and!; reflexivity. Qed.

(** With an adapter that can give neither cores nor memory:
    [reduce_memory_demand] of the base class returns [False] and the task
    is made ready all the same; the hook of a [UserTask] that raises
    [DecreaseDemandsError] leaves the task in error. *)
Example reduce_memory_demand_result_is_ignored :
  let t := Example.task AbinitTask S_QCRITICAL RcUnset (Example.files "log" 100) in
  (reduce_memory_demand Example.exhausted_world t).2 = inr false /\
  (fix_queue_critical Example.exhausted_world t).2 = inr FixNone /\
  _status (fix_queue_critical Example.exhausted_world t).1 = S_READY.
Proof. vm_compute. split_and!; reflexivity. Qed.

Example fix_queue_critical_gives_up :
  let t := Example.task UserTask S_QCRITICAL RcUnset (Example.files "log" 100) in
  (fix_queue_critical Example.exhausted_world t).2 = inl FixQueueCriticalError /\
  _status (fix_queue_critical Example.exhausted_world t).1 = S_ERROR /\
  num_restarts (fix_queue_critical Example.exhausted_world t).1 = 0.
Proof. vm_compute. split_and!; reflexivity. Qed.

End TasksFacts.

(** * More properties of the selection of configurations *)

Module HintsProps.
Import Hints.

Lemma select_loop_filter (cond : Condition) (key : CondKey) (confs : list ParalConf) :
  (select_loop cond key confs).1
  = filter (fun c => (Condition_call cond (cond_obj key c)).1 = true) confs.
Proof.
  induction confs as [|c rest IH]; [reflexivity|].
  cbn [select_loop]. destruct (Condition_call cond (cond_obj key c)) as [add_it lg] eqn:E.
  destruct (select_loop cond key rest) as [new lgs]. cbn [fst] in *.
  rewrite filter_cons, E. cbn [fst]. subst new.
  destruct add_it; [rewrite decide_True by done|rewrite decide_False by done]; reflexivity.
Qed.

Lemma Condition_call_true cond obj :
  (Condition_call cond obj).1 = true <-> accepts cond obj.
Proof.
  unfold Condition_call, accepts. destruct (Condition_bool cond); cbn.
  - destruct (cmap_eval cond obj) as [txt|b]; cbn; split; intros H; try discriminate.
    + destruct H as [H|H]; discriminate.
    + right. congruence.
    + destruct H as [H|H]; [discriminate|congruence].
  - split; auto.
Qed.

(** X1. [select_with_condition] keeps the [info] of the hints and a sublist
    of the configurations, in their order: the ones on which the condition
    holds. A configuration on which the evaluation of the condition raises
    is dropped, and an empty condition keeps everything and logs nothing. *)
Theorem select_with_condition_keeps (cond : Condition) (key : CondKey) (h : ParalHints) :
  info (select_with_condition cond key h).1 = info h /\
  sublist (_confs (select_with_condition cond key h).1) (_confs h) /\
  (forall c, c ∈ _confs (select_with_condition cond key h).1
             <-> c ∈ _confs h /\ accepts cond (cond_obj key c)) /\
  (Condition_bool cond = false -> select_with_condition cond key h = (h, [])).
Proof.
  unfold select_with_condition.
  pose proof (select_loop_filter cond key (_confs h)) as E.
  destruct (select_loop cond key (_confs h)) as [new lg] eqn:El. cbn [fst] in *. subst new.
  split_and!; cbn [fst info _confs].
  - reflexivity.
  - apply sublist_filter.
  - intros c. rewrite list_elem_of_filter, Condition_call_true. tauto.
  - intros Hb. destruct h as [i cs]. cbn [info _confs] in *.
    assert (select_loop cond key cs = (cs, [])) as Hs.
    { clear El. induction cs as [|c rest IH]; [reflexivity|].
      cbn [select_loop]. unfold Condition_call at 1. rewrite Hb. cbn. rewrite IH. reflexivity. }
    rewrite Hs in El. injection El as E1 E2. rewrite <- E1, <- E2. reflexivity.
Qed.

Lemma Qltb_true a b : Qltb a b = true <-> (a < b)%Q.
Proof.
  unfold Qltb. rewrite negb_true_iff. split; intros H.
  - apply Qnot_le_lt. intros Hle. apply Qle_bool_iff in Hle. congruence.
  - destruct (Qle_bool b a) eqn:E; [|reflexivity].
    apply Qle_bool_iff in E. exfalso. exact (Qlt_not_le _ _ H E).
Qed.

Lemma Qltb_false a b : Qltb a b = false <-> (b <= a)%Q.
Proof.
  unfold Qltb. rewrite negb_false_iff. apply Qle_bool_iff.
Qed.

Lemma ordered_trans {A : Type} (key : A -> Q) (reverse : bool) (a b c : A) :
  ordered key reverse a b -> ordered key reverse b c -> ordered key reverse a c.
Proof. unfold ordered. destruct reverse; intros; eapply Qle_trans; eauto. Qed.

Lemma sort_insert_sorted {A : Type} (key : A -> Q) (reverse : bool) (x : A) (l : list A) :
  StronglySorted (ordered key reverse) l ->
  StronglySorted (ordered key reverse) (sort_insert key reverse x l).
Proof.
  induction 1 as [|y ys Hs IH Hall]; cbn [sort_insert].
  - repeat constructor.
  - destruct (if reverse then Qltb (key x) (key y) else Qltb (key y) (key x)) eqn:E.
    + constructor; [exact IH|].
      rewrite (HintsFacts.sort_insert_perm key reverse x ys). constructor; [|exact Hall].
      unfold ordered. destruct reverse; apply Qltb_true in E; apply Qlt_le_weak; exact E.
    + assert (ordered key reverse x y) as Hxy.
      { unfold ordered. destruct reverse; apply Qltb_false in E; exact E. }
      constructor; [constructor; assumption|].
      constructor; [exact Hxy|].
      eapply Forall_impl; [exact Hall|]. intros z Hz. eapply ordered_trans; eauto.
Qed.

Lemma list_sort_sorted {A : Type} (key : A -> Q) (reverse : bool) (l : list A) :
  StronglySorted (ordered key reverse) (list_sort key reverse l).
Proof.
  induction l as [|x xs IH]; cbn [list_sort]; [constructor|].
  apply sort_insert_sorted, IH.
Qed.

Lemma sort_insert_with_key {A : Type} (key : A -> Q) (reverse : bool) (k : Q) (x : A)
  (l : list A) :
  with_key key k (sort_insert key reverse x l) = with_key key k (x :: l).
Proof.
  unfold with_key. induction l as [|y ys IH]; cbn [sort_insert]; [reflexivity|].
  destruct (if reverse then Qltb (key x) (key y) else Qltb (key y) (key x)) eqn:E;
    [|reflexivity].
  rewrite filter_cons, IH, !filter_cons.
  destruct (decide (Qeq_bool (key x) k = true)) as [Hx|Hx]; [|reflexivity].
  destruct (decide (Qeq_bool (key y) k = true)) as [Hy|Hy]; [exfalso|reflexivity].
  apply Qeq_bool_iff in Hx, Hy.
  assert (key x == key y)%Q as Heq by (rewrite Hx, Hy; reflexivity).
  destruct reverse; apply Qltb_true in E; rewrite Heq in E; exact (Qlt_irrefl _ E).
Qed.

Lemma list_sort_with_key {A : Type} (key : A -> Q) (reverse : bool) (k : Q) (l : list A) :
  with_key key k (list_sort key reverse l) = with_key key k l.
Proof.
  induction l as [|x xs IH]; cbn [list_sort]; [reflexivity|].
  rewrite sort_insert_with_key. unfold with_key in *. rewrite !filter_cons, IH. reflexivity.
Qed.

(** X2. [sort_by_speedup] and [sort_by_efficiency] return the same
    configurations, ordered on the key (decreasing with [reverse=True]),
    and the configurations that share a key keep their relative order. *)
Theorem sort_by_speedup_efficiency_sorted (reverse : bool) (h : ParalHints) :
  (_confs (sort_by_speedup reverse h) ≡ₚ _confs h /\
   StronglySorted (ordered speedup reverse) (_confs (sort_by_speedup reverse h)) /\
   forall k, with_key speedup k (_confs (sort_by_speedup reverse h))
             = with_key speedup k (_confs h)) /\
  (_confs (sort_by_efficiency reverse h) ≡ₚ _confs h /\
   StronglySorted (ordered efficiency reverse) (_confs (sort_by_efficiency reverse h)) /\
   forall k, with_key efficiency k (_confs (sort_by_efficiency reverse h))
             = with_key efficiency k (_confs h)).
Proof.
  unfold sort_by_speedup, sort_by_efficiency. cbn [_confs].
  split_and!; auto using HintsFacts.list_sort_perm, list_sort_sorted, list_sort_with_key.
Qed.

Lemma concat_perm {A : Type} (l l' : list (list A)) : l ≡ₚ l' -> concat l ≡ₚ concat l'.
Proof.
  induction 1 as [|x l l' _ IH|x y l|l l' l'' _ IH1 _ IH2]; cbn [concat].
  - reflexivity.
  - rewrite IH. reflexivity.
  - rewrite !app_assoc. f_equiv. apply Permutation_app_comm.
  - etrans; eauto.
Qed.

Lemma hist_append_keys_Forall {A : Type} (P : Q -> Prop) (k : Q) (x : A)
  (hist : list (Q * list A)) :
  Forall P (map fst hist) -> P k -> Forall P (map fst (hist_append k x hist)).
Proof.
  intros Hall Hk. induction hist as [|[k' l] rest IH]; cbn [hist_append map fst].
  - constructor; [exact Hk|constructor].
  - cbn [map fst] in Hall. apply Forall_cons in Hall as [H1 H2].
    destruct (Qeq_bool k' k); cbn [map fst]; constructor; auto.
Qed.

Lemma hist_append_distinct {A : Type} (k : Q) (x : A) (hist : list (Q * list A)) :
  distinct_keys (map fst hist) -> distinct_keys (map fst (hist_append k x hist)).
Proof.
  induction hist as [|[k' l] rest IH]; cbn [hist_append map fst distinct_keys].
  - intros _. split; [constructor|exact I].
  - intros [H1 H2]. destruct (Qeq_bool k' k) eqn:E; cbn [map fst distinct_keys].
    + split; assumption.
    + split; [|auto]. apply hist_append_keys_Forall; assumption.
Qed.

Lemma hist_append_concat {A : Type} (k : Q) (x : A) (hist : list (Q * list A)) :
  concat (map snd (hist_append k x hist)) ≡ₚ concat (map snd hist) ++ [x].
Proof.
  induction hist as [|[k' l] rest IH]; cbn [hist_append map snd concat].
  - reflexivity.
  - destruct (Qeq_bool k' k); cbn [map snd concat].
    + rewrite <- !app_assoc. f_equiv. apply Permutation_app_comm.
    + rewrite IH, app_assoc. reflexivity.
Qed.

Lemma hist_append_nonempty {A : Type} (k : Q) (x : A) (hist : list (Q * list A)) :
  Forall (fun e => e.2 <> []) hist -> Forall (fun e => e.2 <> []) (hist_append k x hist).
Proof.
  induction 1 as [|[k' l] rest H1 H2 IH]; cbn [hist_append].
  - constructor; [discriminate|constructor].
  - destruct (Qeq_bool k' k); constructor; auto.
    cbn. intros Hnil. apply app_eq_nil in Hnil as [_ Hnil]. discriminate.
Qed.

Lemma hist_fill_inv {A : Type} (key : A -> Q) (mesh : list Q) (items : list A)
  (hist hist' : list (Q * list A)) :
  hist_fill key mesh items hist = inr hist' ->
  distinct_keys (map fst hist) -> Forall (fun e => e.2 <> []) hist ->
  distinct_keys (map fst hist') /\ Forall (fun e => e.2 <> []) hist' /\
  concat (map snd hist') ≡ₚ concat (map snd hist) ++ items.
Proof.
  revert hist. induction items as [|item rest IH]; intros hist; cbn [hist_fill].
  - intros [= <-] H1 H2. rewrite app_nil_r. auto.
  - destruct (find_le mesh (key item)) as [e|pos]; [discriminate|].
    intros Hf H1 H2. apply IH in Hf as (H3 & H4 & H5);
      auto using hist_append_distinct, hist_append_nonempty.
    split_and!; try assumption.
    rewrite H5, hist_append_concat, <- app_assoc. reflexivity.
Qed.

Lemma Qeq_bool_refl (k : Q) : Qeq_bool k k = true.
Proof. apply Qeq_bool_iff. reflexivity. Qed.

Lemma hist_get_keys {A : Type} (hist : list (Q * list A)) :
  distinct_keys (map fst hist) ->
  map (fun k => hist_get k hist) (map fst hist) = map snd hist.
Proof.
  induction hist as [|[k l] rest IH]; cbn [map fst snd distinct_keys]; [reflexivity|].
  intros [H1 H2]. cbn [hist_get]. rewrite Qeq_bool_refl. f_equal.
  rewrite <- IH by exact H2.
  apply map_ext_Forall. eapply Forall_impl; [exact H1|].
  intros k' Hk'. cbn beta. cbn [hist_get]. rewrite Hk'. reflexivity.
Qed.

Lemma SparseHistogram_init_inr {A : Type} (items : list A) (key : A -> Q)
  (num : option Z) (step : option Q) (h : SparseHistogram A) :
  SparseHistogram_init items key num step = inr h ->
  exists hist,
    distinct_keys (map fst hist) /\ Forall (fun e => e.2 <> []) hist /\
    concat (map snd hist) ≡ₚ items /\
    binvals h = list_sort (fun k : Q => k) false (map fst hist) /\
    values h = map (fun pos => hist_get pos hist) (binvals h).
Proof.
  unfold SparseHistogram_init. intros H.
  assert (forall (n : Z) (start stop : Q),
    (if n <? 0 then inl (ValueError "Number of samples must be non-negative.")
     else match hist_fill key (linspace start stop (Z.to_nat n)) items [] with
          | inl e => inl e
          | inr hist =>
              inr {| binvals := list_sort (fun k : Q => k) false (map fst hist);
                     values := map (fun pos => hist_get pos hist)
                                   (list_sort (fun k : Q => k) false (map fst hist));
                     Hints.start := start; Hints.stop := stop; Hints.num := n |}
          end) = inr h ->
    exists hist,
      distinct_keys (map fst hist) /\ Forall (fun e => e.2 <> []) hist /\
      concat (map snd hist) ≡ₚ items /\
      binvals h = list_sort (fun k : Q => k) false (map fst hist) /\
      values h = map (fun pos => hist_get pos hist) (binvals h)) as Hcore.
  { intros n start stop Hn. destruct (n <? 0); [discriminate|].
    destruct (hist_fill key (linspace start stop (Z.to_nat n)) items []) as [e|hist] eqn:Hf;
      [discriminate|].
    injection Hn as <-. exists hist.
    apply hist_fill_inv in Hf as (H1 & H2 & H3); [|exact I|constructor].
    cbn [binvals values]. auto. }
  destruct num as [n|], step as [st|]; try discriminate;
    destruct (Qminimum (map key items)) as [start|]; try discriminate;
    destruct (Qmaximum (map key items)) as [stop|]; try discriminate.
  - eapply Hcore, H.
  - eapply Hcore, H.
  - destruct (Qeq_bool st 0); [discriminate|]. eapply Hcore, H.
Qed.

Lemma values_of_hist {A : Type} (hist : list (Q * list A)) (bv : list Q) :
  distinct_keys (map fst hist) -> bv ≡ₚ map fst hist ->
  map (fun pos => hist_get pos hist) bv ≡ₚ map snd hist.
Proof.
  intros Hd Hp. rewrite <- (hist_get_keys hist Hd). apply Permutation_map, Hp.
Qed.

Lemma SparseHistogram_init_buckets {A : Type} (items : list A) (key : A -> Q)
  (num : option Z) (step : option Q) (h : SparseHistogram A) :
  SparseHistogram_init items key num step = inr h ->
  concat (values h) ≡ₚ items /\
  Forall (fun bucket => bucket <> []) (values h) /\
  length (values h) = length (binvals h) /\
  StronglySorted Qle (binvals h).
Proof.
  intros H. apply SparseHistogram_init_inr in H as (hist & Hd & Hne & Hc & Hb & Hv).
  assert (map (fun pos => hist_get pos hist) (binvals h) ≡ₚ map snd hist) as Hp.
  { apply values_of_hist; [exact Hd|]. rewrite Hb. apply HintsFacts.list_sort_perm. }
  split_and!.
  - rewrite Hv, <- Hc. apply concat_perm, Hp.
  - rewrite Hv, Hp. clear -Hne. induction Hne; cbn [map]; constructor; auto.
  - rewrite Hv, length_map. reflexivity.
  - rewrite Hb. apply (list_sort_sorted (fun k : Q => k) false).
Qed.

(** X3. A [SparseHistogram] that is built puts every item in exactly one
    bucket: the buckets together are a permutation of the items, no bucket
    is empty, there is one bucket for each bin value, and the bin values
    are sorted. *)
Theorem SparseHistogram_partition {A : Type} (items : list A) (key : A -> Q)
  (num : option Z) (step : option Q) (h : SparseHistogram A) :
  SparseHistogram_init items key num step = inr h ->
  concat (values h) ≡ₚ items /\
  Forall (fun bucket => bucket <> []) (values h) /\
  length (values h) = length (binvals h) /\
  StronglySorted Qle (binvals h).
Proof. apply SparseHistogram_init_buckets. Qed.

Lemma fold_min_le (l : list Q) (x : Q) :
  (fold_left (fun m v => if Qltb v m then v else m) l x <= x)%Q /\
  Forall (fun v => (fold_left (fun m v => if Qltb v m then v else m) l x <= v)%Q) l.
Proof.
  revert x. induction l as [|v l IH]; intros x; cbn [fold_left].
  - split; [apply Qle_refl|constructor].
  - destruct (IH (if Qltb v x then v else x)) as [H1 H2].
    destruct (Qltb v x) eqn:E.
    + apply Qltb_true in E. split; [|constructor; assumption].
      eapply Qle_trans; [exact H1|]. apply Qlt_le_weak, E.
    + apply Qltb_false in E. split; [assumption|constructor; [|assumption]].
      eapply Qle_trans; eauto.
Qed.

Lemma fold_max_ge (l : list Q) (x : Q) :
  (x <= fold_left (fun m v => if Qltb m v then v else m) l x)%Q.
Proof.
  revert x. induction l as [|v l IH]; intros x; cbn [fold_left]; [apply Qle_refl|].
  eapply Qle_trans; [|apply IH].
  destruct (Qltb x v) eqn:E; [apply Qltb_true in E; apply Qlt_le_weak, E|apply Qle_refl].
Qed.

Lemma Qminimum_Qmaximum (l : list Q) :
  l <> [] ->
  exists start stop, Qminimum l = Some start /\ Qmaximum l = Some stop /\
    (start <= stop)%Q /\ Forall (fun v => (start <= v)%Q) l.
Proof.
  destruct l as [|x xs]; [done|intros _]. cbn [Qminimum Qmaximum].
  eexists _, _. split_and!; try reflexivity.
  - eapply Qle_trans; [apply fold_min_le|apply fold_max_ge].
  - constructor; apply fold_min_le.
Qed.

Lemma find_le_linspace (start stop x : Q) (n : nat) :
  (0 < n)%nat -> (start <= x)%Q -> exists pos, find_le (linspace start stop n) x = inr pos.
Proof.
  intros Hn Hx. destruct n as [|n]; [lia|].
  unfold find_le, bisect_right, linspace. cbn [seq map].
  rewrite filter_cons, decide_True; [cbn [length]; eauto|].
  apply Qle_bool_iff. cbn [Z.of_nat]. rewrite Qmult_0_l, Qplus_0_l. exact Hx.
Qed.

Lemma hist_fill_ok {A : Type} (key : A -> Q) (mesh : list Q) (items : list A)
  (hist : list (Q * list A)) :
  Forall (fun item => exists pos, find_le mesh (key item) = inr pos) items ->
  exists hist', hist_fill key mesh items hist = inr hist'.
Proof.
  intros Hall. revert hist. induction Hall as [|item rest [pos Hpos] _ IH]; intros hist;
    cbn [hist_fill]; [eauto|].
  rewrite Hpos. apply IH.
Qed.

Lemma py_int_of_float_nonneg (q : Q) : (0 <= q)%Q -> 0 <= py_int_of_float q.
Proof.
  intros Hq. unfold py_int_of_float.
  pose proof Hq as Hb. apply Qle_bool_iff in Hb. rewrite Hb.
  change 0 with (Qfloor 0). apply Qfloor_resp_le, Hq.
Qed.

Lemma SparseHistogram_init_step {A : Type} (items : list A) (key : A -> Q) (st : Q) :
  items <> [] -> (0 < st)%Q ->
  exists h, SparseHistogram_init items key None (Some st) = inr h.
Proof.
  intros Hne Hst. unfold SparseHistogram_init.
  destruct (Qminimum_Qmaximum (map key items)) as (start & stop & -> & -> & Hle & Hall).
  { destruct items; [done|discriminate]. }
  destruct (Qeq_bool st 0) eqn:E.
  { apply Qeq_bool_iff in E. rewrite E in Hst. exfalso. exact (Qlt_irrefl _ Hst). }
  set (n0 := py_int_of_float ((stop - start) / st)).
  assert (0 <= n0) as Hn0.
  { apply py_int_of_float_nonneg. apply Qle_shift_div_l; [exact Hst|].
    rewrite Qmult_0_l. apply (Qplus_le_l _ _ start). ring_simplify. exact Hle. }
  set (n := if n0 =? 0 then 1 else n0).
  assert (0 < n) as Hn. { subst n. destruct (Z.eqb_spec n0 0); lia. }
  destruct (Z.ltb_spec n 0); [lia|].
  destruct (hist_fill_ok key (linspace start stop (Z.to_nat n)) items []) as [hist ->];
    [|eauto].
  apply Forall_forall. intros item Hin. apply find_le_linspace; [lia|].
  rewrite Forall_forall in Hall. apply Hall.
  apply list_elem_of_In, in_map, list_elem_of_In, Hin.
Qed.

Lemma values_at_inr {A : Type} (first : bool) (h : SparseHistogram A) (items l : list A)
  (key : A -> Q) (num : option Z) (step : option Q) :
  SparseHistogram_init items key num step = inr h ->
  values_at first (values h) = inr l -> l <> [] /\ l ⊆ items.
Proof.
  intros Hh Hl. apply SparseHistogram_init_buckets in Hh as (Hc & Hne & _ & _).
  assert (l ∈ values h) as Hin.
  { unfold values_at in Hl. destruct first.
    - destruct (values h) as [|v vs]; [discriminate|]. injection Hl as <-. left.
    - destruct (last (values h)) as [v|] eqn:E; [|discriminate]. injection Hl as <-.
      apply last_Some in E as [l' ->]. apply elem_of_app. right. left. }
  split.
  - rewrite Forall_forall in Hne. apply Hne. exact Hin.
  - intros x Hx. rewrite <- Hc. apply list_elem_of_In, in_concat.
    exists l. split; apply list_elem_of_In; assumption.
Qed.

Lemma values_at_last {A : Type} (h : SparseHistogram A) (items : list A)
  (key : A -> Q) (num : option Z) (step : option Q) :
  items <> [] -> SparseHistogram_init items key num step = inr h ->
  exists l, values_at false (values h) = inr l.
Proof.
  intros Hne Hh. apply SparseHistogram_init_buckets in Hh as (Hc & _ & _ & _).
  unfold values_at. destruct (values h) as [|v vs] eqn:E.
  - cbn [concat] in Hc. apply Permutation_nil in Hc. congruence.
  - destruct (last (v :: vs)) eqn:El; [eauto|]. apply last_None in El. discriminate.
Qed.

Lemma SparseHistogram_call_inr {A : Type} (items : list A) (key : A -> Q) (kw : list Kwarg)
  (h : SparseHistogram A) :
  SparseHistogram_call items key kw = inr h ->
  exists num step, SparseHistogram_init items key num step = inr h.
Proof.
  unfold SparseHistogram_call. destruct (bind_kwargs kw None None) as [e|[num step]];
    [discriminate|eauto].
Qed.

Lemma optimization_loop_subseteq (priorities : list Priority) (confs r : list ParalConf) :
  optimization_loop priorities confs = inr r -> r ⊆ confs.
Proof.
  revert confs. induction priorities as [|p ps IH]; intros confs; cbn [optimization_loop].
  - intros [= <-]. done.
  - destruct p as [name|m]; [|discriminate].
    destruct (opts name) as [kw|]; [|discriminate].
    destruct (SparseHistogram_call confs (getattr_priority name) kw) as [e|h] eqn:Eh;
      [discriminate|].
    destruct (values_at (String.eqb name "mem_per_proc") (values h)) as [e|l] eqn:El;
      [discriminate|].
    intros Hr. apply IH in Hr. apply SparseHistogram_call_inr in Eh as (num & step & Eh).
    destruct (values_at_inr _ _ _ _ _ _ _ Eh El) as [_ Hsub]. set_solver.
Qed.

Lemma optimization_loop_ok (priorities : list Priority) (confs : list ParalConf) :
  Forall speedup_or_efficiency priorities -> confs <> [] ->
  exists r, optimization_loop priorities confs = inr r /\ r <> [] /\ r ⊆ confs.
Proof.
  intros Hall. revert confs. induction Hall as [|p ps Hp _ IH]; intros confs Hne.
  - exists confs. cbn. done.
  - assert (exists name st, p = PrioName name /\ opts name = Some [KwStep st] /\ (0 < st)%Q
                            /\ String.eqb name "mem_per_proc" = false)
      as (name & st & -> & Ho & Hst & Hm).
    { destruct Hp as [->| ->]; eexists _, _; split_and!; reflexivity. }
    cbn [optimization_loop]. rewrite Ho, Hm.
    unfold SparseHistogram_call. cbn [bind_kwargs].
    destruct (SparseHistogram_init_step confs (getattr_priority name) st Hne Hst) as [h Hh].
    rewrite Hh.
    destruct (values_at_last h confs _ _ _ Hne Hh) as [l Hl]. rewrite Hl.
    destruct (values_at_inr _ _ _ _ _ _ _ Hh Hl) as [Hl1 Hl2].
    destruct (IH l Hl1) as (r & Hr & Hr1 & Hr2).
    exists r. split_and!; [exact Hr|exact Hr1|set_solver].
Qed.

Lemma select_with_condition_confs (cond : Condition) (key : CondKey) (h : ParalHints) :
  _confs (select_with_condition cond key h).1
  = filter (fun c => (Condition_call cond (cond_obj key c)).1 = true) (_confs h).
Proof.
  unfold select_with_condition. rewrite <- select_loop_filter.
  destruct (select_loop cond key (_confs h)). reflexivity.
Qed.

Lemma apply_policy_condition_subseteq (cond : Condition) (key : CondKey) (name : string)
  (hints : ParalHints) :
  _confs (apply_policy_condition cond key name hints).1 ⊆ _confs hints.
Proof.
  unfold apply_policy_condition. destruct (Condition_bool cond); [|done].
  pose proof (select_with_condition_confs cond key hints) as E.
  destruct (select_with_condition cond key hints) as [h lg]. cbn [fst] in E.
  destruct (ParalHints_len h =? 0)%nat; cbn [fst]; [done|].
  rewrite E. intros c Hc. apply list_elem_of_filter in Hc. tauto.
Qed.

Lemma candidate_pool_subseteq (policy : TaskPolicy) (max_ncpus : Z) (self : ParalHints) :
  _confs (candidate_pool policy max_ncpus self).1 ⊆ _confs (within_ceiling max_ncpus self).
Proof.
  unfold candidate_pool. fold (within_ceiling max_ncpus self).
  pose proof (apply_policy_condition_subseteq (condition policy) KeyNone "condition"
                (within_ceiling max_ncpus self)) as H1.
  destruct (apply_policy_condition (condition policy) KeyNone "condition"
              (within_ceiling max_ncpus self)) as [h1 lg1]. cbn [fst] in H1.
  pose proof (apply_policy_condition_subseteq (vars_condition policy) KeyVars
                "vars_condition" h1) as H2.
  destruct (apply_policy_condition (vars_condition policy) KeyVars "vars_condition" h1)
    as [h2 lg2]. cbn [fst] in *. set_solver.
Qed.

Lemma candidate_pool_nonempty (policy : TaskPolicy) (max_ncpus : Z) (self : ParalHints) :
  _confs (within_ceiling max_ncpus self) <> [] ->
  _confs (candidate_pool policy max_ncpus self).1 <> [].
Proof.
  intros Hne. unfold candidate_pool. fold (within_ceiling max_ncpus self).
  pose proof (HintsFacts.apply_policy_condition_keeps (condition policy) KeyNone "condition"
                (within_ceiling max_ncpus self) Hne) as [H1 _].
  destruct (apply_policy_condition (condition policy) KeyNone "condition"
              (within_ceiling max_ncpus self)) as [h1 lg1]. cbn [fst] in H1.
  pose proof (HintsFacts.apply_policy_condition_keeps (vars_condition policy) KeyVars
                "vars_condition" h1 H1) as [H2 _].
  destruct (apply_policy_condition (vars_condition policy) KeyVars "vars_condition" h1)
    as [h2 lg2]. exact H2.
Qed.

Lemma within_ceiling_spec (max_ncpus : Z) (self : ParalHints) (c : ParalConf) :
  c ∈ _confs (within_ceiling max_ncpus self) <-> c ∈ _confs self /\ num_cores c <= max_ncpus.
Proof. unfold within_ceiling. cbn [_confs]. rewrite list_elem_of_filter. tauto. Qed.

Lemma sort_by_perm (name : string) (hints : ParalHints) :
  _confs (sort_by name hints) ≡ₚ _confs hints.
Proof.
  unfold sort_by, sort_by_efficiency, sort_by_speedup, sort_by_mem_per_proc.
  repeat match goal with |- context [if ?b then _ else _] => destruct b end;
    cbn [_confs]; auto using HintsFacts.list_sort_perm.
Qed.

Lemma get_ordered_with_policy_eq (b : bool) (policy : TaskPolicy) (max_ncpus : Z)
  (self : ParalHints) :
  (get_ordered_with_policy b policy max_ncpus self).1
  = (rank_with_policy b policy (candidate_pool policy max_ncpus self).1).1.
Proof.
  unfold get_ordered_with_policy. destruct (candidate_pool policy max_ncpus self) as [h lg].
  cbn [fst]. destruct (rank_with_policy b policy h). reflexivity.
Qed.

(** X4. With a single priority that is one of [efficiency], [speedup] and
    [mem_per_proc], [get_ordered_with_policy] does not raise and returns
    the candidate pool in another order: no configuration is lost or
    added, and the result is not empty when a configuration fits in
    [max_ncpus]. *)
Theorem get_ordered_with_policy_ranked (b : bool) (policy : TaskPolicy) (max_ncpus : Z)
  (self : ParalHints) (name : string) :
  autoparal_priorities policy = [PrioName name] -> is_ranked_name name = true ->
  exists hints,
    (get_ordered_with_policy b policy max_ncpus self).1 = inr hints /\
    _confs hints ≡ₚ _confs (candidate_pool policy max_ncpus self).1 /\
    (_confs (within_ceiling max_ncpus self) <> [] -> _confs hints <> []).
Proof.
  intros Hp Hn. rewrite get_ordered_with_policy_eq.
  unfold rank_with_policy. rewrite Hp, Hn. cbn [fst].
  eexists. split_and!; [reflexivity|apply sort_by_perm|].
  intros Hne Hnil. apply (candidate_pool_nonempty policy) in Hne.
  apply Hne. eapply Permutation_nil. rewrite <- Hnil. apply sort_by_perm.
Qed.

Lemma rank_with_policy_subseteq (b : bool) (policy : TaskPolicy) (hints h : ParalHints) :
  (rank_with_policy b policy hints).1 = inr h -> _confs h ⊆ _confs hints.
Proof.
  unfold rank_with_policy.
  assert (forall ps, (match multidimensional_optimization ps hints with
                      | inl e => (inl e, [])
                      | inr hints0 =>
                          if (ParalHints_len hints0 =? 0)%nat
                          then (inl (ValueError "len(hints) == 0"), [])
                          else (inr hints0, [])
                      end : (Exc + ParalHints) * list LogRecord).1 = inr h ->
                     _confs h ⊆ _confs hints) as Hmulti.
  { intros ps. unfold multidimensional_optimization.
    destruct (optimization_loop ps (_confs hints)) as [e|r] eqn:E; [discriminate|].
    destruct (ParalHints_len _ =? 0)%nat; cbn [fst]; [discriminate|].
    intros [= <-]. cbn [_confs]. eapply optimization_loop_subseteq, E. }
  destruct (autoparal_priorities policy) as [|p0 [|p1 ps]]; [apply Hmulti| |apply Hmulti].
  destruct p0 as [name|m].
  - destruct (is_ranked_name name).
    + cbn [fst]. intros [= <-]. rewrite sort_by_perm. done.
    + destruct b; cbn [fst]; [|discriminate]. intros [= <-]. done.
  - destruct b; [|discriminate].
    destruct (dict_get "meta_priority" m) as [v|]; [|discriminate].
    assert (forall r : (Exc + ParalHints) * list LogRecord,
              r = (inr hints, []) -> r.1 = inr h -> _confs h ⊆ _confs hints) as Hsame.
    { intros r -> [= <-]. done. }
    destruct v as [z|q|s|bb]; try (apply Hsame; reflexivity).
    destruct (String.eqb_spec s "highest_speedup_minimum_efficiency_cutoff") as [->|Hs].
    + pose proof (select_with_condition_confs
                    (efficiency_gte (default (VFloat 1) (dict_get "minimum_efficiency" m)))
                    KeyNone hints) as E.
      destruct (select_with_condition _ KeyNone hints) as [h' lg]. cbn [fst] in *.
      intros [= <-]. unfold sort_by_speedup. cbn [_confs].
      rewrite HintsFacts.list_sort_perm, E. intros c Hc.
      apply list_elem_of_filter in Hc. tauto.
    + intros H. revert H. apply Hsame.
      repeat match goal with
             | |- context [match ?x with _ => _ end] =>
                 match type of x with
                 | string => destruct x as [|? ?]
                 | Ascii.ascii => destruct x as [[] [] [] [] [] [] [] []]
                 end
             end; try reflexivity; exfalso; apply Hs; reflexivity.
Qed.

Lemma get_ordered_with_policy_subseteq (b : bool) (policy : TaskPolicy)
  (max_ncpus : Z) (self hints : ParalHints) :
  (get_ordered_with_policy b policy max_ncpus self).1 = inr hints ->
  forall c, c ∈ _confs hints -> c ∈ _confs self /\ num_cores c <= max_ncpus.
Proof.
  rewrite get_ordered_with_policy_eq. intros Hr c Hc.
  apply within_ceiling_spec, candidate_pool_subseteq with (policy := policy).
  eapply rank_with_policy_subseteq; eauto.
Qed.

(** X5. Every configuration that [get_ordered_with_policy] returns is one
    of the configurations it was given and uses at most [max_ncpus]
    cores, whatever the policy. *)
Theorem get_ordered_with_policy_within_ceiling (b : bool) (policy : TaskPolicy)
  (max_ncpus : Z) (self hints : ParalHints) :
  (get_ordered_with_policy b policy max_ncpus self).1 = inr hints ->
  forall c, c ∈ _confs hints -> c ∈ _confs self /\ num_cores c <= max_ncpus.
Proof. apply get_ordered_with_policy_subseteq. Qed.

(** X6. With no priority, or with two or more priorities that are all
    [speedup] or [efficiency], the multidimensional optimization does not
    raise and selects at least one configuration of the candidate pool,
    as soon as a configuration fits in [max_ncpus]: the error
    [len(hints) == 0] is not met. *)
Theorem get_ordered_with_policy_speedup_efficiency (b : bool) (policy : TaskPolicy)
  (max_ncpus : Z) (self : ParalHints) :
  length (autoparal_priorities policy) <> 1%nat ->
  Forall speedup_or_efficiency (autoparal_priorities policy) ->
  _confs (within_ceiling max_ncpus self) <> [] ->
  exists hints,
    (get_ordered_with_policy b policy max_ncpus self).1 = inr hints /\
    _confs hints <> [] /\
    _confs hints ⊆ _confs (candidate_pool policy max_ncpus self).1.
Proof.
  intros Hlen Hall Hne. rewrite get_ordered_with_policy_eq.
  apply (candidate_pool_nonempty policy) in Hne.
  destruct (optimization_loop_ok _ _ Hall Hne) as (r & Hr & Hr1 & Hr2).
  exists {| info := info (candidate_pool policy max_ncpus self).1; _confs := r |}.
  cbn [_confs]. split_and!; [|exact Hr1|exact Hr2].
  unfold rank_with_policy.
  assert ((match multidimensional_optimization (autoparal_priorities policy)
                   (candidate_pool policy max_ncpus self).1 with
           | inl e => (inl e, [])
           | inr hints0 =>
               if (ParalHints_len hints0 =? 0)%nat
               then (inl (ValueError "len(hints) == 0"), [])
               else (inr hints0, [])
           end : (Exc + ParalHints) * list LogRecord).1
          = inr {| info := info (candidate_pool policy max_ncpus self).1; _confs := r |})
    as Hmulti.
  { unfold multidimensional_optimization. rewrite Hr. unfold ParalHints_len. cbn [_confs].
    destruct r; [done|reflexivity]. }
  destruct (autoparal_priorities policy) as [|p0 [|p1 ps]]; [exact Hmulti| |exact Hmulti].
  cbn in Hlen. done.
Qed.

(** X7. The strategy [highest_speedup_minimum_efficiency_cutoff]. Where
    [collections.Mapping] does not exist (Python 3.10 and later) the
    branch raises [AttributeError]. Where it exists the result holds
    exactly the configurations of the candidate pool whose efficiency is
    at least the cutoff, by decreasing speedup; nothing is undone when
    none is left. *)
Theorem get_ordered_with_policy_cutoff (policy : TaskPolicy) (max_ncpus : Z)
  (self : ParalHints) (m : list (string * PyValue)) :
  autoparal_priorities policy = [PrioMapping m] ->
  dict_get "meta_priority" m = Some (VStr "highest_speedup_minimum_efficiency_cutoff") ->
  (exists msg, (get_ordered_with_policy false policy max_ncpus self).1
               = inl (AttributeError msg)) /\
  forall e, default (VFloat 1) (dict_get "minimum_efficiency" m) = VFloat e ->
    exists hints,
      (get_ordered_with_policy true policy max_ncpus self).1 = inr hints /\
      (forall c, c ∈ _confs hints
                 <-> c ∈ _confs (candidate_pool policy max_ncpus self).1
                     /\ (e <= efficiency c)%Q) /\
      StronglySorted (ordered speedup true) (_confs hints).
Proof.
  intros Hp Hm. rewrite !get_ordered_with_policy_eq. unfold rank_with_policy.
  rewrite Hp, Hm. split; [eexists; reflexivity|].
  intros e ->.
  pose proof (select_with_condition_confs (efficiency_gte (VFloat e)) KeyNone
                (candidate_pool policy max_ncpus self).1) as E.
  destruct (select_with_condition (efficiency_gte (VFloat e)) KeyNone
              (candidate_pool policy max_ncpus self).1) as [h lg]. cbn [fst] in *.
  eexists. split_and!; [reflexivity| |apply list_sort_sorted].
  intros c. unfold sort_by_speedup. cbn [_confs].
  rewrite HintsFacts.list_sort_perm, E, list_elem_of_filter.
  unfold Condition_call. cbn. rewrite Qle_bool_iff. tauto.
Qed.

(** X8. [from_mpi_omp_lists] builds one configuration for each pair of the
    product, and gives each of them as many OpenMP threads as MPI
    processes: the values of [omp_threads] are not used, only their
    number is. *)
Theorem from_mpi_omp_lists_ignores_threads (mpi omp : list Z) :
  ParalHints_len (from_mpi_omp_lists mpi omp) = (length mpi * length omp)%nat /\
  (forall c, c ∈ _confs (from_mpi_omp_lists mpi omp) ->
     Hints.omp_threads c = Hints.mpi_procs c /\ Hints.mpi_procs c ∈ mpi /\
     (efficiency c == 1)%Q /\ num_cores c = Hints.mpi_procs c * Hints.mpi_procs c) /\
  (forall omp', length omp' = length omp ->
     from_mpi_omp_lists mpi omp' = from_mpi_omp_lists mpi omp).
Proof.
  unfold from_mpi_omp_lists, ParalHints_len. cbn [_confs]. split_and!.
  - rewrite length_map. apply length_prod.
  - intros c Hc. apply list_elem_of_In, in_map_iff in Hc as ([p t] & <- & Hin).
    apply in_prod_iff in Hin as [Hp _]. unfold num_cores. cbn.
    split_and!; try reflexivity. apply list_elem_of_In, Hp.
  - intros omp' Hlen. f_equal. revert omp' Hlen.
    induction mpi as [|p ps IH]; intros omp' Hlen; [reflexivity|].
    cbn [list_prod]. rewrite !map_app, (IH _ Hlen). f_equal.
    rewrite !map_map. cbn. clear IH. revert omp' Hlen.
    induction omp as [|t ts IHt]; intros [|t' ts'] Hlen; try discriminate; [reflexivity|].
    cbn. f_equal. apply IHt. cbn in Hlen. lia.
Qed.

(** ** The theorems on the configurations of [Example] *)

Lemma SparseHistogram_partition_witness :
  exists h,
    SparseHistogram_init (_confs Example.some_hints) speedup None (Some 1%Q) = inr h /\
    concat (values h) ≡ₚ _confs Example.some_hints /\
    length (values h) = length (binvals h).
Proof.
  destruct (SparseHistogram_init (_confs Example.some_hints) speedup None (Some 1%Q))
    as [e|h] eqn:E; [vm_compute in E; discriminate E|].
  exists h. split; [reflexivity|].
  destruct (SparseHistogram_partition (_confs Example.some_hints) speedup None (Some 1%Q) h E)
    as (H1 & _ & H3 & _).
  split; [exact H1|exact H3].
Defined.

Lemma get_ordered_with_policy_ranked_witness :
  autoparal_priorities Example.policy = [PrioName "speedup"] /\
  is_ranked_name "speedup" = true /\
  exists hints,
    (get_ordered_with_policy true Example.policy 4 Example.some_hints).1 = inr hints /\
    _confs hints ≡ₚ _confs (candidate_pool Example.policy 4 Example.some_hints).1.
Proof.
  split; [reflexivity|]. split; [reflexivity|].
  destruct (get_ordered_with_policy_ranked true Example.policy 4 Example.some_hints "speedup"
              eq_refl eq_refl) as (hints & E & Hp & _).
  exists hints. split; [exact E|exact Hp].
Defined.

Lemma get_ordered_with_policy_within_ceiling_witness :
  let hints := {| info := [];
                  _confs := [Example.conf 4 (3 # 4) 0; Example.conf 2 (9 # 10) 0;
                             Example.conf 1 1 0] |} in
  (get_ordered_with_policy true Example.policy 4 Example.some_hints).1 = inr hints /\
  forall c, c ∈ _confs hints -> c ∈ _confs Example.some_hints /\ num_cores c <= 4.
Proof.
  cbv zeta. split; [reflexivity|].
  apply (get_ordered_with_policy_within_ceiling true Example.policy 4 Example.some_hints).
  reflexivity.
Defined.

Lemma get_ordered_with_policy_speedup_efficiency_witness :
  length (autoparal_priorities Example.speedup_then_efficiency) <> 1%nat /\
  Forall speedup_or_efficiency (autoparal_priorities Example.speedup_then_efficiency) /\
  _confs (within_ceiling 4 Example.some_hints) <> [] /\
  exists hints,
    (get_ordered_with_policy true Example.speedup_then_efficiency 4 Example.some_hints).1
    = inr hints /\ _confs hints <> [].
Proof.
  assert (H1 : length (autoparal_priorities Example.speedup_then_efficiency) <> 1%nat)
    by (simpl; lia).
  assert (H2 : Forall speedup_or_efficiency
                 (autoparal_priorities Example.speedup_then_efficiency)).
  { simpl. constructor; [left; reflexivity|]. constructor; [right; reflexivity|].
    constructor. }
  assert (H3 : _confs (within_ceiling 4 Example.some_hints) <> [])
    by (vm_compute; discriminate).
  split; [exact H1|]. split; [exact H2|]. split; [exact H3|].
  destruct (get_ordered_with_policy_speedup_efficiency true
              Example.speedup_then_efficiency 4 Example.some_hints H1 H2 H3)
    as (hints & E & Hne & _).
  exists hints. split; [exact E|exact Hne].
Defined.

Lemma get_ordered_with_policy_cutoff_witness :
  (exists msg, (get_ordered_with_policy false Example.cutoff_policy 4 Example.some_hints).1
               = inl (AttributeError msg)) /\
  exists hints,
    (get_ordered_with_policy true Example.cutoff_policy 4 Example.some_hints).1 = inr hints /\
    forall c, c ∈ _confs hints
              <-> c ∈ _confs (candidate_pool Example.cutoff_policy 4 Example.some_hints).1
                  /\ (8 # 10 <= efficiency c)%Q.
Proof.
  destruct (get_ordered_with_policy_cutoff Example.cutoff_policy 4 Example.some_hints
              [("meta_priority", VStr "highest_speedup_minimum_efficiency_cutoff");
               ("minimum_efficiency", VFloat (8 # 10))] eq_refl eq_refl) as [H1 H2].
  split; [exact H1|].
  destruct (H2 (8 # 10)%Q eq_refl) as (hints & E & Hm & _).
  exists hints. split; [exact E|exact Hm].
Defined.

End HintsProps.

(** * More properties of the task manager *)

Module ManagerProps.
Import Hints Manager HintsProps.

Lemma Sorted_NoDup_rising (qads : list QueueAdapter) :
  StronglySorted (ordered (fun q => inject_Z (priority q)) false) qads ->
  NoDup (map priority qads) -> rising qads.
Proof.
  induction 1 as [|q qs Hs IH Hall]; cbn [map]; intros Hnd; [constructor|].
  apply NoDup_cons in Hnd as [Hq Hnd]. constructor; [apply IH, Hnd|].
  rewrite Forall_forall in Hall |- *. intros q' Hq'.
  specialize (Hall q' Hq'). unfold ordered in Hall. rewrite <- Zle_Qle in Hall.
  assert (priority q <> priority q'); [|lia].
  intros Heq. apply Hq. rewrite Heq. apply list_elem_of_In, in_map, list_elem_of_In, Hq'.
Qed.

Lemma Z_eqb_length_size (l : list Z) :
  negb (length l =? size (list_to_set l : gset Z))%nat = false -> NoDup l.
Proof.
  intros H. apply negb_false_iff, Nat.eqb_eq in H. apply ManagerFacts.length_size_NoDup, H.
Qed.

(** X9. A manager that [TaskManager.__init__] builds starts on the first
    adapter of [_qads]; the priorities go strictly up along [_qads], hence
    that first adapter is the one with the lowest priority; every adapter
    has a positive priority and comes from an entry of [qadapters] whose
    key [enabled] is absent or false. *)
Theorem TaskManager_init_accepted (B : Backend) (kwargs : ManagerKwargs) (m : TaskManager) :
  TaskManager_init B kwargs = inr m ->
  _qadpos m = 0%nat /\ rising (_qads m) /\
  (exists q0, qadapter m = inr q0 /\ forall q, q ∈ _qads m -> priority q0 <= priority q) /\
  (forall q, q ∈ _qads m ->
     0 < priority q /\
     exists ds d, kw_qadapters kwargs = Some ds /\ d ∈ ds /\
                  default false (enabled d) = false /\ make_qadapter B d = inr q).
Proof.
  unfold TaskManager_init.
  destruct (as_policy B (default PolicyNone (kw_policy kwargs))) as [e|pol]; [discriminate|].
  destruct (kw_qadapters kwargs) as [ds|]; [|discriminate].
  destruct (build_qads B ds []) as [e|qads] eqn:Hb; [discriminate|].
  destruct qads as [|q1 qs] eqn:Hq; [discriminate|]. rewrite <- Hq in *.
  destruct (negb _) eqn:Hd; [discriminate|].
  destruct (kw_invalid kwargs); [|discriminate]. intros [= <-].
  cbn [_qadpos _qads]. unfold qadapter. cbn [_qadpos _qads].
  apply Z_eqb_length_size in Hd.
  assert (rising (sort_by_priority qads)) as Hr.
  { apply Sorted_NoDup_rising; [apply list_sort_sorted|exact Hd]. }
  assert (sort_by_priority qads ≡ₚ qads) as Hp by apply HintsFacts.list_sort_perm.
  split_and!; [reflexivity|exact Hr| |].
  - destruct (sort_by_priority qads) as [|q0 rest] eqn:Es.
    { apply Permutation_nil in Hp. congruence. }
    exists q0. split; [reflexivity|]. intros q Hin. apply elem_of_cons in Hin as [->|Hin]; [lia|].
    apply StronglySorted_inv in Hr as [_ Hall]. rewrite Forall_forall in Hall.
    specialize (Hall q Hin). lia.
  - intros q Hin. rewrite Hp in Hin.
    apply ManagerFacts.build_qads_inr in Hb as [-> _]. cbn [app] in Hin.
    apply list_elem_of_omap in Hin as (d & Hdin & Hpos).
    unfold active in Hdin. apply list_elem_of_filter in Hdin as [Hen Hdin].
    unfold positive_qad in Hpos. destruct (make_qadapter B d) as [e|q'] eqn:Hm; [discriminate|].
    destruct (Z.ltb_spec 0 (priority q')); [|discriminate]. injection Hpos as ->.
    split; [assumption|]. exists ds, d. auto.
Qed.

Lemma first_divisible_Some H qad possible pc :
  first_divisible H qad possible = inr (Some pc) -> pc ∈ possible.
Proof.
  induction possible as [|p rest IH]; cbn [first_divisible]; [discriminate|].
  destruct (py_mod _ _) as [e|r]; [discriminate|].
  destruct (r =? 0).
  - intros [= ->]. left.
  - intros Hr. right. auto.
Qed.

Lemma filter_nil_can_run H qad (pcs : list ParalConf) :
  filter (fun pc => can_run_pconf H qad pc = true) pcs = [] ->
  forall pc, pc ∈ pcs -> can_run_pconf H qad pc = false.
Proof.
  intros Hnil pc Hin. destruct (can_run_pconf H qad pc) eqn:E; [|reflexivity].
  assert (pc ∈ filter (fun pc => can_run_pconf H qad pc = true) pcs) as Hf
    by (apply list_elem_of_filter; auto).
  rewrite Hnil in Hf. apply elem_of_nil in Hf. done.
Qed.

Lemma select_by_qadapter_Some H pcs (qads : list QueueAdapter) (k pos : nat) pc :
  select_by_qadapter H pcs (zip (seq k (length qads)) qads) = inr (Some (pos, pc)) ->
  (k <= pos)%nat /\
  exists q, qads !! (pos - k)%nat = Some q /\ pc ∈ pcs /\ can_run_pconf H q pc = true /\
    forall i q', (i < pos - k)%nat -> qads !! i = Some q' ->
      forall pc', pc' ∈ pcs -> can_run_pconf H q' pc' = false.
Proof.
  revert k. induction qads as [|qad rest IH]; intros k;
    cbn [length seq zip zip_with select_by_qadapter]; [discriminate|].
  set (possible := filter (fun pc => can_run_pconf H qad pc = true) pcs).
  assert (forall p, p ∈ possible -> p ∈ pcs /\ can_run_pconf H qad p = true) as Hposs.
  { intros p Hp. apply list_elem_of_filter in Hp. tauto. }
  assert (forall p, p ∈ possible -> (pos, pc) = (k, p) ->
    (k <= pos)%nat /\
    exists q, (qad :: rest) !! (pos - k)%nat = Some q /\ pc ∈ pcs /\
      can_run_pconf H q pc = true /\
      forall i q', (i < pos - k)%nat -> (qad :: rest) !! i = Some q' ->
        forall pc', pc' ∈ pcs -> can_run_pconf H q' pc' = false) as Hhere.
  { intros p Hp [= -> ->]. rewrite Nat.sub_diag. split; [lia|].
    exists qad. destruct (Hposs _ Hp). split_and!; auto. intros i q' Hi. lia. }
  destruct (if String.eqb (allocation H qad) "nodes" then first_divisible H qad possible
            else inr None) as [e|[p|]] eqn:Ediv; [discriminate| |].
  - intros [= <- <-]. destruct (String.eqb (allocation H qad) "nodes"); [|discriminate].
    apply first_divisible_Some in Ediv. eapply Hhere; eauto.
  - destruct possible as [|p ps] eqn:Ep.
    + intros Hrec. apply IH in Hrec as (Hk & q & Hq & Hpc & Hcan & Hbefore).
      split; [lia|]. exists q. split_and!; auto.
      * replace (pos - k)%nat with (S (pos - S k)) by lia. exact Hq.
      * intros [|i] q' Hi Hl pc' Hpc'.
        -- injection Hl as <-. eapply filter_nil_can_run; eauto.
        -- cbn in Hl. eapply Hbefore; eauto. lia.
    + intros [= <- <-]. eapply Hhere; [|reflexivity]. left.
Qed.

Lemma select_by_qadapter_None H pcs (qads : list (nat * QueueAdapter)) :
  (forall i q pc, (i, q) ∈ qads -> pc ∈ pcs -> can_run_pconf H q pc = false) ->
  select_by_qadapter H pcs qads = inr None.
Proof.
  induction qads as [|[i q] rest IH]; intros Hno; cbn [select_by_qadapter]; [reflexivity|].
  assert (filter (fun pc => can_run_pconf H q pc = true) pcs = []) as ->.
  { assert (forall pc, pc ∈ pcs -> can_run_pconf H q pc = false) as Hq
      by (intros pc Hpc; apply (Hno i q pc); [left|exact Hpc]).
    clear -Hq. induction pcs as [|p ps IHp]; [reflexivity|].
    rewrite filter_cons, decide_False.
    - apply IHp. intros pc Hpc. apply Hq. right. exact Hpc.
    - rewrite Hq; [done|left]. }
  cbn [first_divisible]. destruct (String.eqb _ _); apply IH;
    intros j q' pc Hin Hpc; apply (Hno j q' pc); solve [right; exact Hin|exact Hpc].
Qed.

Lemma first_qadapter_Some H pc (qads : list QueueAdapter) (k pos : nat) :
  first_qadapter H pc (zip (seq k (length qads)) qads) = inr (Some pos) ->
  (k <= pos)%nat /\ exists q, qads !! (pos - k)%nat = Some q /\ takes H q pc.
Proof.
  revert k. induction qads as [|qad rest IH]; intros k;
    cbn [length seq zip zip_with first_qadapter]; [discriminate|].
  assert (first_qadapter H pc (zip (seq (S k) (length rest)) rest) = inr (Some pos) ->
          (k <= pos)%nat /\ exists q, (qad :: rest) !! (pos - k)%nat = Some q /\ takes H q pc)
    as Hrec.
  { intros Hr. apply IH in Hr as (Hk & q & Hq & Ht). split; [lia|]. exists q. split; [|exact Ht].
    replace (pos - k)%nat with (S (pos - S k)) by lia. exact Hq. }
  destruct (String.eqb_spec (allocation H qad) "nodes") as [Ha|Ha].
  - unfold py_mod. destruct (Z.eqb_spec (cores_per_node H qad) 0); [discriminate|].
    destruct (Z.eqb_spec (num_cores pc mod cores_per_node H qad) 0) as [Hm|Hm]; cbn [negb];
      [|exact Hrec].
    destruct (can_run_pconf H qad pc) eqn:Hc; [|exact Hrec].
    intros [= <-]. rewrite Nat.sub_diag. split; [lia|]. exists qad. split; [reflexivity|].
    split; auto.
  - destruct (can_run_pconf H qad pc) eqn:Hc; [|exact Hrec].
    intros [= <-]. rewrite Nat.sub_diag. split; [lia|]. exists qad. split; [reflexivity|].
    split; [exact Hc|]. intros Hn. done.
Qed.

Lemma first_qadapter_None H pc (qads : list (nat * QueueAdapter)) :
  first_qadapter H pc qads = inr None -> forall i q, (i, q) ∈ qads -> ~ takes H q pc.
Proof.
  induction qads as [|[j qad] rest IH]; cbn [first_qadapter]; intros Hn i q Hin;
    [apply elem_of_nil in Hin; done|].
  apply elem_of_cons in Hin. revert Hn.
  destruct (String.eqb_spec (allocation H qad) "nodes") as [Ha|Ha].
  - unfold py_mod. destruct (Z.eqb_spec (cores_per_node H qad) 0); [discriminate|].
    destruct (Z.eqb_spec (num_cores pc mod cores_per_node H qad) 0) as [Hm|Hm]; cbn [negb].
    + destruct (can_run_pconf H qad pc) eqn:Hc; [discriminate|]. intros Hn.
      destruct Hin as [[= -> ->]|Hin]; [|eauto]. intros [Ht _]. congruence.
    + intros Hn. destruct Hin as [[= -> ->]|Hin]; [|eauto]. intros [_ Ht]. auto.
  - destruct (can_run_pconf H qad pc) eqn:Hc; [discriminate|]. intros Hn.
    destruct Hin as [[= -> ->]|Hin]; [|eauto]. intros [Ht _]. congruence.
Qed.

Lemma first_qadapter_no_run H pc (qads : list (nat * QueueAdapter)) :
  (forall i q, (i, q) ∈ qads -> can_run_pconf H q pc = false /\ cores_per_node H q <> 0) ->
  first_qadapter H pc qads = inr None.
Proof.
  induction qads as [|[j qad] rest IH]; cbn [first_qadapter]; intros Hno; [reflexivity|].
  destruct (Hno j qad) as [Hc Hn]; [left|].
  unfold py_mod. destruct (Z.eqb_spec (cores_per_node H qad) 0); [done|].
  rewrite Hc.
  destruct (String.eqb _ _); [destruct (negb _)|]; apply IH; intros i q Hin;
    apply (Hno i q); right; exact Hin.
Qed.

Lemma select_by_pconf_Some H (pcs : list ParalConf) (qads : list QueueAdapter) pos pc :
  select_by_pconf H pcs (enumerate qads) = inr (Some (pos, pc)) ->
  exists l1 l2 q, pcs = l1 ++ pc :: l2 /\ qads !! pos = Some q /\ takes H q pc /\
    forall pc' q', pc' ∈ l1 -> q' ∈ qads -> ~ takes H q' pc'.
Proof.
  induction pcs as [|p rest IH]; cbn [select_by_pconf]; [discriminate|].
  destruct (first_qadapter H p (enumerate qads)) as [e|[qadpos|]] eqn:Ef; [discriminate| |].
  - intros [= <- <-]. apply first_qadapter_Some in Ef as (_ & q & Hq & Ht).
    rewrite Nat.sub_0_r in Hq. exists [], rest, q. split_and!; auto.
    intros pc' q' Hin. apply elem_of_nil in Hin. done.
  - intros Hr. apply IH in Hr as (l1 & l2 & q & -> & Hq & Ht & Hbefore).
    exists (p :: l1), l2, q. split_and!; auto.
    intros pc' q' Hin Hq'. apply elem_of_cons in Hin as [->|Hin]; [|eauto].
    apply list_elem_of_lookup in Hq' as [i Hi].
    eapply (first_qadapter_None _ _ _ Ef i).
    unfold enumerate. apply list_elem_of_lookup. exists i.
    apply lookup_zip_with_Some. exists i, q'. split_and!; [reflexivity| |exact Hi].
    apply lookup_seq. split; [reflexivity|]. eapply lookup_lt_Some, Hi.
Qed.

Lemma select_by_pconf_None H (pcs : list ParalConf) (qads : list (nat * QueueAdapter)) :
  (forall i q pc, (i, q) ∈ qads -> pc ∈ pcs ->
     can_run_pconf H q pc = false /\ cores_per_node H q <> 0) ->
  select_by_pconf H pcs qads = inr None.
Proof.
  induction pcs as [|p rest IH]; cbn [select_by_pconf]; intros Hno; [reflexivity|].
  rewrite first_qadapter_no_run.
  - apply IH. intros i q pc Hin Hpc. apply (Hno i q pc); [exact Hin|right; exact Hpc].
  - intros i q Hin. apply (Hno i q p Hin). left.
Qed.

Lemma _use_qadpos_pconf_inr H qadpos pconf m m' pc :
  _use_qadpos_pconf H qadpos pconf m = (m', inr pc) ->
  pc = pconf /\ _qadpos m' = qadpos /\ policy m' = policy m /\
  length (_qads m') = length (_qads m) /\
  forall i, i <> qadpos -> _qads m' !! i = _qads m !! i.
Proof.
  unfold _use_qadpos_pconf.
  destruct (qadapter (set_qadpos qadpos m)) as [e|q]; [discriminate|].
  destruct (set_mpi_procs H _ q) as [e|q1]; [discriminate|].
  destruct (has_omp H q1).
  - destruct (set_omp_threads H _ q1) as [e|q2]; [discriminate|].
    intros [= <- <-]. cbn [set_qadapter set_qadpos _qadpos policy _qads].
    rewrite !length_insert. split_and!; auto.
    intros i Hi. rewrite !list_lookup_insert_ne by auto. reflexivity.
  - intros [= <- <-]. cbn [set_qadapter set_qadpos _qadpos policy _qads].
    rewrite !length_insert. split_and!; auto.
    intros i Hi. rewrite !list_lookup_insert_ne by auto. reflexivity.
Qed.

(** X10. When [select_qadapter] returns a configuration, this is one of the
    ordered configurations, it uses at most [max_cores] cores and the
    adapter at the new [_qadpos] can run it. With the precedence
    [qadapter] no adapter before that position can run any of the ordered
    configurations; with [autoparal_conf] no adapter takes any of the
    configurations ordered before the one returned. *)
Theorem select_qadapter_selects (b : bool) (H : QadHooks) (pconfs : ParalHints)
  (m m' : TaskManager) (pconf : ParalConf) (lg : list LogRecord) :
  select_qadapter b H pconfs m = (m', inr pconf, lg) ->
  exists max_ncpus ordered q,
    max_cores H m = inr max_ncpus /\
    get_ordered_with_policy b (policy m) max_ncpus pconfs = (inr ordered, lg) /\
    pconf ∈ _confs ordered /\ pconf ∈ _confs pconfs /\ num_cores pconf <= max_ncpus /\
    _qads m !! _qadpos m' = Some q /\ can_run_pconf H q pconf = true /\
    (precedence (policy m) = "qadapter" ->
     forall i q', (i < _qadpos m')%nat -> _qads m !! i = Some q' ->
       forall pc, pc ∈ _confs ordered -> can_run_pconf H q' pc = false) /\
    (precedence (policy m) = "autoparal_conf" ->
     takes H q pconf /\
     exists l1 l2, _confs ordered = l1 ++ pconf :: l2 /\
       forall pc q', pc ∈ l1 -> q' ∈ _qads m -> ~ takes H q' pc).
Proof.
  unfold select_qadapter. destruct (max_cores H m) as [e|max_ncpus]; [discriminate|].
  destruct (get_ordered_with_policy b (policy m) max_ncpus pconfs) as [[e|ordered] lg0]
    eqn:Eord; [discriminate|].
  pose proof (get_ordered_with_policy_subseteq b (policy m) max_ncpus pconfs ordered) as Hsub.
  rewrite Eord in Hsub. specialize (Hsub eq_refl).
  destruct (String.eqb_spec (precedence (policy m)) "qadapter") as [Hq|Hq].
  - destruct (select_by_qadapter H (_confs ordered) (enumerate (_qads m)))
      as [e|[[qadpos pc]|]] eqn:Esel; [discriminate| |discriminate].
    intros Huse. injection Huse as Huse <-.
    apply _use_qadpos_pconf_inr in Huse as (-> & Hpos & _).
    apply select_by_qadapter_Some in Esel as (_ & q & Hl & Hin & Hcan & Hbefore).
    rewrite Nat.sub_0_r in Hl, Hbefore.
    exists max_ncpus, ordered, q. rewrite Hpos.
    destruct (Hsub _ Hin). split_and!; auto.
    intros Ha. rewrite Hq in Ha. discriminate.
  - destruct (String.eqb_spec (precedence (policy m)) "autoparal_conf") as [Ha|Ha];
      [|discriminate].
    destruct (select_by_pconf H (_confs ordered) (enumerate (_qads m)))
      as [e|[[qadpos pc]|]] eqn:Esel; [discriminate| |discriminate].
    intros Huse. injection Huse as Huse <-.
    apply _use_qadpos_pconf_inr in Huse as (-> & Hpos & _).
    apply select_by_pconf_Some in Esel as (l1 & l2 & q & Hl & Hq' & Ht & Hbefore).
    exists max_ncpus, ordered, q. rewrite Hpos.
    assert (pc ∈ _confs ordered) as Hin.
    { rewrite Hl. apply elem_of_app. right. left. }
    destruct (Hsub _ Hin). destruct Ht as [Hcan Hdiv].
    split_and!; auto; [done|]. intros _. split; [split; assumption|]. eauto.
Qed.

(** X11. When no adapter can run any of the ordered configurations,
    [select_qadapter] raises [RuntimeError] and leaves the manager as it
    was. *)
Theorem select_qadapter_no_adapter (b : bool) (H : QadHooks) (pconfs : ParalHints)
  (m : TaskManager) (max_ncpus : Z) (ordered : ParalHints) (lg : list LogRecord) :
  max_cores H m = inr max_ncpus ->
  get_ordered_with_policy b (policy m) max_ncpus pconfs = (inr ordered, lg) ->
  precedence (policy m) = "qadapter" \/ precedence (policy m) = "autoparal_conf" ->
  (forall q pc, q ∈ _qads m -> pc ∈ _confs ordered ->
     can_run_pconf H q pc = false /\ cores_per_node H q <> 0) ->
  select_qadapter b H pconfs m
  = (m, inl (RuntimeError "Cannot find qadapter for this run!"), lg).
Proof.
  intros Hmax Hord Hprec Hno. unfold select_qadapter. rewrite Hmax, Hord.
  assert (forall i q pc, (i, q) ∈ enumerate (_qads m) -> pc ∈ _confs ordered ->
            can_run_pconf H q pc = false /\ cores_per_node H q <> 0) as Hno'.
  { intros i q pc Hin. apply Hno. unfold enumerate in Hin.
    apply list_elem_of_lookup in Hin as [j Hj].
    apply lookup_zip_with_Some in Hj as (x & y & [= -> ->] & _ & Hy).
    eapply list_elem_of_lookup; eauto. }
  destruct Hprec as [-> | ->]; cbn.
  - rewrite select_by_qadapter_None; [reflexivity|].
    intros i q pc Hin Hpc. eapply Hno'; eauto.
  - rewrite select_by_pconf_None; [reflexivity|exact Hno'].
Qed.

(** ** The theorems on the managers of [Example] *)

Lemma TaskManager_init_accepted_witness :
  exists m,
    TaskManager_init Example.backend Example.accepted_kwargs = inr m /\
    _qads m = [Example.shell_adapter 1; Example.shell_adapter 2] /\
    _qadpos m = 0%nat /\ rising (_qads m).
Proof.
  destruct (TaskManager_init Example.backend Example.accepted_kwargs) as [e|m] eqn:E;
    [vm_compute in E; discriminate E|].
  exists m. split; [reflexivity|].
  destruct (TaskManager_init_accepted Example.backend Example.accepted_kwargs m E)
    as (H1 & H2 & _).
  split; [|split; [exact H1|exact H2]].
  vm_compute in E. injection E as <-. reflexivity.
Defined.

Lemma select_qadapter_selects_witness :
  exists m' lg,
    select_qadapter true (Example.hooks 2) Example.some_hints Example.manager
    = (m', inr (Example.conf 2 (9 # 10) 0), lg) /\
    exists q, _qads Example.manager !! _qadpos m' = Some q /\
              can_run_pconf (Example.hooks 2) q (Example.conf 2 (9 # 10) 0) = true.
Proof.
  destruct (select_qadapter true (Example.hooks 2) Example.some_hints Example.manager)
    as [[m' r] lg] eqn:E.
  assert (r = inr (Example.conf 2 (9 # 10) 0)) as ->
    by (vm_compute in E; injection E as _ <- _; reflexivity).
  exists m', lg. split; [reflexivity|].
  destruct (select_qadapter_selects true (Example.hooks 2) Example.some_hints
              Example.manager m' (Example.conf 2 (9 # 10) 0) lg E)
    as (max_ncpus & ordered & q & _ & _ & _ & _ & _ & Hq & Hrun & _).
  exists q. split; [exact Hq|exact Hrun].
Defined.

Lemma select_qadapter_no_adapter_witness :
  let ordered := {| info := [];
                    _confs := [Example.conf 4 (3 # 4) 0; Example.conf 2 (9 # 10) 0;
                               Example.conf 1 1 0] |} in
  max_cores (Example.hooks 0) Example.manager = inr 4 /\
  get_ordered_with_policy true (policy Example.manager) 4 Example.some_hints
  = (inr ordered, []) /\
  select_qadapter true (Example.hooks 0) Example.some_hints Example.manager
  = (Example.manager, inl (RuntimeError "Cannot find qadapter for this run!"), []).
Proof.
  cbv zeta. split; [reflexivity|]. split; [reflexivity|].
  apply (select_qadapter_no_adapter true (Example.hooks 0) Example.some_hints
           Example.manager 4
           {| info := [];
              _confs := [Example.conf 4 (3 # 4) 0; Example.conf 2 (9 # 10) 0;
                         Example.conf 1 1 0] |} []).
  - reflexivity.
  - reflexivity.
  - right. reflexivity.
  - intros q pc _ Hpc. split; [|discriminate].
    simpl in Hpc.
    repeat (apply elem_of_cons in Hpc; destruct Hpc as [->|Hpc]; [reflexivity|]).
    inversion Hpc.
Defined.

End ManagerProps.

(** * Properties of [abi_splitext] *)

Module UtilsProps.
Import Utils.

Lemma slice_from_0 (s : string) : slice_from 0 s = s.
Proof.
  unfold slice_from. rewrite Nat.sub_0_r. induction s as [|c s IH]; [reflexivity|].
  cbn. rewrite IH. reflexivity.
Qed.

Lemma slice_from_S (i : nat) (c : Ascii.ascii) (s : string) :
  slice_from (S i) (String c s) = slice_from i s.
Proof. reflexivity. Qed.

Lemma substring_split (i : nat) (s : string) :
  (i <= String.length s)%nat -> String.substring 0 i s +:+ slice_from i s = s.
Proof.
  revert i. induction s as [|c s IH]; intros [|i] Hi; cbn in Hi; try lia.
  - reflexivity.
  - rewrite slice_from_0. reflexivity.
  - rewrite slice_from_S. cbn [String.substring].
    change (String c (String.substring 0 i s +:+ slice_from i s) = String c s).
    f_equal. apply IH. lia.
Qed.

Lemma length_slice_from (i : nat) (s : string) :
  String.length (slice_from i s) = (String.length s - i)%nat.
Proof.
  revert i. induction s as [|c s IH]; intros [|i].
  - reflexivity.
  - reflexivity.
  - rewrite slice_from_0. reflexivity.
  - rewrite slice_from_S, IH. reflexivity.
Qed.

Lemma slice_slice (i k : nat) (s : string) :
  slice_from k (slice_from i s) = slice_from (i + k) s.
Proof.
  revert i. induction s as [|c s IH]; intros [|i].
  - rewrite slice_from_0. reflexivity.
  - destruct k; reflexivity.
  - rewrite slice_from_0. reflexivity.
  - rewrite slice_from_S. cbn [Nat.add]. rewrite slice_from_S. apply IH.
Qed.

Lemma length_append (a b : string) :
  String.length (a +:+ b) = (String.length a + String.length b)%nat.
Proof.
  induction a as [|c a IH]; [reflexivity|].
  change (S (String.length (a +:+ b)) = S (String.length a + String.length b)).
  rewrite IH. reflexivity.
Qed.

Lemma slice_from_app (a b : string) : slice_from (String.length a) (a +:+ b) = b.
Proof.
  induction a as [|c a IH]; cbn [String.length].
  - apply slice_from_0.
  - change (slice_from (S (String.length a)) (String c (a +:+ b)) = b).
    rewrite slice_from_S. exact IH.
Qed.

Lemma endswith_strip (suffix s : string) :
  endswith suffix s = true ->
  s = String.substring 0 (String.length s - String.length suffix) s +:+ suffix.
Proof.
  unfold endswith. rewrite andb_true_iff, Nat.leb_le, String.eqb_eq. intros [Hlen Heq].
  rewrite <- (substring_split (String.length s - String.length suffix) s) at 1 by lia.
  f_equal. unfold slice_from.
  replace (String.length s - (String.length s - String.length suffix))%nat
    with (String.length suffix) by lia.
  exact Heq.
Qed.

Lemma endswith_app (a suffix : string) : endswith suffix (a +:+ suffix) = true.
Proof.
  unfold endswith. rewrite andb_true_iff, Nat.leb_le, String.eqb_eq.
  rewrite length_append. split; [lia|].
  replace (String.length a + String.length suffix - String.length suffix)%nat
    with (String.length a) by lia.
  pose proof (slice_from_app a suffix) as Hs. unfold slice_from in Hs.
  rewrite length_append in Hs.
  replace (String.length a + String.length suffix - String.length a)%nat
    with (String.length suffix) in Hs by lia.
  exact Hs.
Qed.

Lemma search_ext_Some (s : string) (i j : nat) :
  search_ext s i = Some j ->
  (j <= i)%nat /\ slice_from j s ∈ abi_extensions /\
  forall k, (j < k <= i)%nat -> slice_from k s ∉ abi_extensions.
Proof.
  induction i as [|i IH]; cbn [search_ext]; case_bool_decide as Hd.
  - intros [= <-]. split_and!; [lia|exact Hd|]. intros k Hk. lia.
  - discriminate.
  - intros [= <-]. split_and!; [lia|exact Hd|]. intros k Hk. lia.
  - intros Hs. apply IH in Hs as (H1 & H2 & H3). split_and!; [lia|exact H2|].
    intros k Hk. destruct (decide (k = S i)) as [->|Hne]; [exact Hd|]. apply H3. lia.
Qed.

Lemma abi_splitext_inr (filename root ext : string) :
  abi_splitext filename = inr (root, ext) ->
  exists e, e ∈ abi_extensions /\ shortest e /\
    ((endswith ".nc" (os_path_basename filename) = false /\ ext = e /\
      os_path_basename filename = root +:+ e) \/
     (endswith ".nc" (os_path_basename filename) = true /\ ext = e +:+ ".nc" /\
      os_path_basename filename = root +:+ e +:+ ".nc")).
Proof.
  unfold abi_splitext. set (base := os_path_basename filename).
  set (stem := if endswith ".nc" base
               then String.substring 0 (String.length base - 3) base else base).
  destruct (match String.length stem with O => None | S last => search_ext stem last end)
    as [i|] eqn:Es; [|discriminate].
  assert (exists last, String.length stem = S last /\ search_ext stem last = Some i)
    as (last & Hlen & Hs).
  { destruct (String.length stem); [discriminate|eauto]. }
  apply search_ext_Some in Hs as (Hi & Hin & Hmin).
  intros [= <- <-]. exists (slice_from i stem). split_and!; [exact Hin| |].
  - intros k Hk. rewrite length_slice_from in Hk. rewrite slice_slice. apply Hmin. lia.
  - assert (String.substring 0 i stem +:+ slice_from i stem = stem) as Hsplit
      by (apply substring_split; lia).
    subst stem. destruct (endswith ".nc" base) eqn:Enc.
    + right. split_and!; [reflexivity|reflexivity|].
      rewrite <- TasksFacts.append_assoc, Hsplit. exact (endswith_strip ".nc" base Enc).
    + left. split_and!; [reflexivity|reflexivity|]. symmetry. exact Hsplit.
Qed.

(** X12. [abi_splitext] splits the base name of the file: root and
    extension put together give the base name back; the extension is a
    registered one, followed by [.nc] exactly when the name ends with
    [.nc]; and it is the shortest registered extension that ends the
    name. *)
Theorem abi_splitext_splits (filename root ext : string) :
  abi_splitext filename = inr (root, ext) ->
  root +:+ ext = os_path_basename filename /\
  exists e, e ∈ abi_extensions /\ shortest e /\
    (ext = e /\ endswith ".nc" (os_path_basename filename) = false \/
     ext = e +:+ ".nc" /\ endswith ".nc" (os_path_basename filename) = true).
Proof.
  intros H. apply abi_splitext_inr in H as (e & He & Hs & [(Hn & -> & Hb)|(Hn & -> & Hb)]).
  - split; [auto|]. exists e. auto.
  - split; [auto|]. exists e. auto.
Qed.

Lemma shortest_DEN (c : Ascii.ascii) : ~ shortest (String c "DEN").
Proof.
  intros Hs. apply (Hs 1%nat); [cbn; lia|]. rewrite slice_from_S, slice_from_0.
  apply (bool_decide_unpack ("DEN" ∈ abi_extensions)). reflexivity.
Qed.

Lemma endswith_append (suffix a e : string) :
  endswith suffix e = true -> endswith suffix (a +:+ e) = true.
Proof.
  intros He. apply endswith_strip in He. rewrite He, <- TasksFacts.append_assoc. apply endswith_app.
Qed.

(** X13. [abi_splitext] never returns the extensions [1DEN], [KDEN],
    [EFMAS.nc] and [KERANGE.nc], although they are registered: [DEN] ends
    the first two, and the final [.nc] is cut before the search. *)
Theorem abi_splitext_never (filename root ext : string) :
  abi_splitext filename = inr (root, ext) -> ext ∉ never_split.
Proof.
  intros H Hin. apply abi_splitext_inr in H as (e & He & Hs & Hcase).
  unfold abi_extensions in He. unfold never_split in Hin.
  destruct Hcase as [(Hn & -> & Hb)|(Hn & -> & Hb)].
  - rewrite Hb in Hn.
    repeat (apply elem_of_cons in Hin as [->|Hin]);
      try (apply elem_of_nil in Hin; done);
      try (exact (shortest_DEN _ Hs));
      try (rewrite endswith_append in Hn by reflexivity; discriminate Hn);
      pose proof (bool_decide_eq_true_2 _ He) as Hd; vm_compute in Hd; discriminate Hd.
  - repeat (apply elem_of_cons in He as [->|He]);
      try (apply elem_of_nil in He; done);
      try (exact (shortest_DEN _ Hs));
      repeat (apply elem_of_cons in Hin as [Hin|Hin]);
      try (apply elem_of_nil in Hin; done);
      cbv in Hin; discriminate Hin.
Qed.

(** ** The theorems on the file names of the documentation *)

Lemma abi_splitext_splits_witness :
  abi_splitext "/home/guido/foo_bar_WFK.nc" = inr ("foo_bar_", "WFK.nc") /\
  "foo_bar_" +:+ "WFK.nc" = os_path_basename "/home/guido/foo_bar_WFK.nc".
Proof.
  split; [reflexivity|].
  apply (abi_splitext_splits "/home/guido/foo_bar_WFK.nc" "foo_bar_" "WFK.nc").
  reflexivity.
Defined.

Lemma abi_splitext_never_witness :
  abi_splitext "out_1DEN" = inr ("out_1", "DEN") /\ "DEN" ∉ never_split.
Proof.
  split; [reflexivity|].
  apply (abi_splitext_never "out_1DEN" "out_1" "DEN"). reflexivity.
Defined.

End UtilsProps.

(** * More properties of the tasks *)

Module TasksProps.
Import Hints Manager Fs Tasks TasksFacts.

(** ** The output files and the dates *)

Lemma fix_paths_loop_nil (W : World) (paths : list Path) :
  fix_paths_loop W paths [] [] = inr [] \/
  exists p newpath ext,
    p ∈ paths /\ _fix_path W p = Some (newpath, ext) /\ ext <> "1WF" /\
    fix_paths_loop W paths [] [] = inl (ValueError ("Unknown extension " +:+ ext)).
Proof.
  induction paths as [|path rest IH]; cbn [fix_paths_loop]; [left; reflexivity|].
  destruct (_fix_path W path) as [[newpath ext]|] eqn:E.
  - rewrite bool_decide_eq_true_2 by apply not_elem_of_nil.
    destruct (String.eqb_spec ext "1WF") as [->|Hne].
    + destruct IH as [IH|(p & n & e & Hp & Hf & Hne & IH)]; [left; exact IH|].
      right. exists p, n, e. split_and!; auto. right. exact Hp.
    + right. exists path, newpath, ext. split_and!; auto. left.
  - destruct IH as [IH|(p & n & e & Hp & Hf & Hne & IH)]; [left; exact IH|].
    right. exists p, n, e. split_and!; auto. right. exact Hp.
Qed.

(** X14. As [fixed_exts] is never filled, [FilepathFixer.fix_paths] renames
    nothing: it returns an empty dictionary, or raises [ValueError] on a
    file whose extension is not [1WF]. Hence [fix_ofiles] never changes
    the task or its files. *)
Theorem fix_paths_never_renames (W : World) :
  (forall paths,
     fix_paths W paths = inr [] \/
     exists p newpath ext,
       p ∈ paths /\ _fix_path W p = Some (newpath, ext) /\ ext <> "1WF" /\
       fix_paths W paths = inl (ValueError ("Unknown extension " +:+ ext))) /\
  (forall t, (fix_ofiles W t).1 = t).
Proof.
  split; [intros paths; apply fix_paths_loop_nil|].
  intros t. unfold fix_ofiles, mbind, M_bind, get, lift. cbn beta iota.
  destruct (list_filepaths (fs t) (outdir t)) as [e|filepaths]; [reflexivity|].
  unfold fix_paths. destruct (fix_paths_loop_nil W filepaths) as [->|(p & n & e & _ & _ & _ & ->)];
    reflexivity.
Qed.

(** X15. The dates that [set_status] writes on a task that is not locked.
    [S_RUN] sets [start] only when it has no value yet, so that the
    start of the first run is kept; [S_SUB] sets [submission] to the
    present time unless the task was already in [S_SUB]; neither of them
    touches the other date. *)
Theorem set_status_dates (W : World) (msg : string) (t : Task) :
  _status t <> S_LOCKED ->
  start (datetimes (set_status W S_RUN msg t).1)
  = Some (default (now W) (start (datetimes t))) /\
  submission (datetimes (set_status W S_RUN msg t).1) = submission (datetimes t) /\
  submission (datetimes (set_status W S_SUB msg t).1)
  = (if status_eqb (_status t) S_SUB then submission (datetimes t) else Some (now W)) /\
  start (datetimes (set_status W S_SUB msg t).1) = start (datetimes t).
Proof.
  intros Ht. unfold set_status, mbind, M_bind, get, lift. cbn [arg_is as_status]. cbn beta iota.
  replace (status_eqb (_status t) S_LOCKED) with false
    by (symmetry; by apply status_eqb_false).
  eval_status_tests. cbn [orb].
  unfold modify, history_log, modify. cbn.
  assert (status_eqb S_SUB (_status t) = status_eqb (_status t) S_SUB) as ->.
  { unfold status_eqb. apply bool_decide_ext. split; congruence. }
  destruct (start (datetimes t)) eqn:Es; destruct (status_eqb S_RUN (_status t));
    destruct (status_eqb (_status t) S_SUB); cbn; rewrite ?Es; split_and!; reflexivity.
Qed.

Lemma check_status_no_files (W : World) (t : Task) :
  returncode_nonzero t = false ->
  exists_ (fs t) (mpiabort_file t) = false ->
  exists_ (fs t) (output_file t) = false ->
  exists_ (fs t) (stderr_file t) = false ->
  exists_ (fs t) (qerr_file t) = false ->
  check_status W t = (t, inr (_status t)).
Proof.
  intros Hrc Hab Hout Herr Hqerr.
  unfold check_status. unfold mbind at 1, M_bind at 1, get at 1. cbn beta iota.
  rewrite Hrc, Hab.
  unfold mbind at 1, M_bind at 1. rewrite read_if_not_empty_eq.
  unfold mbind at 1, M_bind at 1. rewrite read_if_not_empty_eq.
  unfold mbind at 1, M_bind at 1. rewrite read_if_not_empty_eq.
  rewrite Hout. unfold mbind, M_bind, mret, M_ret, get. cbn beta iota.
  rewrite Hout, Herr, Hqerr. reflexivity.
Qed.

(** X16. The order of the tests of [check_status] on a task that is not
    locked. A return code that is not zero gives [S_QCRITICAL] whatever
    the files say; with a zero return code the file of [MPI_ABORT] gives
    [S_ABICRITICAL] before any event is read, and [abi_errors] is left
    as it was; with none of the abort, output, stderr and queue error
    files the status is returned as it is and the task is not touched. *)
Theorem check_status_precedence (W : World) (t : Task) :
  _status t <> S_LOCKED ->
  (returncode_nonzero t = true ->
   (check_status W t).2 = inr S_QCRITICAL /\ _status (check_status W t).1 = S_QCRITICAL /\
   fs (check_status W t).1 = fs t) /\
  (returncode_nonzero t = false -> exists_ (fs t) (mpiabort_file t) = true ->
   (check_status W t).2 = inr S_ABICRITICAL /\
   _status (check_status W t).1 = S_ABICRITICAL /\
   fs (check_status W t).1 = fs t /\ abi_errors (check_status W t).1 = abi_errors t) /\
  (returncode_nonzero t = false ->
   exists_ (fs t) (mpiabort_file t) = false ->
   exists_ (fs t) (output_file t) = false ->
   exists_ (fs t) (stderr_file t) = false ->
   exists_ (fs t) (qerr_file t) = false ->
   check_status W t = (t, inr (_status t))).
Proof.
  intros Ht. split_and!.
  - intros Hrc. unfold check_status, mbind, M_bind, get. cbn beta iota. rewrite Hrc.
    rewrite set_status_plain; [|reflexivity|exact Ht].
    destruct (status_eqb S_QCRITICAL (_status t)); split_and!; reflexivity.
  - intros Hrc Hab. unfold check_status, mbind, M_bind, get. cbn beta iota.
    rewrite Hrc, Hab. rewrite set_status_plain; [|reflexivity|exact Ht].
    destruct (status_eqb S_ABICRITICAL (_status t)); split_and!; reflexivity.
  - apply check_status_no_files.
Qed.








Lemma record_abi_errors_runs (W : World) (errs : list AbinitEvent) (t : Task) :
  exists t', record_abi_errors W errs t = (t', inr tt) /\
    _status t' = _status t /\ abi_errors t' = abi_errors t ++ errs /\
    fs t' = fs t /\ finalized t' = finalized t /\ on_ok_calls t' = on_ok_calls t /\
    workdir t' = workdir t.
Proof.
  revert t. induction errs as [|e rest IH]; intros t; cbn [record_abi_errors].
  - exists t. rewrite app_nil_r. split_and!; reflexivity.
  - unfold mbind, M_bind, history_log, modify. cbn beta iota.
    destruct (IH (with_abi_errors
                    (abi_errors (with_history (history t ++ [(DEBUG, str_of_event W e)]) t)
                     ++ [e])
                    (with_history (history t ++ [(DEBUG, str_of_event W e)]) t)))
      as (t' & -> & H1 & H2 & H3 & H4 & H5 & H6).
    exists t'. cbn in *. rewrite H1, H2, H3, H4, H5, H6, <- app_assoc.
    split_and!; reflexivity.
Qed.

Lemma check_status_of_errors (W : World) (t : Task) (text : string) (mtime : Q)
  (report : EventReport) :
  returncode_nonzero t = false ->
  exists_ (fs t) (mpiabort_file t) = false ->
  exists_ (fs t) (output_file t) = true ->
  fs t !! log_file t = Some (RegularFile text mtime) ->
  parse_events W text = inr report ->
  run_completed report = false ->
  errors report <> [] ->
  exists t1,
    check_status W t
    = set_status W S_ABICRITICAL (join_lines (map (repr_of_event W) (errors report))) t1 /\
    _status t1 = _status t /\ abi_errors t1 = abi_errors t ++ errors report /\
    fs t1 = fs t.
Proof.
  intros Hrc Hab Hex Hlog Hparse Hrun Herr.
  unfold check_status. unfold mbind at 1, M_bind at 1, get at 1. cbn beta iota.
  rewrite Hrc, Hab.
  unfold mbind at 1, M_bind at 1. rewrite read_if_not_empty_eq.
  unfold mbind at 1, M_bind at 1. rewrite read_if_not_empty_eq.
  unfold mbind at 1, M_bind at 1. rewrite read_if_not_empty_eq.
  rewrite Hex.
  unfold mbind at 1, M_bind at 1.
  unfold check_output, try_except. unfold mbind at 1, M_bind at 1.
  unfold fmap at 1, M_fmap at 1.
  rewrite (get_event_report_of_log W t text mtime report Hab Hlog Hparse).
  cbn beta iota. rewrite Hrun.
  destruct (errors report) as [|ev evs] eqn:Ee; [done|]. rewrite <- Ee. clear Herr.
  unfold mbind at 1, M_bind at 1, history_log at 1, modify at 1. cbn beta iota.
  unfold mbind at 1, M_bind at 1.
  destruct (record_abi_errors_runs W (errors report)
              (with_history (history t ++ [(DEBUG, "Found errors in report")]) t))
    as (t1 & -> & H1 & H2 & H3 & _).
  cbn [_status abi_errors fs with_history] in H1, H2, H3.
  unfold mbind at 1, M_bind at 1, get at 1. cbn beta iota.
  unfold mbind at 1, M_bind at 1, history_log at 1, modify at 1. cbn beta iota.
  unfold fmap, M_fmap.
  exists (with_history
            (history t1 ++ [(DEBUG, str_of_task W t1
                                    +:+ ": Found Errors or Bugs in ABINIT main output!")])
            t1).
  split.
  - destruct (set_status W S_ABICRITICAL _ _) as [t' [e|s]]; reflexivity.
  - cbn. auto.
Qed.

(** X18. A run that is not completed and whose log holds errors:
    [check_status] appends the errors of the report to [abi_errors] and
    gives [S_ABICRITICAL], without looking at the stderr and queue files
    and without touching the file system. *)
Theorem check_status_abinit_errors (W : World) (t : Task) (text : string) (mtime : Q)
  (report : EventReport) :
  _status t <> S_LOCKED ->
  returncode_nonzero t = false ->
  exists_ (fs t) (mpiabort_file t) = false ->
  exists_ (fs t) (output_file t) = true ->
  fs t !! log_file t = Some (RegularFile text mtime) ->
  parse_events W text = inr report ->
  run_completed report = false ->
  errors report <> [] ->
  (check_status W t).2 = inr S_ABICRITICAL /\
  _status (check_status W t).1 = S_ABICRITICAL /\
  abi_errors (check_status W t).1 = abi_errors t ++ errors report /\
  fs (check_status W t).1 = fs t.
Proof.
  intros Ht Hrc Hab Hex Hlog Hparse Hrun Herr.
  destruct (check_status_of_errors W t text mtime report Hrc Hab Hex Hlog Hparse Hrun Herr)
    as (t1 & -> & H1 & H2 & H3).
  rewrite set_status_plain; [|reflexivity|rewrite H1; exact Ht].
  destruct (status_eqb S_ABICRITICAL _); cbn; rewrite H2, H3; split_and!; reflexivity.
Qed.

Lemma parse_file_frame (W : World) (p : Path) (t : Task) : (parse_file W p t).1 = t.
Proof.
  unfold parse_file, mbind, M_bind, get, lift. cbn beta iota.
  destruct (read (fs t) p); reflexivity.
Qed.

(** X19. With a log file and a task that is not locked
    [get_event_report] always returns a report. When the parser raises,
    the exception is caught: the report is the one built from the
    exception and the task goes to [S_ABICRITICAL]; otherwise status and
    [abi_errors] are unchanged. *)
Theorem get_event_report_never_raises (W : World) (t : Task) :
  _status t <> S_LOCKED -> exists_ (fs t) (log_file t) = true ->
  exists t' report, get_event_report W t = (t', inr (Some report)) /\
    ((_status t' = _status t /\ abi_errors t' = abi_errors t) \/
     (_status t' = S_ABICRITICAL /\ exists exc, report = report_exception W exc)).
Proof.
  intros Ht Hlog. unfold get_event_report. unfold mbind at 1, M_bind at 1, get at 1.
  cbn beta iota. rewrite Hlog. cbn [negb]. unfold try_except.
  set (body := (report ← parse_file W (log_file t); _) : M (option EventReport)).
  assert (exists t1 res, body t = (t1, res) /\
            _status t1 = _status t /\ abi_errors t1 = abi_errors t /\
            forall r, res = inr r -> exists report, r = Some report)
    as (t1 & res & Hbody & Hs & Ha & Hr).
  { subst body. unfold mbind at 1, M_bind at 1.
    pose proof (parse_file_frame W (log_file t) t) as Hf.
    destruct (parse_file W (log_file t) t) as [t1 [e|report]]; cbn [fst] in Hf; subst t1.
    { eexists _, _. split_and!; [reflexivity|reflexivity|reflexivity|discriminate]. }
    unfold mbind at 1, M_bind at 1, get at 1. cbn beta iota.
    destruct (exists_ (fs t) (mpiabort_file t)).
    - unfold mbind at 1, M_bind at 1, history_log at 1, modify at 1. cbn beta iota.
      unfold mbind at 1, M_bind at 1.
      set (t1 := with_history _ t).
      pose proof (parse_file_frame W (mpiabort_file t) t1) as Hf.
      destruct (parse_file W (mpiabort_file t) t1) as [t2 [e|abort_report]];
        cbn [fst] in Hf; subst t2.
      { eexists _, _. split_and!; [reflexivity|reflexivity|reflexivity|discriminate]. }
      unfold mbind, M_bind, when, history_log, modify, mret, M_ret, raise.
      destruct (negb _); cbn beta iota;
        destruct (last (report_events abort_report)); cbn;
        eexists _, _; (split_and!; [reflexivity|reflexivity|reflexivity|]);
        intros r [= <-]; eauto.
    - eexists _, _. split_and!; [reflexivity|reflexivity|reflexivity|].
      intros r [= <-]. eauto. }
  rewrite Hbody. destruct res as [exc|r].
  - unfold mbind, M_bind.
    rewrite set_status_plain; [|reflexivity|rewrite Hs; exact Ht].
    cbn. eexists _, _. split; [reflexivity|]. right.
    destruct (status_eqb S_ABICRITICAL (_status t1)); cbn; eauto.
  - destruct (Hr r eq_refl) as [report ->]. exists t1, report. split; [reflexivity|].
    left. auto.
Qed.

(** ** [check_status] runs to its end *)

Section Total.
Context {A : Type}.







End Total.















(** ** [reset_from_scratch] and the counter of resets *)

Lemma int_of_str_of_Z (n : Z) : int_of_str (str_of_Z n) = Some n.
Proof.
  unfold int_of_str, str_of_Z. rewrite NilZero.isi.
  - cbn. f_equal. apply DecimalZ.of_to.
  - destruct n; cbn; try discriminate.
    intros [= H]. revert H. apply DecimalPos.Unsigned.to_uint_nonnil.
  - destruct n; cbn; try discriminate.
    intros [= H]. revert H. apply DecimalPos.Unsigned.to_uint_nonnil.
Qed.

Lemma remove_lookup_ne (fs : FS) (p q : Path) : p <> q -> remove fs p !! q = fs !! q.
Proof.
  intros Hne. unfold remove. destruct (isfile fs p); [|reflexivity].
  apply lookup_delete_ne. exact Hne.
Qed.

Lemma isfile_remove (fs : FS) (p : Path) : isfile (remove fs p) p = false.
Proof.
  unfold remove. destruct (isfile fs p) eqn:E; [|exact E].
  unfold isfile. rewrite lookup_delete_eq. reflexivity.
Qed.

Lemma move_file_runs (W : World) (d : Path) (n : Z) (f : Path) (t : Task) :
  exists t', move_file W d n f t = (t', inr tt) /\
    workdir t' = workdir t /\ _status t' = _status t.
Proof.
  unfold move_file, mbind, M_bind, get. cbn beta iota.
  destruct (negb (exists_ (fs t) f)); [exists t; auto|].
  destruct (move (fs t) f _); eexists; split_and!; reflexivity.
Qed.

Lemma move_files_runs (W : World) (d : Path) (n : Z) (files : list Path) (t : Task) :
  exists t', move_files W d n files t = (t', inr tt) /\
    workdir t' = workdir t /\ _status t' = _status t.
Proof.
  revert t. induction files as [|f rest IH]; intros t; cbn [move_files].
  - exists t. auto.
  - destruct (move_file_runs W d n f t) as (t1 & E1 & H1 & H2).
    destruct (IH t1) as (t2 & E2 & H3 & H4).
    exists t2. split_and!; [|congruence|congruence].
    unfold mbind, M_bind. rewrite E1. exact E2.
Qed.

Lemma dirname_join (d : Path) (name : string) : dirname (join d name) = d.
Proof. unfold dirname, join. apply removelast_last. Qed.

Lemma join_ne (d : Path) (a b : string) : a <> b -> join d a <> join d b.
Proof. unfold join. intros Hne E. apply app_inv_head in E. congruence. Qed.

Lemma join_join_ne (d : Path) (a b c : string) : join (join d a) b <> join d c.
Proof.
  unfold join. intros E. apply (f_equal length) in E. rewrite !length_app in E. cbn in E. lia.
Qed.

Lemma join_self_ne (d : Path) (a : string) : join d a <> d.
Proof.
  unfold join. intros E. apply (f_equal length) in E. rewrite !length_app in E. cbn in E. lia.
Qed.

(** X21. A [reset_from_scratch] that returns, from a task that is not
    locked, returns 0 and writes the next number of the reset in
    [_reset/_counter]: 1 for the first reset, one more than the number
    found there afterwards, so that the following reset reads it back
    and goes one further. The working directory is the same and the
    lock file of the start is gone. *)
Theorem reset_from_scratch_counts (W : World) (t t' : Task) (z : Z) :
  _status t <> S_LOCKED -> reset_from_scratch W t = (t', inr z) ->
  let reset_dir := join (workdir t) "_reset" in
  exists n,
    next_reset t = Some n /\
    read (fs t') (join reset_dir "_counter") = inr (str_of_Z n) /\
    next_reset t' = Some (1 + n) /\
    z = 0 /\ workdir t' = workdir t /\
    isfile (fs t') (start_lockfile t) = false.
Proof.
  intros Ht H reset_dir. unfold reset_from_scratch in H.
  unfold mbind at 1, M_bind at 1, get at 1 in H. cbn beta iota in H.
  fold reset_dir in H. unfold mbind at 1, M_bind at 1 in H.
  set (num_reset := (if negb (exists_ (fs t) reset_dir) then _ else _) : M Z) in H.
  assert (exists t1 r, num_reset t = (t1, r) /\ workdir t1 = workdir t /\
            _status t1 = _status t /\
            forall n, r = inr n -> next_reset t = Some n) as (t1 & r & E1 & Hw1 & Hs1 & Hn).
  { subst num_reset. unfold next_reset. fold reset_dir.
    destruct (exists_ (fs t) reset_dir); cbn [negb].
    - unfold mbind, M_bind, lift. destruct (read (fs t) (join reset_dir "_counter")) as [e|text].
      + eexists _, _. split_and!; [reflexivity|reflexivity|reflexivity|discriminate].
      + destruct (int_of_str text) as [prev|]; eexists _, _;
          (split_and!; [reflexivity|reflexivity|reflexivity|]).
        * intros n [= <-]. reflexivity.
        * discriminate.
    - unfold mbind, M_bind, lift, modify. destruct (mkdir (fs t) reset_dir) as [e|fs'];
        eexists _, _; (split_and!; [reflexivity|reflexivity|reflexivity|]).
      + discriminate.
      + intros n [= <-]. reflexivity. }
  rewrite E1 in H. destruct r as [e|n]; [discriminate|]. specialize (Hn n eq_refl).
  unfold mbind at 1, M_bind at 1 in H.
  destruct (move_files_runs W reset_dir n
              [output_file t; log_file t; stderr_file t; qout_file t; qerr_file t] t1)
    as (t2 & E2 & Hw2 & Hs2).
  rewrite E2 in H.
  unfold mbind at 1, M_bind at 1, get at 1 in H. cbn beta iota in H.
  unfold mbind at 1, M_bind at 1, lift at 1 in H.
  unfold write_text in H.
  destruct (isdir (fs t2) (join reset_dir "_counter")); [discriminate|].
  rewrite dirname_join in H.
  destruct (isdir (fs t2) reset_dir) eqn:Hdir; [|discriminate].
  unfold mbind at 1, M_bind at 1, modify at 1 in H. cbn beta iota in H.
  unfold mbind at 1, M_bind at 1, modify at 1 in H. cbn beta iota in H.
  unfold mbind at 1, M_bind at 1, modify at 1 in H. cbn beta iota in H.
  unfold _restart in H. unfold mbind at 1, M_bind at 1 in H.
  rewrite set_status_plain in H; [|reflexivity|cbn; congruence].
  unfold mbind, M_bind, modify, history_log, modify, get, mret, M_ret in H.
  cbn beta iota in H.
  assert (start_lockfile t2 = start_lockfile t) as Hl
    by (unfold start_lockfile; rewrite Hw2, Hw1; reflexivity).
  exists n. split; [exact Hn|].
  match type of H with (?X, _) = _ => assert (t' = X) as -> by congruence end.
  assert (z = 0) as -> by (destruct (status_eqb S_READY _); congruence).
  clear H.
  set (fs3 := <[join reset_dir "_counter" := RegularFile (str_of_Z n) (now W)]> (fs t2)).
  set (lock := join (workdir t) "__startlock__").
  set (F := remove (remove fs3 lock) lock).
  assert (F !! join reset_dir "_counter" = Some (RegularFile (str_of_Z n) (now W))) as Hc.
  { subst F. rewrite !remove_lookup_ne by (intros E; symmetry in E; revert E; apply join_join_ne).
    subst fs3. apply lookup_insert_eq. }
  assert (exists_ F reset_dir = true) as Hd.
  { subst F. unfold exists_.
    rewrite !remove_lookup_ne by (apply join_ne; discriminate).
    subst fs3. rewrite lookup_insert_ne by apply join_self_ne.
    unfold isdir in Hdir. destruct (fs t2 !! reset_dir) as [[]|]; try discriminate.
    reflexivity. }
  assert (read F (join reset_dir "_counter") = inr (str_of_Z n)) as Hread
    by (unfold read; rewrite Hc; reflexivity).
  assert (isfile F (start_lockfile t) = false) as Hlock by apply isfile_remove.
  assert (forall t0, workdir t0 = workdir t -> fs t0 = F -> next_reset t0 = Some (1 + n))
    as Hnext.
  { intros t0 Hw0 Hf0. unfold next_reset. rewrite Hw0, Hf0. fold reset_dir.
    rewrite Hd, Hread, int_of_str_of_Z. reflexivity. }
  clear Hl.
  destruct (status_eqb S_READY _); unfold start_lockfile, log1;
    cbn [fst workdir fs with_fs with_datetimes with_history with_num_restarts with_status];
    rewrite ?Hw2, ?Hw1; fold lock; fold F;
    (split_and!; [exact Hread|apply Hnext|reflexivity|congruence|exact Hlock]);
    cbn [fst workdir fs with_fs with_datetimes with_history with_num_restarts with_status];
    congruence.
Qed.

(** ** [ManyBodyTask.reduce_memory_demand] *)

Lemma dict_get_set (k : string) (v : PyValue) (d : list (string * PyValue)) :
  dict_get k (dict_set k v d) = Some v.
Proof.
  induction d as [|[k' v'] rest IH]; cbn [dict_set dict_get].
  - rewrite String.eqb_refl. reflexivity.
  - destruct (String.eqb k' k) eqn:E; cbn [dict_get].
    + rewrite String.eqb_refl. reflexivity.
    + rewrite E. exact IH.
Qed.

Lemma two_digits_tens (n : Z) : n mod 10 = 0 -> int_of_str (two_digits n) = Some n.
Proof.
  intros Hn. unfold two_digits.
  destruct ((0 <=? n) && (n <? 10)) eqn:E; [|apply int_of_str_of_Z].
  apply andb_true_iff in E as [H1 H2]. apply Z.leb_le in H1. apply Z.ltb_lt in H2.
  assert (n = 0) as -> by (rewrite Z.mod_small in Hn; lia). reflexivity.
Qed.

Lemma set_vars_gwmem (W : World) (n : Z) (t : Task) :
  n mod 10 = 0 ->
  exists t', set_vars W "gwmem" (VStr (two_digits n)) t = (t', inr tt) /\
    gwmem t' = inr n /\ _status t' = _status t /\ fs t' = fs t /\ manager t' = manager t.
Proof.
  intros Hn. unfold set_vars, mbind, M_bind, get, modify, history_log, modify.
  cbn beta iota. eexists. split; [reflexivity|].
  unfold gwmem. cbn [input with_history with_input _status fs manager].
  rewrite dict_get_set. cbn [from_option id int_of_value].
  rewrite two_digits_tens by exact Hn.
  split_and!; reflexivity.
Qed.

Lemma reduce_step (W : World) (t : Task) (prev : Z) :
  gwmem t = inr prev ->
  exists t' b,
    ManyBodyTask_reduce_memory_demand W t = (t', inr b) /\
    if b then exists new, gwmem t' = inr new /\ new < prev /\ new mod 10 = 0 /\
                          (new = 10 * (prev / 10) \/ new = 0)
    else t' = t /\ prev mod 10 <> 1 /\ prev / 10 <> 1.
Proof.
  intros Hg. unfold ManyBodyTask_reduce_memory_demand.
  unfold mbind at 1, M_bind at 1, get at 1. cbn beta iota.
  unfold mbind at 1, M_bind at 1, lift at 1. fold (gwmem t). rewrite Hg.
  pose proof (Z.div_mod prev 10 ltac:(lia)) as Hdm.
  pose proof (Z.mod_pos_bound prev 10 ltac:(lia)) as Hb.
  destruct (Z.eqb_spec (prev mod 10) 1) as [H1|H1].
  - destruct (set_vars_gwmem W (10 * (prev / 10)) t) as (t' & Hs & Hg' & _).
    { rewrite Z.mul_comm. apply Z.mod_mul. lia. }
    unfold mbind, M_bind. rewrite Hs. exists t', true. split; [reflexivity|].
    exists (10 * (prev / 10)). split_and!; [exact Hg'|lia| |left; reflexivity].
    rewrite Z.mul_comm. apply Z.mod_mul. lia.
  - destruct (Z.eqb_spec (prev / 10) 1) as [H2|H2].
    + destruct (set_vars_gwmem W 0 t) as (t' & Hs & Hg' & _); [reflexivity|].
      unfold mbind, M_bind. rewrite Hs. exists t', true. split; [reflexivity|].
      exists 0. split_and!; [exact Hg'|lia|reflexivity|right; reflexivity].
    + exists t, false. split; [reflexivity|]. auto.
Qed.

(** X22. [ManyBodyTask.reduce_memory_demand] never raises once [gwmem] is
    an integer. When it returns [True] the new [gwmem] is strictly lower,
    ends with the digit 0, and is read back as an integer by the next
    call; when it returns [False] the task is untouched. It returns
    [True] at most twice in a row: after two successes [gwmem] is 0 and
    the third call returns [False]. *)
Theorem ManyBodyTask_reduce_memory_demand_lowers (W : World) (t : Task) (prev : Z) :
  gwmem t = inr prev ->
  (exists t' b,
     ManyBodyTask_reduce_memory_demand W t = (t', inr b) /\
     if b then exists new, gwmem t' = inr new /\ new < prev /\ new mod 10 = 0 /\
                           (new = 10 * (prev / 10) \/ new = 0)
     else t' = t /\ prev mod 10 <> 1 /\ prev / 10 <> 1) /\
  (forall t1 t2,
     ManyBodyTask_reduce_memory_demand W t = (t1, inr true) ->
     ManyBodyTask_reduce_memory_demand W t1 = (t2, inr true) ->
     gwmem t2 = inr 0 /\ ManyBodyTask_reduce_memory_demand W t2 = (t2, inr false)).
Proof.
  intros Hg. split; [apply reduce_step, Hg|].
  intros t1 t2 E1 E2.
  destruct (reduce_step W t prev Hg) as (t1' & b1 & E1' & H1).
  rewrite E1 in E1'. injection E1' as <- <-.
  destruct H1 as (new & Hg1 & Hlt1 & Hm1 & _).
  destruct (reduce_step W t1 new Hg1) as (t2' & b2 & E2' & H2).
  rewrite E2 in E2'. injection E2' as <- <-.
  destruct H2 as (new2 & Hg2 & Hlt2 & _ & Hn2).
  assert (new2 = 0) as ->.
  { destruct Hn2 as [Hn2|Hn2]; [|exact Hn2].
    pose proof (Z.div_mod new 10 ltac:(lia)). lia. }
  split; [exact Hg2|].
  destruct (reduce_step W t2 0 Hg2) as (t3 & b3 & E3 & H3).
  destruct b3.
  - destruct H3 as (new3 & _ & Hlt3 & _ & Hn3). change (0 / 10) with 0 in Hn3. lia.
  - destruct H3 as (-> & _). exact E3.
Qed.

(** ** [fix_queue_critical] *)

(** X23. [fix_queue_critical] without any queue error, on a task that is
    not locked. A task that scales neither in memory nor in load goes
    to [S_ERROR] and [FixQueueCriticalError] is raised; so it does when
    [increase_resources] raises [ManagerIncreaseError], and the manager
    is unchanged. When the resources are increased and the reset
    returns, the task restarts: [S_READY], one more restart, with the
    new manager. *)
Theorem fix_queue_critical_unknown (W : World) (t : Task) :
  queue_errors t = [] -> _status t <> S_LOCKED ->
  let t0 := log1 INFO "fixing queue critical" t in
  (mem_scales t || load_scales t = false ->
   (fix_queue_critical W t).2 = inl FixQueueCriticalError /\
   _status (fix_queue_critical W t).1 = S_ERROR) /\
  (mem_scales t || load_scales t = true ->
   (forall msg, increase_resources (backend W) (manager t) = inl (ManagerIncreaseError msg) ->
      (fix_queue_critical W t).2 = inl FixQueueCriticalError /\
      _status (fix_queue_critical W t).1 = S_ERROR /\
      manager (fix_queue_critical W t).1 = manager t) /\
   (forall m t' z, increase_resources (backend W) (manager t) = inr m ->
      reset_from_scratch W (with_manager m t0) = (t', inr z) ->
      fix_queue_critical W t
      = (t', inr (FixText "task.fix_queue_critical: increased resources")) /\
      _status t' = S_READY /\ num_restarts t' = num_restarts t + 1 /\ manager t' = m)).
Proof.
  intros Hq Ht t0.
  assert (fix_queue_critical W t
          = (if mem_scales t || load_scales t then
               try_except
                 (manager_call (increase_resources (backend W));;
                  _ ← reset_from_scratch W;
                  mret (FixText "task.fix_queue_critical: increased resources"))
                 is_ManagerIncreaseError
                 (fun _ =>
                    _ ← set_status W S_ERROR
                          "unknown queue error, could not increase resources any further";
                    raise FixQueueCriticalError)
             else
               _ ← set_status W S_ERROR "unknown queue error, no options left";
               raise FixQueueCriticalError) t0) as E.
  { unfold fix_queue_critical, mbind, M_bind, history_log, modify, get. cbn beta iota.
    cbn [queue_errors with_history]. rewrite Hq. reflexivity. }
  rewrite E. clear E.
  assert (_status t0 <> S_LOCKED) as Ht0 by exact Ht.
  split.
  - intros Hf. change (mem_scales t0 || load_scales t0) with (mem_scales t || load_scales t).
    rewrite Hf. unfold mbind, M_bind.
    rewrite set_status_plain; [|reflexivity|exact Ht0].
    destruct (status_eqb S_ERROR (_status t0)); split; reflexivity.
  - intros Hf. change (mem_scales t0 || load_scales t0) with (mem_scales t || load_scales t).
    rewrite Hf. split.
    + intros msg Hinc. unfold try_except.
      rewrite (bind_raises _ _ t0 t0 (ManagerIncreaseError msg))
        by (apply manager_call_raises; exact Hinc).
      cbn [is_ManagerIncreaseError]. unfold mbind, M_bind.
      rewrite set_status_plain; [|reflexivity|exact Ht0].
      destruct (status_eqb S_ERROR (_status t0)); split_and!; reflexivity.
    + intros m t' z Hinc Hr. unfold try_except.
      assert ((manager_call (increase_resources (backend W));;
               _ ← reset_from_scratch W;
               mret (FixText "task.fix_queue_critical: increased resources")) t0
              = (t', inr (FixText "task.fix_queue_critical: increased resources"))) as ->.
      { etrans; [eapply bind_returns, manager_call_ok; exact Hinc|].
        etrans; [eapply bind_returns; exact Hr|reflexivity]. }
      split; [reflexivity|].
      eapply (reset_from_scratch_result W (with_manager m t0)); [exact Ht0|exact Hr].
Qed.

Lemma fix_queue_errors_unclassified (W : World) (errs : list QueueError) (t : Task) :
  Forall unclassified errs -> _status t <> S_LOCKED ->
  exists t', fix_queue_errors W errs t = (t', inr None) /\
    _status t' = match errs with [] => _status t | _ => S_ERROR end /\
    manager t' = manager t /\ num_restarts t' = num_restarts t /\ fs t' = fs t /\
    input t' = input t.
Proof.
  intros Hall. revert t. induction Hall as [|e rest [name ->] _ IH]; intros t Ht.
  - exists t. split_and!; reflexivity.
  - cbn [fix_queue_errors]. unfold mbind at 1, M_bind at 1, history_log at 1, modify at 1.
    cbn beta iota. unfold mbind at 1, M_bind at 1. unfold mbind at 1, M_bind at 1.
    rewrite set_status_plain; [|reflexivity|exact Ht].
    set (t1 := if status_eqb S_ERROR _ then _ else _).
    assert (_status t1 = S_ERROR /\ manager t1 = manager t /\
            num_restarts t1 = num_restarts t /\ fs t1 = fs t /\ input t1 = input t)
      as (H1 & H2 & H3 & H4 & H5).
    { subst t1. destruct (status_eqb S_ERROR _); split_and!; reflexivity. }
    cbn beta iota. unfold mret at 1, M_ret at 1.
    destruct (IH t1) as (t' & -> & G1 & G2 & G3 & G4 & G5); [rewrite H1; done|].
    exists t'. split_and!; [reflexivity| |congruence|congruence|congruence|congruence].
    rewrite G1, H1. destruct rest; reflexivity.
Qed.

(** X24. When every queue error is of a class that [fix_queue_critical]
    does not know, it returns 0 and the task goes to [S_ERROR]: nothing
    is raised, and manager, number of restarts, files and input are
    unchanged. *)
Theorem fix_queue_critical_unclassified (W : World) (t : Task) :
  queue_errors t <> [] -> Forall unclassified (queue_errors t) -> _status t <> S_LOCKED ->
  (fix_queue_critical W t).2 = inr FixZero /\
  _status (fix_queue_critical W t).1 = S_ERROR /\
  manager (fix_queue_critical W t).1 = manager t /\
  num_restarts (fix_queue_critical W t).1 = num_restarts t /\
  fs (fix_queue_critical W t).1 = fs t /\
  input (fix_queue_critical W t).1 = input t.
Proof.
  intros Hne Hall Ht.
  assert (fix_queue_critical W t
          = (r ← fix_queue_errors W (queue_errors t);
             match r with Some res => mret res | None => mret FixZero end)
              (log1 INFO "fixing queue critical" t)) as ->.
  { unfold fix_queue_critical, mbind, M_bind, history_log, modify, get. cbn beta iota.
    cbn [queue_errors with_history]. destruct (queue_errors t); [done|reflexivity]. }
  destruct (fix_queue_errors_unclassified W (queue_errors t)
              (log1 INFO "fixing queue critical" t) Hall Ht)
    as (t' & E & H1 & H2 & H3 & H4 & H5).
  unfold mbind, M_bind. rewrite E. cbn [fst snd].
  destruct (queue_errors t); [done|]. split_and!; auto.
Qed.

Lemma fix_queue_critical_wrap {W : World} (branch : M (option FixResult))
  (rest : list QueueError) (t0 t' : Task) (res : FixResult) :
  branch t0 = (t', inr (Some res)) ->
  (r ← (r ← branch;
        match r with
        | Some res => mret (Some res)
        | None => fix_queue_errors W rest
        end);
   match r with
   | Some res => mret res
   | None => mret FixZero
   end) t0 = (t', inr res).
Proof.
  intros H. etrans; [apply (bind_returns _ _ t0 t' (Some res))|reflexivity].
  etrans; [apply (bind_returns _ _ t0 t' (Some res)); exact H|reflexivity].
Qed.

Lemma fix_queue_critical_wrap_last {W : World} (branch : M (option FixResult))
  (t0 t' : Task) :
  branch t0 = (t', inr None) ->
  (r ← (r ← branch;
        match r with
        | Some res => mret (Some res)
        | None => fix_queue_errors W []
        end);
   match r with
   | Some res => mret res
   | None => mret FixZero
   end) t0 = (t', inr FixZero).
Proof.
  intros H. etrans; [apply (bind_returns _ _ t0 t' None)|reflexivity].
  etrans; [apply (bind_returns _ _ t0 t' None); exact H|reflexivity].
Qed.

Lemma fix_queue_critical_wrap_raises {W : World} (branch : M (option FixResult))
  (rest : list QueueError) (t0 t' : Task) (e : Exc) :
  branch t0 = (t', inl e) ->
  (r ← (r ← branch;
        match r with
        | Some res => mret (Some res)
        | None => fix_queue_errors W rest
        end);
   match r with
   | Some res => mret res
   | None => mret FixZero
   end) t0 = (t', inl e).
Proof. intros H. apply bind_raises. apply bind_raises. exact H. Qed.

Lemma speed_up_base (W : World) (t : Task) :
  task_class t <> UserTask -> speed_up W t = (t, inr false).
Proof.
  intros Hc. unfold speed_up, mbind, M_bind, get. cbn beta iota.
  destruct (task_class t); try reflexivity. done.
Qed.

(** X25. [fix_queue_critical] on a [TimeCancelError] when neither the
    time nor (for a task that scales in load) the number of cores can
    be increased. For every class but [UserTask] the base [speed_up]
    returns [False] without raising, which counts as a fix: the task is
    reset and restarted with the same manager and the same input, and
    [None] is returned. For a [UserTask] whose [speed_up] raises
    [DecreaseDemandsError], with no other error in the list, 0 is
    returned and the task goes to [S_ERROR]. *)
Theorem fix_queue_critical_time (W : World) (t : Task) (rest : list QueueError)
  (x : string) :
  queue_errors t = TimeCancelError :: rest ->
  _status t <> S_LOCKED ->
  increase_time (backend W) (manager t) = inl (ManagerIncreaseError x) ->
  (load_scales t = true ->
   exists y, increase_ncpus (backend W) (manager t) = inl (ManagerIncreaseError y)) ->
  let t1 := fixing W TimeCancelError t in
  let t2 := log1 WARNING "increasing the waltime failed" t1 in
  let t3 := if load_scales t
            then log1 WARNING
                   "increase ncpus to speed up the calculation to stay in the walltime failed"
                   t2
            else t2 in
  (task_class t <> UserTask ->
   forall t' z, reset_from_scratch W t3 = (t', inr z) ->
     fix_queue_critical W t = (t', inr FixNone) /\
     _status t' = S_READY /\ num_restarts t' = num_restarts t + 1 /\
     manager t' = manager t /\ input t' = input t) /\
  (task_class t = UserTask -> rest = [] ->
   forall inp msg, user_speed_up W (input t) = (inp, inl (DecreaseDemandsError msg)) ->
     (fix_queue_critical W t).2 = inr FixZero /\
     _status (fix_queue_critical W t).1 = S_ERROR).
Proof.
  intros Hq Ht Htime Hcpus t1 t2 t3.
  rewrite (fix_queue_critical_first W t TimeCancelError rest Hq). fold t1.
  assert (_status t3 <> S_LOCKED) as Ht3 by (subst t3; destruct (load_scales t); exact Ht).
  assert (fix_time_cancel W t1
          = (r3 ← attempt W (_ ← speed_up W; mret tt) "task speedup"
                    is_DecreaseDemandsError "decreasing demands failed";
             match r3 with
             | Some r => mret (Some r)
             | None =>
                 _ ← set_status W S_ERROR
                       ("Time cancel error detected but the time could not be increased neither could"
                        +:+ nl
                        +:+ "the time demand be decreased by speedup of increasing the number of cpus."
                        +:+ nl +:+ "Unrecoverable error.");
                 mret None
             end) t3) as Etime.
  { unfold fix_time_cancel.
    etrans; [eapply bind_returns, attempt_caught;
             [apply manager_call_raises; exact Htime|reflexivity]|].
    fold t2. cbn beta iota.
    unfold mbind at 1, M_bind at 1, get at 1. cbn beta iota.
    change (load_scales t2) with (load_scales t). subst t3.
    destruct (load_scales t) eqn:El.
    - destruct (Hcpus eq_refl) as [y Hy].
      etrans; [eapply bind_returns, attempt_caught;
               [apply manager_call_raises; exact Hy|reflexivity]|].
      reflexivity.
    - reflexivity. }
  split.
  - intros Hcls t' z Hr.
    assert (fix_time_cancel W t1 = (t', inr (Some FixNone))) as E.
    { rewrite Etime.
      etrans; [eapply bind_returns, (attempt_succeeds W _ _ _ _ t3 t3 t' z);
               [|exact Ht3|exact Hr]|reflexivity].
      unfold mbind, M_bind. rewrite speed_up_base; [reflexivity|].
      subst t3. destruct (load_scales t); exact Hcls. }
    rewrite (fix_queue_critical_wrap _ rest t1 t' FixNone E).
    split; [reflexivity|].
    destruct (reset_from_scratch_result W t3 t' z Ht3 Hr) as (H1 & H2 & H3).
    split_and!; [exact H1| | |].
    + rewrite H2. subst t3. destruct (load_scales t); reflexivity.
    + rewrite H3. subst t3. destruct (load_scales t); reflexivity.
    + pose proof (reset_from_scratch_preserves W (fun t0 => input t0 = input t)) as Hp.
      specialize (Hp ltac:(auto) ltac:(auto) ltac:(auto) ltac:(auto) ltac:(auto) t3).
      rewrite Hr in Hp. apply Hp. subst t3. destruct (load_scales t); reflexivity.
  - intros Hcls -> inp msg Hsp.
    assert (exists t', fix_time_cancel W t1 = (t', inr None) /\ _status t' = S_ERROR)
      as (t' & E & Hs).
    { rewrite Etime.
      assert (input t3 = input t) as Hi by (subst t3; destruct (load_scales t); reflexivity).
      assert (task_class t3 = UserTask) as Hc
        by (subst t3; destruct (load_scales t); exact Hcls).
      assert ((_ ← speed_up W; mret tt) t3
              = (with_input inp t3, inl (DecreaseDemandsError msg))) as Hact.
      { unfold mbind at 1, M_bind at 1. unfold speed_up, mbind, M_bind, get. cbn beta iota.
        rewrite Hc. unfold user_hook. rewrite Hi, Hsp. reflexivity. }
      rewrite (bind_returns _ _ t3 _ None
                 (attempt_caught W _ _ _ _ t3 _ _ Hact eq_refl)).
      unfold mbind, M_bind.
      rewrite set_status_plain; [|reflexivity|exact Ht3].
      eexists. split; [reflexivity|].
      destruct (status_eqb S_ERROR _); reflexivity. }
    rewrite (fix_queue_critical_wrap_last _ t1 t' E). auto.
Qed.

(** X26. [fix_queue_critical] on a [NodeFailureError]. Without the list of
    nodes the task goes to [S_ERROR] and [FixQueueCriticalError] is
    raised. With nodes, whatever [exclude_nodes] or the reset raises
    comes out as [FixQueueCriticalError]. When both succeed the task is
    restarted with the new manager, and yet, with no other error in the
    list, 0 is returned: the fix is not reported to the caller. *)
Theorem fix_queue_critical_node_failure (W : World) (t : Task)
  (nodes : option (list string)) (rest : list QueueError) :
  queue_errors t = NodeFailureError nodes :: rest ->
  _status t <> S_LOCKED ->
  let t1 := fixing W (NodeFailureError nodes) t in
  (nodes = None ->
   (fix_queue_critical W t).2 = inl FixQueueCriticalError /\
   _status (fix_queue_critical W t).1 = S_ERROR) /\
  (forall ns e, nodes = Some ns -> exclude_nodes (backend W) ns (manager t) = inl e ->
     fix_queue_critical W t = (t1, inl FixQueueCriticalError)) /\
  (forall ns m t' e, nodes = Some ns ->
     exclude_nodes (backend W) ns (manager t) = inr m ->
     reset_from_scratch W (with_manager m t1) = (t', inl e) ->
     fix_queue_critical W t = (t', inl FixQueueCriticalError)) /\
  (forall ns m t' z, nodes = Some ns -> rest = [] ->
     exclude_nodes (backend W) ns (manager t) = inr m ->
     reset_from_scratch W (with_manager m t1) = (t', inr z) ->
     fix_queue_critical W t = (t', inr FixZero) /\ _status t' = S_READY /\ manager t' = m).
Proof.
  intros Hq Ht t1.
  rewrite (fix_queue_critical_first W t (NodeFailureError nodes) rest Hq). fold t1.
  assert (_status t1 <> S_LOCKED) as Ht1 by exact Ht.
  split_and!.
  - intros ->. cbn [fix_node_failure].
    assert (exists t', fix_node_failure W None t1 = (t', inl FixQueueCriticalError)
                       /\ _status t' = S_ERROR) as (t' & E & Hs).
    { cbn [fix_node_failure]. unfold mbind, M_bind.
      rewrite set_status_plain; [|reflexivity|exact Ht1].
      eexists. split; [reflexivity|]. destruct (status_eqb S_ERROR _); reflexivity. }
    rewrite (fix_queue_critical_wrap_raises _ rest t1 t' _ E). auto.
  - intros ns e -> He. apply fix_queue_critical_wrap_raises.
    cbn [fix_node_failure]. unfold try_except.
    rewrite (bind_raises _ _ t1 t1 e) by (apply manager_call_raises; exact He).
    reflexivity.
  - intros ns m t' e -> Hm Hr. apply fix_queue_critical_wrap_raises.
    cbn [fix_node_failure]. unfold try_except.
    assert ((manager_call (exclude_nodes (backend W) ns);;
             _ ← reset_from_scratch W;
             _ ← set_status W S_READY "excluding nodes";
             mret None) t1 = (t', inl e)) as ->; [|reflexivity].
    etrans; [eapply bind_returns, manager_call_ok; exact Hm|].
    eapply bind_raises. exact Hr.
  - intros ns m t' z -> -> Hm Hr.
    destruct (reset_from_scratch_result W (with_manager m t1) t' z Ht1 Hr) as (H1 & H2 & H3).
    split; [|auto].
    apply fix_queue_critical_wrap_last.
    cbn [fix_node_failure]. unfold try_except.
    assert ((manager_call (exclude_nodes (backend W) ns);;
             _ ← reset_from_scratch W;
             _ ← set_status W S_READY "excluding nodes";
             mret None) t1 = (t', inr (None : option FixResult))) as ->; [|reflexivity].
    etrans; [eapply bind_returns, manager_call_ok; exact Hm|].
    etrans; [eapply bind_returns; exact Hr|].
    unfold mbind, M_bind. rewrite set_status_same; [reflexivity|reflexivity|exact H1].
Qed.

(** ** [Task.reset] *)

Lemma isfile_remove_mono (fs : FS) (p q : Path) :
  isfile fs q = false -> isfile (remove fs p) q = false.
Proof.
  intros H. destruct (decide (p = q)) as [->|Hne]; [apply isfile_remove|].
  unfold isfile. rewrite remove_lookup_ne by exact Hne. exact H.
Qed.

Lemma isfile_foldl_remove (fs : FS) (ps : list Path) (q : Path) :
  q ∈ ps \/ isfile fs q = false -> isfile (foldl remove fs ps) q = false.
Proof.
  revert fs. induction ps as [|p ps IH]; intros fs [Hq|Hq]; cbn [foldl].
  - apply elem_of_nil in Hq. done.
  - exact Hq.
  - apply IH. apply elem_of_cons in Hq as [->|Hq]; [right; apply isfile_remove|left; exact Hq].
  - apply IH. right. apply isfile_remove_mono, Hq.
Qed.

Lemma reset_locked (W : World) (links : Links) (t : Task) :
  _status t = S_LOCKED ->
  exists msg, reset W links t = (without_files t, links, inl (RuntimeError msg)).
Proof.
  intros Hl.
  destruct (set_status_raises W S_INIT ("Reset on " +:+ asctime W) (without_files t)
              (or_introl Hl)) as [msg E].
  exists msg. unfold reset, reset_task, mbind, M_bind, modify. fold (without_files t).
  rewrite E. reflexivity.
Qed.

Lemma reset_unlocked (W : World) (links : Links) (t : Task) :
  _status t <> S_LOCKED ->
  reset W links t
  = (with_num_restarts 0
       (if status_eqb S_INIT (_status t) then with_status S_INIT (without_files t)
        else log1 INFO (status_text W S_INIT ("Reset on " +:+ asctime W))
               (with_status S_INIT (without_files t))),
     {| qjob := None; work_finalized := false; flow_finalized := false |}, inr 0).
Proof.
  intros Hl. unfold reset, reset_task, mbind, M_bind, modify. fold (without_files t).
  rewrite set_status_plain; [|reflexivity|exact Hl]. reflexivity.
Qed.

Lemma reset_unlocked_fields (W : World) (links : Links) (t : Task) :
  _status t <> S_LOCKED ->
  let t' := (reset W links t).1.1 in
  _status t' = S_INIT /\ _returncode t' = _returncode t /\ workdir t' = workdir t /\
  fs t' = foldl remove (fs t) (reset_files t).
Proof.
  intros Ht. cbn zeta. rewrite (reset_unlocked W links t Ht). cbn [fst].
  destruct (status_eqb S_INIT (_status t)); split_and!; reflexivity.
Qed.

(** X27. [Task.reset] removes the output, log, stderr, lock, queue and
    abort files whether it succeeds or not, and never touches the return
    code, the flag [finalized], the dates and the queue errors. On a
    task that is not locked it returns 0, the status is [S_INIT], the
    restarts are 0, the job is forgotten and work and flow are no longer
    finalized. On a locked task it raises [RuntimeError] after the files
    are removed, and the status, the restarts and the links stay. *)
Theorem reset_clears (W : World) (links : Links) (t : Task) :
  let t' := (reset W links t).1.1 in
  (forall f, f ∈ reset_files t -> isfile (fs t') f = false) /\
  _returncode t' = _returncode t /\ finalized t' = finalized t /\
  datetimes t' = datetimes t /\ queue_errors t' = queue_errors t /\
  (_status t <> S_LOCKED ->
   (reset W links t).2 = inr 0 /\ _status t' = S_INIT /\ num_restarts t' = 0 /\
   (reset W links t).1.2
   = {| qjob := None; work_finalized := false; flow_finalized := false |}) /\
  (_status t = S_LOCKED ->
   (exists msg, (reset W links t).2 = inl (RuntimeError msg)) /\
   _status t' = S_LOCKED /\ num_restarts t' = num_restarts t /\
   (reset W links t).1.2 = links).
Proof.
  intros t'. subst t'.
  assert (forall f, f ∈ reset_files t -> isfile (fs (without_files t)) f = false) as Hfiles.
  { intros f Hf. apply isfile_foldl_remove. left. exact Hf. }
  destruct (decide (_status t = S_LOCKED)) as [Hl|Hl].
  - destruct (reset_locked W links t Hl) as [msg ->]. cbn [fst snd].
    split; [exact Hfiles|]. split_and!; try reflexivity.
    + intros Hn. done.
    + intros _. split_and!; eauto.
  - rewrite (reset_unlocked W links t Hl). cbn [fst snd].
    destruct (status_eqb S_INIT (_status t));
      (split; [exact Hfiles|]); split_and!; try reflexivity; try done;
      intros _; split_and!; reflexivity.
Qed.

(** X28. After a [reset] that succeeds, when none of the files it removes
    was a directory, [check_status] with a zero return code leaves the
    task in [S_INIT] untouched; as [reset] keeps the return code, a
    return code that is not zero puts the task back in [S_QCRITICAL] at
    once. *)
Theorem reset_then_check_status (W : World) (links : Links) (t : Task) :
  _status t <> S_LOCKED ->
  (forall f, f ∈ reset_files t -> isdir (fs t) f = false) ->
  let t' := (reset W links t).1.1 in
  (returncode_nonzero t = false -> check_status W t' = (t', inr S_INIT)) /\
  (returncode_nonzero t = true ->
   (check_status W t').2 = inr S_QCRITICAL /\ _status (check_status W t').1 = S_QCRITICAL).
Proof.
  intros Ht Hdirs t'.
  destruct (reset_unlocked_fields W links t Ht) as (Hs & Hrc & Hw & Hfs).
  fold t' in Hs, Hrc, Hw, Hfs.
  assert (forall f, f ∈ reset_files t -> isfile (fs t') f = false) as Hfiles.
  { intros f Hf. rewrite Hfs. apply isfile_foldl_remove. left. exact Hf. }
  assert (forall f, f ∈ reset_files t -> exists_ (fs t') f = false) as Hgone.
  { intros f Hf. specialize (Hfiles f Hf). specialize (Hdirs f Hf).
    unfold exists_, isfile in *. destruct (fs t' !! f) as [[c m|]|] eqn:E;
      [discriminate| |reflexivity].
    exfalso. rewrite Hfs in E.
    assert (isdir (foldl remove (fs t) (reset_files t)) f = true) as Hd
      by (unfold isdir; rewrite E; reflexivity).
    clear -Hd Hdirs. revert Hd Hdirs. generalize (fs t). generalize (reset_files t).
    intros ps. induction ps as [|p ps IH]; intros fs0 Hd Hdirs; cbn [foldl] in Hd;
      [congruence|].
    apply IH in Hd; [done|]. unfold isdir, remove in *.
    destruct (isfile fs0 p) eqn:Ef; [|exact Hdirs].
    destruct (decide (p = f)) as [->|Hne]; [rewrite lookup_delete_eq; reflexivity|].
    rewrite lookup_delete_ne by exact Hne. exact Hdirs. }
  assert (returncode_nonzero t' = returncode_nonzero t) as Hrn
    by (unfold returncode_nonzero; rewrite Hrc; reflexivity).
  split.
  - intros Hz. rewrite <- Hs. apply check_status_no_files.
    + congruence.
    + replace (mpiabort_file t') with (mpiabort_file t) by (unfold mpiabort_file; rewrite Hw; reflexivity).
      apply Hgone. unfold reset_files.
      repeat constructor.
    + replace (output_file t') with (output_file t) by (unfold output_file; rewrite Hw; reflexivity).
      apply Hgone. unfold reset_files.
      repeat constructor.
    + replace (stderr_file t') with (stderr_file t) by (unfold stderr_file; rewrite Hw; reflexivity).
      apply Hgone. unfold reset_files.
      repeat constructor.
    + replace (qerr_file t') with (qerr_file t) by (unfold qerr_file; rewrite Hw; reflexivity).
      apply Hgone. unfold reset_files.
      repeat constructor.
  - intros Hnz. unfold check_status, mbind, M_bind, get. cbn beta iota.
    rewrite Hrn, Hnz. rewrite set_status_plain; [|reflexivity|rewrite Hs; discriminate].
    destruct (status_eqb S_QCRITICAL _); split; reflexivity.
Qed.

(** ** [fix_abicritical] *)

Lemma foldr_add_insert (done : list Z) (i : nat) (d : Z) :
  done !! i = Some d ->
  foldr Z.add 0 (<[i := d + 1]> done) = foldr Z.add 0 done + 1.
Proof.
  revert i. induction done as [|x xs IH]; intros [|i] Hl; try discriminate.
  - injection Hl as ->. cbn. lia.
  - change (<[S i := d + 1]> (x :: xs)) with (x :: <[i := d + 1]> xs).
    cbn [foldr]. rewrite (IH i Hl). lia.
Qed.

Lemma fired_once_bound (n : nat) (cd : Counters) :
  fired_once n cd -> 0 <= cd.1 <= Z.of_nat n.
Proof.
  destruct cd as [count done]. intros (Hlen & Hall & Hsum). cbn [fst snd] in *.
  subst count n. induction Hall as [|d ds [-> | ->] _ IH]; cbn [foldr length]; lia.
Qed.

Lemma handlers_loop_fired_once (W : World) (event : AbinitEvent) (n : nat)
  (handlers : list (nat * EventHandler)) (cd : Counters) (t : Task) :
  Forall (fun p => (p.1 < n)%nat) handlers -> fired_once n cd ->
  exists t' cd', handlers_loop W event handlers cd t = (t', inr cd') /\ fired_once n cd'.
Proof.
  intros Hidx. revert cd t. induction Hidx as [|[i handler] rest Hi _ IH]; intros cd t Hcd;
    cbn [handlers_loop].
  - exists t, cd. auto.
  - destruct (can_handle handler event && (done_at cd.2 i =? 0)) eqn:Eh; [|apply IH, Hcd].
    unfold mbind at 1, M_bind at 1, history_log at 1, modify at 1. cbn beta iota.
    unfold mbind at 1, M_bind at 1, try_except.
    unfold mbind at 1, M_bind at 1.
    destruct (handle_task_event handler event _) as [t1 [exc|d]].
    + unfold mbind, M_bind, history_log, modify, mret, M_ret. cbn beta iota.
      apply IH, Hcd.
    + destruct d; cbn beta iota; unfold mret at 1, M_ret at 1; [|apply IH, Hcd].
      apply IH. apply andb_true_iff in Eh as [_ Hz]. apply Z.eqb_eq in Hz.
      destruct cd as [count done]. destruct Hcd as (Hlen & Hall & Hsum).
      cbn [fst snd] in *. unfold done_at in *.
      destruct (lookup_lt_is_Some_2 done i) as [d El]; [lia|].
      rewrite El in Hz |- *. cbn [default from_option id] in *. subst d.
      split_and!; cbn [fst snd].
      * rewrite length_insert. exact Hlen.
      * apply Forall_insert; [exact Hall|]. right. reflexivity.
      * rewrite (foldr_add_insert done i 0 El). lia.
Qed.

Lemma enumerate_index {A : Type} (l : list A) (k : nat) :
  Forall (fun p => (p.1 < k + length l)%nat) (zip (seq k (length l)) l).
Proof.
  revert k. induction l as [|x xs IH]; intros k; cbn [length seq zip zip_with];
    constructor.
  - cbn. lia.
  - eapply Forall_impl; [apply (IH (S k))|]. intros p Hp. cbn in *. lia.
Qed.

(** X29. The loops of [fix_abicritical] never raise, whatever the handlers
    do: an exception of a handler is caught and logged. Each handler
    fixes at most one event of the report, so that [count] is at most
    the number of handlers. *)
Theorem events_loop_fires_once (W : World) (events : list AbinitEvent)
  (handlers : list EventHandler) (cd : Counters) (t : Task) :
  fired_once (length handlers) cd ->
  exists t' cd',
    events_loop W events handlers cd t = (t', inr cd') /\
    fired_once (length handlers) cd' /\ 0 <= cd'.1 <= Z.of_nat (length handlers).
Proof.
  revert cd t. induction events as [|event rest IH]; intros cd t Hcd; cbn [events_loop].
  - exists t, cd. split; [reflexivity|]. split; [exact Hcd|apply fired_once_bound, Hcd].
  - destruct (handlers_loop_fired_once W event (length handlers)
                (enumerate handlers) cd t) as (t1 & cd1 & E & H1);
      [apply (enumerate_index handlers 0)|exact Hcd|].
    unfold mbind, M_bind. rewrite E. apply IH, H1.
Qed.

Lemma handlers_loop_idle (W : World) (event : AbinitEvent)
  (handlers : list (nat * EventHandler)) (cd : Counters) (t : Task) :
  (forall p, p ∈ handlers -> can_handle p.2 event = false) ->
  handlers_loop W event handlers cd t = (t, inr cd).
Proof.
  induction handlers as [|[i handler] rest IH]; intros Hno; cbn [handlers_loop];
    [reflexivity|].
  pose proof (Hno (i, handler) ltac:(left)) as Hc. cbn [snd] in Hc. rewrite Hc.
  cbn [andb]. apply IH.
  intros p Hp. apply Hno. right. exact Hp.
Qed.

Lemma events_loop_idle (W : World) (events : list AbinitEvent)
  (handlers : list EventHandler) (cd : Counters) (t : Task) :
  (forall e h, e ∈ events -> h ∈ handlers -> can_handle h e = false) ->
  events_loop W events handlers cd t = (t, inr cd).
Proof.
  induction events as [|event rest IH]; intros Hno; cbn [events_loop]; [reflexivity|].
  unfold mbind, M_bind. rewrite handlers_loop_idle.
  - apply IH. intros e h He. apply Hno. right. exact He.
  - intros [i h] Hp. apply (Hno event h); [left|].
    unfold enumerate in Hp. apply list_elem_of_lookup in Hp as [j Hj].
    apply lookup_zip_with_Some in Hj as (x & y & [= -> ->] & _ & Hy).
    eapply list_elem_of_lookup; eauto.
Qed.

Lemma set_status_plain_unlocked (W : World) (s : Status) (msg : string) :
  plain s = true -> preserves unlocked (set_status W s msg).
Proof.
  intros Hs t Ht. unfold unlocked in *. rewrite set_status_plain; [|exact Hs|exact Ht].
  destruct (status_eqb s (_status t)); cbn; intros E; rewrite E in Hs; discriminate.
Qed.

Lemma get_event_report_frame (W : World) (t : Task) :
  _status t <> S_LOCKED ->
  let t' := (get_event_report W t).1 in
  _status t' <> S_LOCKED /\ num_restarts t' = num_restarts t /\ fs t' = fs t.
Proof.
  intros Ht. split.
  - pose proof (set_status_plain_unlocked W S_ABICRITICAL) as Hset.
    assert (preserves unlocked (get_event_report W)) as Hp
      by (unfold get_event_report, parse_file; pres).
    apply Hp, Ht.
  - pose proof (set_status_plain_preserves W
                  (fun t' => num_restarts t' = num_restarts t /\ fs t' = fs t) S_ABICRITICAL)
      as Hset.
    assert (preserves (fun t' => num_restarts t' = num_restarts t /\ fs t' = fs t)
              (get_event_report W)) as Hp.
    { unfold get_event_report, parse_file. pres. }
    apply Hp. auto.
Qed.

(** X30. [fix_abicritical] on a task that is not locked returns 0 and puts
    the task in [S_ERROR], without a reset and without touching the
    files, in each of these cases: there is no event handler, there is
    no report, or no handler can handle any event of the report. *)
Theorem fix_abicritical_gives_up (W : World) (handlers : list EventHandler) (t : Task) :
  _status t <> S_LOCKED ->
  (handlers = [] \/
   (exists t1, get_event_report W t = (t1, inr None)) \/
   (exists t1 report,
      get_event_report W t = (t1, inr (Some report)) /\
      forall e h, e ∈ report_events report -> h ∈ handlers -> can_handle h e = false)) ->
  (fix_abicritical W handlers t).2 = inr 0 /\
  _status (fix_abicritical W handlers t).1 = S_ERROR /\
  num_restarts (fix_abicritical W handlers t).1 = num_restarts t /\
  fs (fix_abicritical W handlers t).1 = fs t.
Proof.
  intros Ht Hcase.
  assert (forall msg t1, _status t1 <> S_LOCKED -> num_restarts t1 = num_restarts t ->
            fs t1 = fs t ->
            forall r, r = (_ ← set_status W S_ERROR msg; mret 0) t1 ->
              r.2 = inr 0 /\ _status r.1 = S_ERROR /\
              num_restarts r.1 = num_restarts t /\ fs r.1 = fs t) as Herr.
  { intros msg t1 H1 H2 H3 r ->. unfold mbind, M_bind.
    rewrite set_status_plain; [|reflexivity|exact H1].
    destruct (status_eqb S_ERROR (_status t1)); cbn; auto. }
  destruct handlers as [|h0 hs] eqn:Eh.
  { cbn [fix_abicritical]. eapply Herr; eauto. }
  destruct Hcase as [Hnil|Hcase]; [discriminate|]. rewrite <- Eh in *.
  pose proof (get_event_report_frame W t Ht) as (F1 & F2 & F3).
  assert (fix_abicritical W handlers t
          = (report ← get_event_report W;
             match report with
             | None =>
                 _ ← set_status W S_ERROR "get_event_report returned None";
                 mret 0
             | Some report =>
                 cd ← events_loop W (report_events report) handlers
                        (0, replicate (length handlers) 0);
                 if negb (cd.1 =? 0) then
                   _ ← reset_from_scratch W;
                   mret 1
                 else
                   _ ← set_status W S_ERROR
                         "We encountered AbiCritical events that could not be fixed";
                   mret 0
             end) t) as ->.
  { rewrite Eh. reflexivity. }
  destruct Hcase as [[t1 E]|(t1 & report & E & Hno)]; rewrite E in F1, F2, F3;
    cbn [fst] in F1, F2, F3.
  - rewrite (bind_returns _ _ t t1 None E). eapply Herr; eauto.
  - rewrite (bind_returns _ _ t t1 (Some report) E).
    rewrite (bind_returns _ _ t1 t1 (0, replicate (length handlers) 0)
               (events_loop_idle W _ _ _ t1 Hno)).
    cbn [fst negb Z.eqb]. eapply Herr; eauto.
Qed.

(** ** The theorems on the tasks of [Example] *)

Lemma set_status_dates_witness :
  let t := Example.task AbinitTask S_SUB RcUnset (Example.files "log" 100) in
  _status t <> S_LOCKED /\
  start (datetimes (set_status Example.world S_RUN "restarted" t).1) = Some 20%Q /\
  submission (datetimes (set_status Example.world S_SUB "again" t).1) = Some 10%Q.
Proof.
  cbv zeta.
  assert (Hl : _status (Example.task AbinitTask S_SUB RcUnset (Example.files "log" 100))
               <> S_LOCKED) by discriminate.
  split; [exact Hl|].
  destruct (set_status_dates Example.world "restarted"
              (Example.task AbinitTask S_SUB RcUnset (Example.files "log" 100)) Hl)
    as (H1 & _).
  destruct (set_status_dates Example.world "again"
              (Example.task AbinitTask S_SUB RcUnset (Example.files "log" 100)) Hl)
    as (_ & _ & H3 & _).
  split; [exact H1|exact H3].
Defined.

Lemma check_status_precedence_witness :
  let t := Example.task AbinitTask S_RUN (RcInt 1) (Example.files "completed" 100) in
  _status t <> S_LOCKED /\ returncode_nonzero t = true /\
  (check_status Example.world t).2 = inr S_QCRITICAL /\
  fs (check_status Example.world t).1 = fs t.
Proof.
  cbv zeta.
  assert (Hl : _status (Example.task AbinitTask S_RUN (RcInt 1)
                          (Example.files "completed" 100)) <> S_LOCKED) by discriminate.
  split; [exact Hl|]. split; [reflexivity|].
  destruct (check_status_precedence Example.world
              (Example.task AbinitTask S_RUN (RcInt 1) (Example.files "completed" 100)) Hl)
    as (H1 & _).
  destruct (H1 eq_refl) as (Hr & _ & Hfs). split; [exact Hr|exact Hfs].
Defined.


Lemma check_status_abinit_errors_witness :
  let t := Example.task AbinitTask S_RUN RcUnset (Example.files "log" 100) in
  _status t <> S_LOCKED /\
  parse_events Example.failing_world "log" = inr Example.error_report /\
  errors Example.error_report <> [] /\
  (check_status Example.failing_world t).2 = inr S_ABICRITICAL /\
  abi_errors (check_status Example.failing_world t).1 = [Example.error_event].
Proof.
  cbv zeta.
  assert (Hl : _status (Example.task AbinitTask S_RUN RcUnset (Example.files "log" 100))
               <> S_LOCKED) by discriminate.
  assert (He : errors Example.error_report <> []) by (vm_compute; discriminate).
  split; [exact Hl|]. split; [reflexivity|]. split; [exact He|].
  destruct (check_status_abinit_errors Example.failing_world
              (Example.task AbinitTask S_RUN RcUnset (Example.files "log" 100))
              "log" 100 Example.error_report
              Hl eq_refl eq_refl eq_refl eq_refl eq_refl eq_refl He) as (Hr & _ & Ha & _).
  split; [exact Hr|exact Ha].
Defined.

Lemma get_event_report_never_raises_witness :
  let t := Example.task AbinitTask S_RUN RcUnset (Example.files "log" 100) in
  _status t <> S_LOCKED /\ exists_ (fs t) (log_file t) = true /\
  exists t' report, get_event_report Example.world t = (t', inr (Some report)).
Proof.
  cbv zeta.
  assert (Hl : _status (Example.task AbinitTask S_RUN RcUnset (Example.files "log" 100))
               <> S_LOCKED) by discriminate.
  split; [exact Hl|]. split; [reflexivity|].
  destruct (get_event_report_never_raises Example.world
              (Example.task AbinitTask S_RUN RcUnset (Example.files "log" 100))
              Hl eq_refl) as (t' & report & E & _).
  exists t', report. exact E.
Defined.


Lemma reset_from_scratch_counts_witness :
  let t := Example.task AbinitTask S_QCRITICAL RcUnset (Example.files "log" 100) in
  let t' := (reset_from_scratch Example.world t).1 in
  _status t <> S_LOCKED /\
  reset_from_scratch Example.world t = (t', inr 0) /\
  next_reset t = Some 1 /\
  read (fs t') (join (join (workdir t) "_reset") "_counter") = inr "1" /\
  next_reset t' = Some 2.
Proof.
  cbv zeta.
  assert (Hl : _status (Example.task AbinitTask S_QCRITICAL RcUnset
                          (Example.files "log" 100)) <> S_LOCKED) by discriminate.
  assert (E : reset_from_scratch Example.world
                (Example.task AbinitTask S_QCRITICAL RcUnset (Example.files "log" 100))
              = ((reset_from_scratch Example.world
                    (Example.task AbinitTask S_QCRITICAL RcUnset
                       (Example.files "log" 100))).1, inr 0))
    by (vm_compute; reflexivity).
  split; [exact Hl|]. split; [exact E|].
  destruct (reset_from_scratch_counts Example.world
              (Example.task AbinitTask S_QCRITICAL RcUnset (Example.files "log" 100))
              _ 0 Hl E) as (n & H1 & H2 & H3 & _).
  assert (n = 1) as -> by (vm_compute in H1; injection H1 as <-; reflexivity).
  split; [exact H1|]. split; [exact H2|exact H3].
Defined.

Lemma ManyBodyTask_reduce_memory_demand_lowers_witness :
  let t := Example.task SigmaTask S_QCRITICAL RcUnset (Example.files "log" 100) in
  gwmem t = inr 11 /\
  exists t' b,
    ManyBodyTask_reduce_memory_demand Example.world t = (t', inr b) /\
    if b then exists new, gwmem t' = inr new /\ new < 11 /\ new mod 10 = 0 /\
                          (new = 10 * (11 / 10) \/ new = 0)
    else t' = t /\ 11 mod 10 <> 1 /\ 11 / 10 <> 1.
Proof.
  cbv zeta. split; [reflexivity|].
  apply (ManyBodyTask_reduce_memory_demand_lowers Example.world
           (Example.task SigmaTask S_QCRITICAL RcUnset (Example.files "log" 100)) 11).
  reflexivity.
Defined.

Lemma fix_queue_critical_unknown_witness :
  let t := with_queue_errors []
             (Example.task AbinitTask S_QCRITICAL RcUnset (Example.files "log" 100)) in
  let m := set_qadapter (manager t)
             {| priority := 1; qtype := "shell"; qa_mpi_procs := 1; qa_omp_threads := 1;
                qa_mem_per_proc := 2048; qa_timelimit := 3600; qa_excluded_nodes := [] |} in
  let t' := (reset_from_scratch Example.world
               (with_manager m (log1 INFO "fixing queue critical" t))).1 in
  queue_errors t = [] /\ _status t <> S_LOCKED /\
  mem_scales t || load_scales t = true /\
  increase_resources (backend Example.world) (manager t) = inr m /\
  fix_queue_critical Example.world t
  = (t', inr (FixText "task.fix_queue_critical: increased resources")) /\
  _status t' = S_READY /\ num_restarts t' = num_restarts t + 1 /\ manager t' = m.
Proof.
  intros t m t'.
  assert (Hl : _status t <> S_LOCKED) by discriminate.
  assert (Em : increase_resources (backend Example.world) (manager t) = inr m)
    by reflexivity.
  assert (E : reset_from_scratch Example.world
                (with_manager m (log1 INFO "fixing queue critical" t)) = (t', inr 0))
    by (vm_compute; reflexivity).
  split; [reflexivity|]. split; [exact Hl|]. split; [reflexivity|]. split; [exact Em|].
  destruct (fix_queue_critical_unknown Example.world t eq_refl Hl) as (_ & H2).
  destruct (H2 eq_refl) as (_ & H3).
  exact (H3 m t' 0 Em E).
Defined.

Lemma fix_queue_critical_unclassified_witness :
  let t := with_queue_errors [OtherQueueError "SubmitError"]
             (Example.task AbinitTask S_QCRITICAL RcUnset (Example.files "log" 100)) in
  queue_errors t <> [] /\ Forall unclassified (queue_errors t) /\ _status t <> S_LOCKED /\
  (fix_queue_critical Example.world t).2 = inr FixZero /\
  _status (fix_queue_critical Example.world t).1 = S_ERROR /\
  manager (fix_queue_critical Example.world t).1 = manager t.
Proof.
  cbv zeta.
  assert (Hl : _status (with_queue_errors [OtherQueueError "SubmitError"]
                          (Example.task AbinitTask S_QCRITICAL RcUnset
                             (Example.files "log" 100))) <> S_LOCKED) by discriminate.
  assert (Hq : queue_errors (with_queue_errors [OtherQueueError "SubmitError"]
                               (Example.task AbinitTask S_QCRITICAL RcUnset
                                  (Example.files "log" 100))) <> []) by discriminate.
  assert (Hu : Forall unclassified
                 (queue_errors (with_queue_errors [OtherQueueError "SubmitError"]
                                  (Example.task AbinitTask S_QCRITICAL RcUnset
                                     (Example.files "log" 100))))).
  { simpl. constructor; [exists "SubmitError"; reflexivity|constructor]. }
  split; [exact Hq|]. split; [exact Hu|]. split; [exact Hl|].
  destruct (fix_queue_critical_unclassified Example.world
              (with_queue_errors [OtherQueueError "SubmitError"]
                 (Example.task AbinitTask S_QCRITICAL RcUnset (Example.files "log" 100)))
              Hq Hu Hl) as (Hr & Hs & Hm & _).
  split; [exact Hr|]. split; [exact Hs|exact Hm].
Defined.

Lemma fix_queue_critical_time_witness :
  let t := with_queue_errors [TimeCancelError]
             (Example.task AbinitTask S_QCRITICAL RcUnset (Example.files "log" 100)) in
  let t3 := log1 WARNING
              "increase ncpus to speed up the calculation to stay in the walltime failed"
              (log1 WARNING "increasing the waltime failed"
                 (fixing Example.world TimeCancelError t)) in
  let t' := (reset_from_scratch Example.world t3).1 in
  queue_errors t = [TimeCancelError] /\ _status t <> S_LOCKED /\
  increase_time (backend Example.world) (manager t)
  = inl (ManagerIncreaseError "manager failed to increase time") /\
  increase_ncpus (backend Example.world) (manager t)
  = inl (ManagerIncreaseError "manager failed to increase ncpu") /\
  task_class t <> UserTask /\
  fix_queue_critical Example.world t = (t', inr FixNone) /\
  _status t' = S_READY /\ num_restarts t' = num_restarts t + 1 /\
  manager t' = manager t /\ input t' = input t.
Proof.
  intros t t3 t'.
  assert (Hl : _status t <> S_LOCKED) by discriminate.
  assert (Hc : task_class t <> UserTask) by discriminate.
  assert (E : reset_from_scratch Example.world t3 = (t', inr 0))
    by (vm_compute; reflexivity).
  split; [reflexivity|]. split; [exact Hl|]. split; [reflexivity|]. split; [reflexivity|].
  split; [exact Hc|].
  destruct (fix_queue_critical_time Example.world t [] "manager failed to increase time"
              eq_refl Hl eq_refl
              (fun _ => ex_intro _ "manager failed to increase ncpu" eq_refl))
    as (H1 & _).
  exact (H1 Hc t' 0 E).
Defined.

Lemma fix_queue_critical_node_failure_witness :
  let t := with_queue_errors [NodeFailureError None]
             (Example.task AbinitTask S_QCRITICAL RcUnset (Example.files "log" 100)) in
  queue_errors t = [NodeFailureError None] /\ _status t <> S_LOCKED /\
  (fix_queue_critical Example.world t).2 = inl FixQueueCriticalError /\
  _status (fix_queue_critical Example.world t).1 = S_ERROR.
Proof.
  cbv zeta.
  assert (Hl : _status (with_queue_errors [NodeFailureError None]
                          (Example.task AbinitTask S_QCRITICAL RcUnset
                             (Example.files "log" 100))) <> S_LOCKED) by discriminate.
  split; [reflexivity|]. split; [exact Hl|].
  destruct (fix_queue_critical_node_failure Example.world
              (with_queue_errors [NodeFailureError None]
                 (Example.task AbinitTask S_QCRITICAL RcUnset (Example.files "log" 100)))
              None [] eq_refl Hl) as (H1 & _).
  exact (H1 eq_refl).
Defined.

Lemma reset_then_check_status_witness :
  let t := Example.task AbinitTask S_QCRITICAL (RcInt 1) (Example.files "log" 100) in
  let links := {| qjob := Some "1234"; work_finalized := true; flow_finalized := true |} in
  _status t <> S_LOCKED /\
  (forall f, f ∈ reset_files t -> isdir (fs t) f = false) /\
  (check_status Example.world (reset Example.world links t).1.1).2 = inr S_QCRITICAL.
Proof.
  cbv zeta.
  assert (Hl : _status (Example.task AbinitTask S_QCRITICAL (RcInt 1)
                          (Example.files "log" 100)) <> S_LOCKED) by discriminate.
  assert (Hd : forall f,
             f ∈ reset_files (Example.task AbinitTask S_QCRITICAL (RcInt 1)
                                (Example.files "log" 100)) ->
             isdir (fs (Example.task AbinitTask S_QCRITICAL (RcInt 1)
                          (Example.files "log" 100))) f = false).
  { intros f Hf. unfold reset_files in Hf.
    repeat (apply elem_of_cons in Hf; destruct Hf as [->|Hf]; [reflexivity|]).
    inversion Hf. }
  split; [exact Hl|]. split; [exact Hd|].
  destruct (reset_then_check_status Example.world
              {| qjob := Some "1234"; work_finalized := true; flow_finalized := true |}
              (Example.task AbinitTask S_QCRITICAL (RcInt 1) (Example.files "log" 100))
              Hl Hd) as (_ & H2).
  destruct (H2 eq_refl) as (Hr & _). exact Hr.
Defined.

Lemma events_loop_fires_once_witness :
  let t := Example.task AbinitTask S_ABICRITICAL RcUnset (Example.files "log" 100) in
  fired_once 1 (0, [0]) /\
  exists t' cd',
    events_loop Example.world [Example.error_event; Example.error_event]
      [Example.eager_handler] (0, [0]) t = (t', inr cd') /\
    0 <= cd'.1 <= 1.
Proof.
  cbv zeta.
  assert (Hf : fired_once 1 (0, [0])).
  { split; [reflexivity|]. split; [|reflexivity].
    constructor; [left; reflexivity|constructor]. }
  split; [exact Hf|].
  destruct (events_loop_fires_once Example.world
              [Example.error_event; Example.error_event] [Example.eager_handler] (0, [0])
              (Example.task AbinitTask S_ABICRITICAL RcUnset (Example.files "log" 100)) Hf)
    as (t' & cd' & E & _ & Hb).
  exists t', cd'. split; [exact E|exact Hb].
Defined.

Lemma fix_abicritical_gives_up_witness :
  let t := Example.task AbinitTask S_ABICRITICAL RcUnset (Example.files "log" 100) in
  _status t <> S_LOCKED /\
  (get_event_report Example.failing_world t).2 = inr (Some Example.error_report) /\
  (forall e h, e ∈ report_events Example.error_report -> h ∈ [Example.idle_handler] ->
     can_handle h e = false) /\
  (fix_abicritical Example.failing_world [Example.idle_handler] t).2 = inr 0 /\
  _status (fix_abicritical Example.failing_world [Example.idle_handler] t).1 = S_ERROR.
Proof.
  cbv zeta.
  assert (Hl : _status (Example.task AbinitTask S_ABICRITICAL RcUnset
                          (Example.files "log" 100)) <> S_LOCKED) by discriminate.
  assert (Hno : forall e h, e ∈ report_events Example.error_report ->
                  h ∈ [Example.idle_handler] -> can_handle h e = false).
  { intros e h _ Hh. apply list_elem_of_singleton in Hh. rewrite Hh. reflexivity. }
  split; [exact Hl|]. split; [reflexivity|]. split; [exact Hno|].
  destruct (fix_abicritical_gives_up Example.failing_world [Example.idle_handler]
              (Example.task AbinitTask S_ABICRITICAL RcUnset (Example.files "log" 100)) Hl)
    as (Hr & Hs & _).
  - right. right.
    exists (get_event_report Example.failing_world
              (Example.task AbinitTask S_ABICRITICAL RcUnset (Example.files "log" 100))).1,
      Example.error_report.
    split; [vm_compute; reflexivity|exact Hno].
  - split; [exact Hr|exact Hs].
Defined.

End TasksProps.
